(** * Quality-in-Healthcare portfolio: Statistical Process Control

    A shallow embedding of the synthetic data generator
    ([generate_data.py]), the live dashboard ([Dashboard.py]) and the
    SPC charts ([statistical_process_control.py]), with the properties
    of their formulas.

    Number model.  Python [int] is [Z].  A Python or NumPy float that is
    known to be finite is a real number [R]: rounding error of binary64
    arithmetic is not modelled, every operation is exact.  A float that
    may be non-finite is [float = option R], where [None] stands for a
    value that is not a finite number (NaN, or an infinity produced by a
    NumPy division by zero).  No modelled formula divides by, compares
    or averages a value that can be infinite, so the two need not be
    told apart.  Random draws are explicit arguments of the functions
    that make them; the argument checks NumPy performs before drawing
    are part of the model. *)

From Stdlib Require Import Reals Lra Lia ZArith List String Bool.
Import ListNotations.

Open Scope R_scope.

(* ================================================================== *)
(** * Part I: the embedding *)
(* ================================================================== *)

(** ** Python runtime: exceptions, floats, built-ins *)

Module Py.

Inductive exn : Set :=
| ValueError | TypeError | ZeroDivisionError | IndexError.

Inductive result (A : Type) : Type :=
| Ok (a : A)
| Raise (e : exn).
Arguments Ok {A} a.
Arguments Raise {A} e.

Definition bind {A B} (c : result A) (k : A -> result B) : result B :=
  match c with
  | Ok a => k a
  | Raise e => Raise e
  end.

(** A float that may be NaN or infinite. *)
Definition float := option R.

Definition lift2 (op : R -> R -> R) (a b : float) : float :=
  match a, b with
  | Some x, Some y => Some (op x y)
  | _, _ => None
  end.

Definition fadd := lift2 Rplus.
Definition fsub := lift2 Rminus.
Definition fmul := lift2 Rmult.

(** [a < b] on floats: false as soon as one side is NaN. *)
Definition flt (a b : float) : bool :=
  match a, b with
  | Some x, Some y => if Rlt_dec x y then true else false
  | _, _ => false
  end.

(** The built-ins [max(a, b)] and [min(a, b)]: the first argument is
    kept unless the second compares strictly better. *)
Definition max (a b : float) : float := if flt a b then b else a.
Definition min (a b : float) : float := if flt b a then b else a.

Definition rmax (a b : R) : R := if Rlt_dec a b then b else a.
Definition rmin (a b : R) : R := if Rlt_dec b a then b else a.
Definition zmax (a b : Z) : Z := if (a <? b)%Z then b else a.
Definition zmin (a b : Z) : Z := if (b <? a)%Z then b else a.

(** [a / b] on Python numbers. *)
Definition truediv (a b : R) : result R :=
  if Req_dec_T b 0 then Raise ZeroDivisionError else Ok (a / b).

(** [int(x)]: truncation towards zero. *)
Definition int (x : R) : Z := if Rlt_dec x 0 then Zceil x else Zfloor x.

(** Nearest integer, ties to the even one. *)
Definition round_half_even (x : R) : Z :=
  let f := Zfloor x in
  let d := x - IZR f in
  if Rlt_dec d (1/2) then f
  else if Rlt_dec (1/2) d then (f + 1)%Z
  else if Z.even f then f else (f + 1)%Z.

(** [round(x, ndigits)] on a float. *)
Definition round (x : R) (ndigits : nat) : R :=
  IZR (round_half_even (x * 10 ^ ndigits)) / 10 ^ ndigits.

Definition fround (x : float) (ndigits : nat) : float :=
  option_map (fun r => round r ndigits) x.

(** The value of [x ** y] on floats: a negative base with a
    fractional exponent gives a complex number. *)
Inductive number : Type :=
| Real (r : R)
| Complex.

Definition is_integer (y : R) : bool :=
  if Req_dec_T (IZR (Zfloor y)) y then true else false.

Definition pow (x y : R) : result number :=
  if Rlt_dec 0 x then Ok (Real (Rpower x y))
  else if Req_dec_T x 0 then
    if Rlt_dec 0 y then Ok (Real 0)
    else if Req_dec_T y 0 then Ok (Real 1)
    else Raise ZeroDivisionError
  else if is_integer y then
    Ok (Real ((if Z.even (Zfloor y) then 1 else -1) * Rpower (- x) y))
  else Ok Complex.

(** [round(v, ndigits)] on the value of an expression: complex
    numbers have no [__round__]. *)
Definition round_number (v : number) (ndigits : nat) : result R :=
  match v with
  | Real r => Ok (round r ndigits)
  | Complex => Raise TypeError
  end.

(** A [dict] with string keys, in insertion order. *)
Definition dict (V : Type) := list (string * V).

Definition keys {V} (d : dict V) : list string := map fst d.

Fixpoint setitem {V} (k : string) (v : V) (d : dict V) : dict V :=
  match d with
  | [] => [(k, v)]
  | (k', v') :: d' =>
      if String.eqb k k' then (k, v) :: d' else (k', v') :: setitem k v d'
  end.

Fixpoint getitem {V} (k : string) (d : dict V) : option V :=
  match d with
  | [] => None
  | (k', v') :: d' => if String.eqb k k' then Some v' else getitem k d'
  end.

(** [enumerate(xs)], counting from [i]. *)
Fixpoint enumerate_from {A} (i : nat) (xs : list A) : list (nat * A) :=
  match xs with
  | [] => []
  | x :: xs' => (i, x) :: enumerate_from (S i) xs'
  end.

Definition enumerate {A} (xs : list A) := enumerate_from 0 xs.

(** [l[i]] on a list: a negative index counts from the end. *)
Definition list_getitem {A} (l : list A) (i : Z) : result A :=
  let n := Z.of_nat (List.length l) in
  let i := if (i <? 0)%Z then (i + n)%Z else i in
  if ((i <? 0) || (n <=? i))%Z then Raise IndexError
  else
    match nth_error l (Z.to_nat i) with
    | Some x => Ok x
    | None => Raise IndexError
    end.

End Py.

Import Py.

Notation "x <- c ;; k" := (Py.bind c (fun x => k))
  (at level 61, c at next level, right associativity).

(** ** NumPy: random draws and element-wise functions *)

Module Np.

(** [np.random.binomial(n, p)]; [draw] is the number drawn. *)
Definition random_binomial (n : Z) (p : R) (draw : Z) : result Z :=
  if (n <? 0)%Z then Raise ValueError
  else if Rlt_dec p 0 then Raise ValueError
  else if Rlt_dec 1 p then Raise ValueError
  else Ok draw.

(** [np.random.multinomial(n, pvals)]; [draw] is the vector of counts. *)
Definition random_multinomial (n : Z) (pvals : list R) (draw : list Z)
  : result (list Z) :=
  if (n <? 0)%Z then Raise ValueError else Ok draw.

(** [np.random.gamma(shape, scale)]. *)
Definition random_gamma (shape scale : R) (draw : R) : result R :=
  if Rlt_dec shape 0 then Raise ValueError
  else if Rlt_dec scale 0 then Raise ValueError
  else Ok draw.

(** [np.random.normal(loc, scale)]. *)
Definition random_normal (loc scale : R) (draw : R) : result R :=
  if Rlt_dec scale 0 then Raise ValueError else Ok draw.

(** What a binomial draw can be. *)
Definition binomial_draw (n : Z) (k : Z) : Prop := (0 <= k <= n)%Z.

(** What a multinomial draw can be: one non-negative count per
    category, [n] in all. *)
Definition multinomial_draw (n : Z) (pvals : list R) (draw : list Z) : Prop :=
  List.length draw = List.length pvals /\
  Forall (fun c => (0 <= c)%Z) draw /\
  fold_right Z.add 0%Z draw = n.

(** [a[i]] on an array. *)
Definition item {A} (a : list A) (i : nat) : result A :=
  match nth_error a i with
  | Some x => Ok x
  | None => Raise IndexError
  end.

(** [np.log10]: NaN on a negative number, minus infinity at zero. *)
Definition log10 (x : R) : float :=
  if Rlt_dec 0 x then Some (ln x / ln 10) else None.

(** [np.sqrt]: NaN on a negative number. *)
Definition fsqrt (x : float) : float :=
  match x with
  | Some r => if Rlt_dec r 0 then None else Some (sqrt r)
  | None => None
  end.

(** Float division: a zero divisor gives an infinity or NaN. *)
Definition fdiv (a b : float) : float :=
  match a, b with
  | Some x, Some y => if Req_dec_T y 0 then None else Some (x / y)
  | _, _ => None
  end.

(** [np.random.normal(loc, scale, size)]; [draw] is the array drawn. *)
Definition random_normal_array (loc scale : R) (size : Z) (draw : list R)
  : result (list R) :=
  if Rlt_dec scale 0 then Raise ValueError
  else if (size <? 0)%Z then Raise ValueError
  else Ok draw.

(** What an array of [size] normal draws can be. *)
Definition normal_array_draw (size : Z) (draw : list R) : Prop :=
  List.length draw = Z.to_nat size.

(** [np.random.choice(range(n), size=size, replace=False)]; [draw] is
    the array of indices drawn. *)
Definition random_choice (n size : Z) (draw : list nat) : result (list nat) :=
  if (size <? 0)%Z then Raise ValueError
  else if (Z.max 0 n <? size)%Z then Raise ValueError
  else Ok draw.

(** What a choice without replacement can be: [size] different indices
    below [n]. *)
Definition choice_draw (n size : Z) (draw : list nat) : Prop :=
  List.length draw = Z.to_nat size /\
  Forall (fun i => (Z.of_nat i < n)%Z) draw /\
  NoDup draw.

(** [a[i] *= x] on an array. *)
Fixpoint imul {A} (mul : A -> A) (a : list A) (i : nat) : result (list A) :=
  match a, i with
  | [], _ => Raise IndexError
  | x :: a', O => Ok (mul x :: a')
  | x :: a', S i' =>
      match imul mul a' i' with
      | Ok a'' => Ok (x :: a'')
      | Raise e => Raise e
      end
  end.

(** [np.maximum(a, c)] on an array and a number. *)
Definition maximum (a : list R) (c : R) : list R :=
  map (fun x => if Rlt_dec x c then c else x) a.

(** [np.mean(a)] on a non-empty array of numbers. *)
Definition mean (a : list R) : R :=
  fold_right Rplus 0 a / INR (List.length a).

End Np.

(** ** pandas: columns of a dataframe *)

Module Pd.

(** A float column.  Integer columns are [list Z]. *)
Definition series := list float.

Definition of_ints (c : list Z) : series := map (fun z => Some (IZR z)) c.
Definition of_reals (c : list R) : series := map Some c.

(** Element-wise operation on two columns of one frame. *)
Fixpoint zip_with {A B C} (f : A -> B -> C) (s : list A) (t : list B)
  : list C :=
  match s, t with
  | x :: s', y :: t' => f x y :: zip_with f s' t'
  | _, _ => []
  end.

Definition dropna (s : series) : list R :=
  flat_map (fun x => match x with Some r => [r] | None => [] end) s.

Definition total (xs : list R) : R := fold_right Rplus 0 xs.

(** [s.sum()] on an integer column. *)
Definition isum (c : list Z) : Z := fold_right Z.add 0%Z c.

(** [s.mean()]: NaN entries are skipped; NaN when nothing is left. *)
Definition mean (s : series) : float :=
  match dropna s with
  | [] => None
  | xs => Some (total xs / INR (List.length xs))
  end.

(** [s.std()]: the sample standard deviation (one degree of freedom
    removed), NaN on fewer than two values. *)
Definition std (s : series) : float :=
  let xs := dropna s in
  let n := List.length xs in
  if (n <? 2)%nat then None
  else
    let m := total xs / INR n in
    Some (sqrt (total (map (fun x => (x - m) * (x - m)) xs) / (INR n - 1))).

(** [s.diff()]: NaN first, then each value minus the one before. *)
Definition diff (s : series) : series :=
  match s with
  | [] => []
  | _ :: s' => None :: zip_with fsub s' s
  end.

Definition abs (s : series) : series := map (option_map Rabs) s.

(** [s.replace(old, new)]. *)
Definition replace (old : R) (new : float) (s : series) : series :=
  map (fun x =>
         match x with
         | Some r => if Req_dec_T r old then new else x
         | None => x
         end) s.

(** [s.clip(lower=c)]; NaN stays NaN. *)
Definition clip_lower (c : R) (s : series) : series :=
  map (option_map (fun x => if Rlt_dec x c then c else x)) s.

End Pd.

(** ** The production record *)

Record row : Type := {
  Date : Z;                    (* days *)
  Line : string;
  Production_Volume : Z;
  Defects_Total : Z;
  Downtime_Total : R;
  Average_Cycle_Time : R
}.

Definition dataframe := list row.

(** ** datetime *)

Module Datetime.

Local Open Scope Z_scope.

(** A naive [datetime], counted in microseconds since 0001-01-01 00:00;
    the order of datetimes is the order of these numbers. *)
Definition datetime := Z.

(** [timedelta(days=1)]. *)
Definition day : Z := 86400000000.

(** [datetime.max], the last microsecond of the year 9999. *)
Definition max : datetime := 3652059 * day - 1.

(** [d + delta]; [None] is OverflowError, raised when the result is not
    a date of the years 1 to 9999. *)
Definition add (d : datetime) (delta : Z) : option datetime :=
  let r := (d + delta)%Z in
  if ((0 <=? r) && (r <=? max))%Z then Some r else None.

(** [d.toordinal()]: day 1 is 0001-01-01. *)
Definition toordinal (d : datetime) : Z := (d / day + 1)%Z.

(** [d.weekday()]: Monday is 0, Sunday 6. *)
Definition weekday (d : datetime) : Z := ((toordinal d + 6) mod 7)%Z.

Definition DAYS_IN_MONTH : list Z :=
  [-1; 31; 28; 31; 30; 31; 30; 31; 31; 30; 31; 30; 31]%Z.

Definition DAYS_BEFORE_MONTH : list Z :=
  [-1; 0; 31; 59; 90; 120; 151; 181; 212; 243; 273; 304; 334]%Z.

(** The proleptic Gregorian calendar, as the standard library computes
    it: year, month and day of an ordinal. *)
Definition ord2ymd (n : Z) : Z * Z * Z :=
  let n := (n - 1)%Z in
  let n400 := (n / 146097)%Z in
  let n := (n mod 146097)%Z in
  let year := (n400 * 400 + 1)%Z in
  let n100 := (n / 36524)%Z in
  let n := (n mod 36524)%Z in
  let n4 := (n / 1461)%Z in
  let n := (n mod 1461)%Z in
  let n1 := (n / 365)%Z in
  let n := (n mod 365)%Z in
  let year := (year + n100 * 100 + n4 * 4 + n1)%Z in
  if ((n1 =? 4) || (n100 =? 4))%Z then ((year - 1)%Z, 12%Z, 31%Z)
  else
    let leapyear := ((n1 =? 3) && (negb (n4 =? 24) || (n100 =? 3)))%Z in
    let month := Z.shiftr (n + 50) 5 in
    let preceding :=
      (nth (Z.to_nat month) DAYS_BEFORE_MONTH 0
       + (if (2 <? month)%Z && leapyear then 1 else 0))%Z in
    if (n <? preceding)%Z then
      let month := (month - 1)%Z in
      let preceding :=
        (preceding
         - (nth (Z.to_nat month) DAYS_IN_MONTH 0
            + (if (month =? 2)%Z && leapyear then 1 else 0)))%Z in
      (year, month, (n - preceding + 1)%Z)
    else (year, month, (n - preceding + 1)%Z).

(** [d.month]. *)
Definition month (d : datetime) : Z := snd (fst (ord2ymd (toordinal d))).

(** [datetime(year, 1, 1)] and what follows it need no more than the
    ordinal of a date: midnight of day [n]. *)
Definition of_ordinal (n : Z) : datetime := ((n - 1) * day)%Z.

End Datetime.

(** ** generate_data.py *)

Module GenerateData.

Open Scope string_scope.

(** [for i, key in enumerate(d.keys()): d[key] = value(i)]. *)
Fixpoint assign_items {V} (items : list (nat * string))
    (value : nat -> result V) (d : dict V) : result (dict V) :=
  match items with
  | [] => Ok d
  | (i, k) :: rest =>
      v <- value i ;;
      assign_items rest value (setitem k v d)
  end.

Definition defect_weights : list R := [0.35; 0.25; 0.20; 0.15; 0.05].

Definition generate_defects
    (production_volume : Z) (base_defect_rate quality_factor : R)
    (binomial : Z) (multinomial : list Z) : result (dict Z * Z) :=
  let effective_defect_rate := base_defect_rate * (1 - quality_factor) in
  total_defects <-
    Np.random_binomial production_volume effective_defect_rate binomial ;;
  let defect_types :=
    [("Dimensional", 0%Z); ("Surface", 0%Z); ("Assembly", 0%Z);
     ("Material", 0%Z); ("Other", 0%Z)] in
  if (0 <? total_defects)%Z then
    defect_distribution <-
      Np.random_multinomial total_defects defect_weights multinomial ;;
    defect_types <-
      assign_items (enumerate (keys defect_types))
                   (Np.item defect_distribution) defect_types ;;
    Ok (defect_types, total_defects)
  else Ok (defect_types, total_defects).

Definition cause_weights : list R := [0.3; 0.25; 0.2; 0.15; 0.1].

(** [uniform] is the value of [random.random()], [gamma] and
    [multinomial] the NumPy draws. *)
Definition generate_downtime
    (mean_downtime_minutes reliability_factor : R)
    (uniform gamma : R) (multinomial : list Z) : result (dict R * R) :=
  let effective_downtime := mean_downtime_minutes * (1 - reliability_factor) in
  if Rlt_dec uniform 0.8 then
    total_downtime <- Np.random_gamma 2 (effective_downtime / 2) gamma ;;
    let total_downtime :=
      rmin (rmax total_downtime 0) (mean_downtime_minutes * 5) in
    let downtime_causes :=
      [("Maintenance", 0); ("Setup/Changeover", 0); ("Breakdown", 0);
       ("Material Shortage", 0); ("Operator Absence", 0)] in
    downtime_distribution <-
      Np.random_multinomial 100 cause_weights multinomial ;;
    downtime_causes <-
      assign_items (enumerate (keys downtime_causes))
        (fun i =>
           c <- Np.item downtime_distribution i ;;
           Ok (round (total_downtime * IZR c / 100) 1))
        downtime_causes ;;
    Ok (downtime_causes, total_downtime)
  else
    Ok (map (fun cause => (cause, 0))
            ["Maintenance"; "Setup/Changeover"; "Breakdown";
             "Material Shortage"; "Operator Absence"],
        0).

Record quality_metrics : Type := {
  FPY : R;
  DPMO : Z;
  RTY : R;
  Sigma_Level : float
}.

Definition calculate_quality_metrics (defects_total production_volume : Z)
  : result quality_metrics :=
  defect_rate <-
    (if (0 <? production_volume)%Z
     then truediv (IZR defects_total) (IZR production_volume)
     else Ok 0) ;;
  let fpy := 1 - defect_rate in
  let dpmo := defect_rate * 1000000 in
  rty <- pow (1 - defect_rate) 1.5 ;;
  let sigma_level :=
    if Req_dec_T defect_rate 0 then Some 6
    else if Rle_dec 1 defect_rate then Some 0
    else Py.max (Some 0)
           (Py.min (Some 6)
              (fsub (Some 0.8406) (fmul (Some 3.42) (Np.log10 defect_rate)))) in
  let fpy_rounded := round fpy 4 in
  let dpmo_int := int dpmo in
  rty_rounded <- round_number rty 4 ;;
  Ok {| FPY := fpy_rounded;
        DPMO := dpmo_int;
        RTY := rty_rounded;
        Sigma_Level := fround sigma_level 2 |}.

(** [normal] is the value drawn by [np.random.normal]. *)
Definition generate_production_volume
    (base_capacity : Z) (efficiency_factor downtime_total : R)
    (normal : R) : result Z :=
  let available_time := 480 - downtime_total in
  let effective_capacity :=
    IZR base_capacity * (available_time / 480) * efficiency_factor in
  x <- Np.random_normal effective_capacity (effective_capacity * 0.05) normal ;;
  let actual_production := int x in
  Ok (zmax 0 (zmin actual_production (int (IZR base_capacity * 1.2)))).

(** What a loop that may run out of dates comes to: a value, or
    OverflowError. *)
Inductive outcome (A : Type) : Type :=
| Returned (a : A)
| Overflow.
Arguments Returned {A} a.
Arguments Overflow {A}.

(** The [while current_date <= end_date] loop of [generate_dates];
    [None] when [fuel] passes do not reach its end. *)
Fixpoint generate_dates_loop (fuel : nat)
    (end_date current_date : Datetime.datetime)
    (date_list : list Datetime.datetime)
  : option (outcome (list Datetime.datetime)) :=
  match fuel with
  | O => None
  | S fuel =>
      if (current_date <=? end_date)%Z then
        let date_list :=
          if (Datetime.weekday current_date <? 5)%Z
          then (date_list ++ [current_date])%list else date_list in
        match Datetime.add current_date Datetime.day with
        | Some current_date =>
            generate_dates_loop fuel end_date current_date date_list
        | None => Some Overflow
        end
      else Some (Returned date_list)
  end.

(** One pass per day from [start_date] to [end_date], and the pass in
    which the loop ends. *)
Definition generate_dates (start_date end_date : Datetime.datetime)
  : option (outcome (list Datetime.datetime)) :=
  generate_dates_loop
    (Z.to_nat ((end_date - start_date) / Datetime.day) + 2)
    end_date start_date [].

Definition generate_shifts (date_list : list Datetime.datetime)
  : list (Datetime.datetime * string) :=
  fold_left
    (fun shifts date =>
       fold_left (fun shifts shift => (shifts ++ [(date, shift)])%list)
                 ["Morning"; "Afternoon"; "Night"] shifts)
    date_list [].

(** [normal] and [choice] are the NumPy draws, [uniform k] the value
    of [random.uniform(1.5, 3.0)] in pass [k] of the loop. *)
Fixpoint spike_loop (spikes : list (nat * nat)) (uniform : nat -> R)
    (cycle_times : list R) : result (list R) :=
  match spikes with
  | [] => Ok cycle_times
  | (k, idx) :: rest =>
      cycle_times <- Np.imul (fun x => x * uniform k) cycle_times idx ;;
      spike_loop rest uniform cycle_times
  end.

Definition generate_cycle_times
    (mean_cycle_time std_dev : R) (num_records : Z) (line_efficiency : R)
    (normal : list R) (choice : list nat) (uniform : nat -> R)
  : result (list R) :=
  loc <- truediv mean_cycle_time line_efficiency ;;
  cycle_times <- Np.random_normal_array loc std_dev num_records normal ;;
  spike_indices <-
    Np.random_choice num_records (int (IZR num_records * 0.05)) choice ;;
  cycle_times <- spike_loop (enumerate spike_indices) uniform cycle_times ;;
  Ok (Np.maximum cycle_times (mean_cycle_time * 0.5)).

Record time_motion_metrics : Type := {
  Setup_Time_Minutes : R;
  Movement_Time_Seconds : R;
  Machine_Time_Seconds : R;
  Operator_Utilization : R;
  WIP_Average : R
}.

(** The four arguments after the factor are the four normal draws, in
    the order they are made. *)
Definition generate_time_motion_metrics
    (cycle_time efficiency_factor : R) (setup movement operator wip : R)
  : result time_motion_metrics :=
  setup <- Np.random_normal 15 5 setup ;;
  let setup_time := setup * (1 + (1 - efficiency_factor)) in
  movement_time <-
    Np.random_normal (cycle_time * 0.2) (cycle_time * 0.05) movement ;;
  let machine_time := cycle_time - movement_time in
  operator <- Np.random_normal 0.7 0.1 operator ;;
  let utilization := operator * efficiency_factor in
  let utilization := rmax 0.3 (rmin 0.95 utilization) in
  wip <- Np.random_normal 15 5 wip ;;
  let wip_avg := wip * (1 + (1 - efficiency_factor)) in
  Ok {| Setup_Time_Minutes := round setup_time 1;
        Movement_Time_Seconds := round movement_time 1;
        Machine_Time_Seconds := round machine_time 1;
        Operator_Utilization := round utilization 2;
        WIP_Average := round wip_avg 1 |}.

(** The parameters of a production line. *)
Record line_params : Type := {
  mean_cycle_time : R;
  cycle_time_std_dev : R;
  base_capacity : Z;
  base_defect_rate : R;
  mean_downtime : R;
  efficiency_trend : list R;
  quality_trend : list R;
  reliability_trend : list R
}.

Definition production_lines : list (string * line_params) :=
  [("Line A",
    {| mean_cycle_time := 45; cycle_time_std_dev := 5;
       base_capacity := 500; base_defect_rate := 0.025;
       mean_downtime := 30;
       efficiency_trend := [0.75; 0.78; 0.82; 0.85; 0.88; 0.90];
       quality_trend := [0.80; 0.82; 0.85; 0.87; 0.89; 0.90];
       reliability_trend := [0.82; 0.84; 0.86; 0.87; 0.89; 0.90] |});
   ("Line B",
    {| mean_cycle_time := 60; cycle_time_std_dev := 8;
       base_capacity := 400; base_defect_rate := 0.015;
       mean_downtime := 25;
       efficiency_trend := [0.88; 0.89; 0.90; 0.91; 0.92; 0.93];
       quality_trend := [0.90; 0.91; 0.92; 0.92; 0.93; 0.94];
       reliability_trend := [0.89; 0.90; 0.91; 0.92; 0.93; 0.94] |});
   ("Line C",
    {| mean_cycle_time := 30; cycle_time_std_dev := 6;
       base_capacity := 650; base_defect_rate := 0.035;
       mean_downtime := 40;
       efficiency_trend := [0.65; 0.70; 0.75; 0.80; 0.83; 0.85];
       quality_trend := [0.70; 0.75; 0.80; 0.83; 0.85; 0.87];
       reliability_trend := [0.75; 0.78; 0.82; 0.85; 0.87; 0.88] |})].

(** The random draws that go into one record.  A draw whose parameter
    is itself drawn or computed is given for every value of that
    parameter: the binomial by the number of trials, the multinomial by
    the number of defects, the cycle-time arrays by the sample size. *)
Record oracle : Type := {
  efficiency_variation : R;
  quality_variation : R;
  reliability_variation : R;
  downtime_uniform : R;
  downtime_gamma : R;
  downtime_multinomial : list Z;
  volume_normal : R;
  defects_binomial : Z -> Z;
  defects_multinomial : Z -> list Z;
  cycle_normal : Z -> list R;
  cycle_choice : Z -> list nat;
  cycle_uniform : nat -> R;
  setup_normal : R;
  movement_normal : R;
  operator_normal : R;
  wip_normal : R
}.

(** Draws that NumPy can make. *)
Definition oracle_valid (o : oracle) : Prop :=
  0 <= downtime_gamma o /\
  Np.multinomial_draw 100 cause_weights (downtime_multinomial o) /\
  (forall n, (0 <= n)%Z -> Np.binomial_draw n (defects_binomial o n)) /\
  (forall n, (0 < n)%Z ->
             Np.multinomial_draw n defect_weights (defects_multinomial o n)) /\
  (forall n, (0 <= n)%Z -> Np.normal_array_draw n (cycle_normal o n)) /\
  (forall n, (0 <= n)%Z ->
             Np.choice_draw n (int (IZR n * 0.05)) (cycle_choice o n)).

(** One record of the data set: the dictionary built in the loop of
    [generate_manufacturing_data].  The four groups of prefixed keys
    are kept as the dictionaries they are copied from; the date is kept
    as the day it is formatted from. *)
Module Rec.

Record t : Type := {
  Date : Z;
  Shift : string;
  Line : string;
  Production_Volume : Z;
  Average_Cycle_Time : R;
  Defects_Total : Z;
  Defect_Rate : R;
  Downtime_Total : R;
  Defects : dict Z;
  Downtime : dict R;
  Quality : quality_metrics;
  TimeMotion : time_motion_metrics;
  Efficiency_Factor : R;
  Quality_Factor : R;
  Reliability_Factor : R
}.

End Rec.

(** The body of the loop of [generate_manufacturing_data], for one
    line, date and shift. *)
Definition generate_record (line_name : string) (line_params : line_params)
    (date : Datetime.datetime) (shift : string) (o : oracle)
  : result Rec.t :=
  let month_idx := (Datetime.month date - 1)%Z in
  efficiency_factor <- list_getitem (efficiency_trend line_params) month_idx ;;
  quality_factor <- list_getitem (quality_trend line_params) month_idx ;;
  reliability_factor <-
    list_getitem (reliability_trend line_params) month_idx ;;
  let efficiency_factor := efficiency_factor * efficiency_variation o in
  let quality_factor := quality_factor * quality_variation o in
  let reliability_factor := reliability_factor * reliability_variation o in
  let efficiency_factor := rmax 0.5 (rmin 0.99 efficiency_factor) in
  let quality_factor := rmax 0.5 (rmin 0.99 quality_factor) in
  let reliability_factor := rmax 0.5 (rmin 0.99 reliability_factor) in
  downtime <-
    generate_downtime (mean_downtime line_params) reliability_factor
      (downtime_uniform o) (downtime_gamma o) (downtime_multinomial o) ;;
  let downtime_data := fst downtime in
  let downtime_total := snd downtime in
  production_volume <-
    generate_production_volume (base_capacity line_params) efficiency_factor
      downtime_total (volume_normal o) ;;
  defects <-
    generate_defects production_volume (base_defect_rate line_params)
      quality_factor (defects_binomial o production_volume)
      (defects_multinomial o (defects_binomial o production_volume)) ;;
  let defect_data := fst defects in
  let defects_total := snd defects in
  quality_metrics <- calculate_quality_metrics defects_total production_volume ;;
  let sample_size :=
    if (0 <? production_volume)%Z then zmin 20 production_volume else 0%Z in
  cycle_times <-
    generate_cycle_times (mean_cycle_time line_params)
      (cycle_time_std_dev line_params) sample_size efficiency_factor
      (cycle_normal o sample_size) (cycle_choice o sample_size)
      (cycle_uniform o) ;;
  let avg_cycle_time :=
    if (0 <? List.length cycle_times)%nat then Np.mean cycle_times else 0 in
  time_motion_metrics <-
    generate_time_motion_metrics avg_cycle_time efficiency_factor
      (setup_normal o) (movement_normal o) (operator_normal o)
      (wip_normal o) ;;
  defect_rate <-
    (if (0 <? production_volume)%Z
     then truediv (IZR defects_total) (IZR production_volume)
     else Ok 0) ;;
  Ok {| Rec.Date := Datetime.toordinal date;
        Rec.Shift := shift;
        Rec.Line := line_name;
        Rec.Production_Volume := production_volume;
        Rec.Average_Cycle_Time := round avg_cycle_time 2;
        Rec.Defects_Total := defects_total;
        Rec.Defect_Rate := round defect_rate 4;
        Rec.Downtime_Total := downtime_total;
        Rec.Defects := defect_data;
        Rec.Downtime := downtime_data;
        Rec.Quality := quality_metrics;
        Rec.TimeMotion := time_motion_metrics;
        Rec.Efficiency_Factor := round efficiency_factor 3;
        Rec.Quality_Factor := round quality_factor 3;
        Rec.Reliability_Factor := round reliability_factor 3 |}.

(** The loop over the shifts of one line; [draws] gives the draws of
    the record of a line at a position of the list of shifts. *)
Fixpoint shifts_loop (line_name : string) (line_params : line_params)
    (shifts : list (nat * (Datetime.datetime * string)))
    (draws : string -> nat -> oracle) (all_data : list Rec.t)
  : result (list Rec.t) :=
  match shifts with
  | [] => Ok all_data
  | (date_idx, (date, shift)) :: rest =>
      record <-
        generate_record line_name line_params date shift
          (draws line_name date_idx) ;;
      shifts_loop line_name line_params rest draws (all_data ++ [record])%list
  end.

(** The loop over the lines. *)
Fixpoint lines_loop (lines : list (string * line_params))
    (shifts : list (Datetime.datetime * string))
    (draws : string -> nat -> oracle) (all_data : list Rec.t)
  : result (list Rec.t) :=
  match lines with
  | [] => Ok all_data
  | (line_name, line_params) :: rest =>
      all_data <-
        shifts_loop line_name line_params (enumerate shifts) draws all_data ;;
      lines_loop rest shifts draws all_data
  end.

(** The data set: a frame of records, each with its Record_ID.  [None]
    when the dates are not generated (see [generate_dates]), and
    otherwise what the dates and then the records come to. *)
Definition generate_manufacturing_data
    (start_date end_date : Datetime.datetime)
    (draws : string -> nat -> oracle)
  : option (outcome (result (list (Z * Rec.t)))) :=
  match generate_dates start_date end_date with
  | None => None
  | Some Overflow => Some Overflow
  | Some (Returned date_list) =>
      let shifts := generate_shifts date_list in
      Some (Returned
              (all_data <- lines_loop production_lines shifts draws [] ;;
               Ok (map (fun ir => ((Z.of_nat (fst ir) + 1)%Z, snd ir))
                       (enumerate all_data))))
  end.

End GenerateData.

(** ** Dashboard.py *)

Module Dashboard.

Record oee_row : Type := {
  record : row;
  Availability : float;
  Performance : float;
  Quality : float;
  OEE : float
}.

(** The copy of [df] with the four derived columns assigned. *)
Definition with_columns (df : dataframe) (a p q o : Pd.series)
  : list oee_row :=
  Pd.zip_with (fun r '(a, (p, (q, o))) =>
                 {| record := r; Availability := a; Performance := p;
                    Quality := q; OEE := o |})
    df (combine a (combine p (combine q o))).

Definition calculate_oee_metrics (df : dataframe) : list oee_row :=
  let scheduled_time := Some 420 in
  let cycle_time := Pd.of_reals (map Average_Cycle_Time df) in
  let downtime := Pd.of_reals (map Downtime_Total df) in
  let volume := Pd.of_ints (map Production_Volume df) in
  let defects := Pd.of_ints (map Defects_Total df) in
  let optimal_cycle_time := fsub (Pd.mean cycle_time) (Pd.std cycle_time) in
  let availability :=
    map (fun x => Np.fdiv x scheduled_time)
        (map (fsub scheduled_time) downtime) in
  let performance :=
    map (fun x => Np.fdiv x scheduled_time)
        (map (fmul optimal_cycle_time) volume) in
  let quality :=
    Pd.zip_with Np.fdiv (Pd.zip_with fsub volume defects)
                (Pd.replace 0 None volume) in
  with_columns df availability performance quality
    (Pd.zip_with fmul (Pd.zip_with fmul availability performance) quality).

(** The four draws of one refresh: [np.random.randint(-15, 15)],
    [randint(-3, 3)], [randint(-20, 20)] and
    [np.random.uniform(-0.15, 0.15)]. *)
Record draws : Type := {
  volume_step : Z;
  defects_step : Z;
  downtime_step : Z;
  cycle_time_step : R
}.

Definition randint_draw (low high k : Z) : Prop := (low <= k < high)%Z.

Definition valid_draws (d : draws) : Prop :=
  randint_draw (-15) 15 (volume_step d) /\
  randint_draw (-3) 3 (defects_step d) /\
  randint_draw (-20) 20 (downtime_step d) /\
  -0.15 <= cycle_time_step d <= 0.15.

(** [df.iloc[-1]]. *)
Definition iloc_last (df : dataframe) : result row :=
  match rev df with
  | r :: _ => Ok r
  | [] => Raise IndexError
  end.

Definition simulate_new_row (df : dataframe) (rnd : draws)
  : result dataframe :=
  last <- iloc_last df ;;
  let new_row :=
    {| Date := Date last + 1;
       Line := Line last;
       Production_Volume :=
         zmax 0 (Production_Volume last + volume_step rnd);
       Defects_Total := zmax 0 (Defects_Total last + defects_step rnd);
       Downtime_Total :=
         rmax 0 (Downtime_Total last + IZR (downtime_step rnd));
       Average_Cycle_Time :=
         rmax 0.1 (Average_Cycle_Time last + cycle_time_step rnd) |} in
  let df := df ++ [new_row] in
  Ok (tl df).

(** The refresh loop of the page, one draw per tick. *)
Fixpoint refresh (df : dataframe) (ticks : list draws) : result dataframe :=
  match ticks with
  | [] => Ok df
  | rnd :: ticks' => df' <- simulate_new_row df rnd ;; refresh df' ticks'
  end.

(** [df['Date'].max()]: NaT on an empty column. *)
Definition date_max (df : dataframe) : option Z :=
  match df with
  | [] => None
  | r :: df' => Some (fold_left Z.max (map Date df') (Date r))
  end.

(** [df[df['Date'] >= df['Date'].max() - pd.Timedelta(days=30)]]; no
    date compares to NaT. *)
Definition last_30_days (df : dataframe) : dataframe :=
  match date_max df with
  | Some latest => filter (fun r => (latest - 30 <=? Date r)%Z) df
  | None => []
  end.

(** [s.iloc[-1]] on the derived columns. *)
Definition iloc_last_metrics (df : list oee_row) : result oee_row :=
  match rev df with
  | o :: _ => Ok o
  | [] => Raise IndexError
  end.

(** What one pass of the page loop computes: the table kept in the
    session, the metrics of its last 30 days, the current values shown
    (the last row of each derived column) and the four averages. *)
Record frame : Type := {
  session : dataframe;
  df_30 : list oee_row;
  current : oee_row;
  avg_availability : float;
  avg_performance : float;
  avg_quality : float;
  avg_oee : float
}.

Definition render (df : dataframe) (rnd : draws) : result frame :=
  df <- simulate_new_row df rnd ;;
  let df_30 := last_30_days df in
  let df_30 := calculate_oee_metrics df_30 in
  current <- iloc_last_metrics df_30 ;;
  Ok {| session := df;
        df_30 := df_30;
        current := current;
        avg_availability := Pd.mean (map Availability df_30);
        avg_performance := Pd.mean (map Performance df_30);
        avg_quality := Pd.mean (map Quality df_30);
        avg_oee := Pd.mean (map OEE df_30) |}.

End Dashboard.

(** ** statistical_process_control.py *)

Module SPC.

Record p_chart_columns : Type := {
  p_bar : float;
  p : Pd.series;
  UCL : Pd.series;
  LCL : Pd.series
}.

Definition p_chart (df : dataframe) : p_chart_columns :=
  let defects := map Defects_Total df in
  let volume := map Production_Volume df in
  let p_bar :=
    Np.fdiv (Some (IZR (Pd.isum defects))) (Some (IZR (Pd.isum volume))) in
  let half_width :=
    map (fmul (Some 3))
      (map Np.fsqrt
         (map (Np.fdiv (fmul p_bar (fsub (Some 1) p_bar)))
              (Pd.of_ints volume))) in
  {| p_bar := p_bar;
     p := Pd.zip_with Np.fdiv (Pd.of_ints defects) (Pd.of_ints volume);
     UCL := map (fadd p_bar) half_width;
     LCL := map (fsub p_bar) half_width |}.

Record imr_columns : Type := {
  Mean : Pd.series;
  MR : Pd.series;
  UCL_I : Pd.series;
  LCL_I : Pd.series
}.

Definition imr_chart_cycle_time (df : dataframe) : imr_columns :=
  let cycle_time := Pd.of_reals (map Average_Cycle_Time df) in
  let Cycle_Time_Mean := map (fun _ => Pd.mean cycle_time) df in
  let MR := Pd.abs (Pd.diff cycle_time) in
  let MR_bar := Pd.mean MR in
  {| Mean := Cycle_Time_Mean;
     MR := MR;
     UCL_I :=
       map (fun m => fadd m (fmul (Some 3) (Np.fdiv MR_bar (Some 1.128))))
           Cycle_Time_Mean;
     LCL_I :=
       map (fun m => fsub m (fmul (Some 3) (Np.fdiv MR_bar (Some 1.128))))
           Cycle_Time_Mean |}.

Definition imr_chart_downtime (df : dataframe) : imr_columns :=
  let downtime := Pd.of_reals (map Downtime_Total df) in
  let Downtime_Mean := map (fun _ => Pd.mean downtime) df in
  let MR_Downtime := Pd.abs (Pd.diff downtime) in
  let MR_bar_Downtime := Pd.mean MR_Downtime in
  {| Mean := Downtime_Mean;
     MR := MR_Downtime;
     UCL_I :=
       map (fun m =>
              fadd m (fmul (Some 3) (Np.fdiv MR_bar_Downtime (Some 1.128))))
           Downtime_Mean;
     LCL_I :=
       map (fun m =>
              fsub m (fmul (Some 3) (Np.fdiv MR_bar_Downtime (Some 1.128))))
           Downtime_Mean |}.

(** What [calculate_oee_metrics] returns, and the column it assigns.  A
    row without volume has a Performance of 0 and an infinite or NaN
    Quality, so its OEE is NaN, which the mean skips. *)
Record oee_result : Type := {
  availability : Pd.series;
  performance : Pd.series;
  quality : Pd.series;
  average_oee : float;
  OEE : Pd.series            (* the column assigned to [df] *)
}.

Definition calculate_oee_metrics (df : dataframe) : oee_result :=
  let scheduled_time := Some 420 in
  let cycle_time := Pd.of_reals (map Average_Cycle_Time df) in
  let downtime := Pd.of_reals (map Downtime_Total df) in
  let volume := Pd.of_ints (map Production_Volume df) in
  let defects := Pd.of_ints (map Defects_Total df) in
  let optimal_cycle_time := fsub (Pd.mean cycle_time) (Pd.std cycle_time) in
  let availability :=
    map (fun x => Np.fdiv x scheduled_time)
        (map (fsub scheduled_time) downtime) in
  let performance :=
    map (fun x => Np.fdiv x scheduled_time)
        (map (fmul optimal_cycle_time) volume) in
  let quality := Pd.zip_with Np.fdiv (Pd.zip_with fsub volume defects) volume in
  let oee :=
    Pd.zip_with fmul (Pd.zip_with fmul availability performance) quality in
  {| availability := availability;
     performance := performance;
     quality := quality;
     average_oee := Pd.mean oee;
     OEE := oee |}.

(** [(x > upper) | (x < lower)], the mask of the points drawn in red.
    A comparison with NaN is false; where a zero volume makes a limit
    or a proportion infinite, the other side is NaN or the same
    infinity, and the comparison is false as well. *)
Definition ooc_mask (x upper lower : Pd.series) : list bool :=
  Pd.zip_with orb (Pd.zip_with flt upper x) (Pd.zip_with flt x lower).

Definition p_chart_ooc (df : dataframe) : list bool :=
  let c := p_chart df in ooc_mask (p c) (UCL c) (LCL c).

(** The lower limit as [p_chart] draws it: [df['LCL'].clip(lower=0)]. *)
Definition p_chart_lcl_drawn (df : dataframe) : Pd.series :=
  Pd.clip_lower 0 (LCL (p_chart df)).



End SPC.

(** ** Vocabulary of the statements *)

Definition defect_names : list string :=
  ["Dimensional"; "Surface"; "Assembly"; "Material"; "Other"]%string.


(** The values of a dictionary, in key order. *)
Definition values {V} (d : dict V) : list V := map snd d.

(** The defect rate [calculate_quality_metrics] works with. *)
Definition defect_rate_of (defects_total production_volume : Z) : R :=
  if (0 <? production_volume)%Z
  then IZR defects_total / IZR production_volume
  else 0.

(** The sigma level as the specification words it: 6 at a zero defect
    rate, 0 from a defect rate of 1 on, and in between the approximation
    clamped to the interval from 0 to 6. *)
Definition sigma_level_spec (defect_rate : R) : R :=
  if Req_dec_T defect_rate 0 then 6
  else if Rle_dec 1 defect_rate then 0
  else Rmax 0 (Rmin 6 (0.8406 - 3.42 * (ln defect_rate / ln 10))).

(** The OEE decomposition of one record, as the specification words
    it; [optimal] is the optimal cycle time of the table. *)
Definition scheduled : R := 420.

Definition availability_spec (r : row) : float :=
  Np.fdiv (Some (scheduled - Downtime_Total r)) (Some scheduled).

Definition performance_spec (optimal : float) (r : row) : float :=
  Np.fdiv (fmul optimal (Some (IZR (Production_Volume r)))) (Some scheduled).

Definition quality_spec (r : row) : float :=
  Np.fdiv (Some (IZR (Production_Volume r) - IZR (Defects_Total r)))
          (Some (IZR (Production_Volume r))).

Definition oee_spec (optimal : float) (r : row) : float :=
  fmul (fmul (availability_spec r) (performance_spec optimal r))
       (quality_spec r).

(** Mean minus sample standard deviation of the cycle times. *)
Definition optimal_cycle_time (df : dataframe) : float :=
  fsub (Pd.mean (Pd.of_reals (map Average_Cycle_Time df)))
       (Pd.std (Pd.of_reals (map Average_Cycle_Time df))).

(** The row [simulate_new_row] appends after [last]. *)
Definition simulated_row (last : row) (rnd : Dashboard.draws) : row :=
  {| Date := Date last + 1;
     Line := Line last;
     Production_Volume :=
       Z.max 0 (Production_Volume last + Dashboard.volume_step rnd);
     Defects_Total := Z.max 0 (Defects_Total last + Dashboard.defects_step rnd);
     Downtime_Total :=
       Rmax 0 (Downtime_Total last + IZR (Dashboard.downtime_step rnd));
     Average_Cycle_Time :=
       Rmax 0.1 (Average_Cycle_Time last + Dashboard.cycle_time_step rnd) |}.

(** A table as the dashboard starts with: 80 to 119 units, 0 to 4
    defects, 10 to 89 minutes of downtime, cycle times of 1.5 to 2.5. *)
Definition initial_table : dataframe :=
  [ {| Date := 0; Line := "A"; Production_Volume := 80; Defects_Total := 4;
       Downtime_Total := 10; Average_Cycle_Time := 2 |};
    {| Date := 1; Line := "A"; Production_Volume := 80; Defects_Total := 4;
       Downtime_Total := 10; Average_Cycle_Time := 2 |} ].

(** Six refreshes in which the volume falls and the defects stay. *)
Definition falling_volume : list Dashboard.draws :=
  let tick (v : Z) :=
    {| Dashboard.volume_step := v; Dashboard.defects_step := 0;
       Dashboard.downtime_step := 0; Dashboard.cycle_time_step := 0 |} in
  [tick (-15); tick (-15); tick (-15); tick (-15); tick (-15); tick (-3)]%Z.

(** The arithmetic mean of a series of numbers. *)
Definition average (xs : list R) : R := Pd.total xs / INR (List.length xs).

(** The moving range: the absolute difference of each value to the one
    before it. *)
Fixpoint moving_ranges (xs : list R) : list R :=
  match xs with
  | x :: (y :: _) as rest => Rabs (y - x) :: moving_ranges rest
  | _ => []
  end.

(** The individuals control limits of the I-MR chart of a series. *)
Definition imr_ucl (xs : list R) : R :=
  average xs + 3 * (average (moving_ranges xs) / 1.128).

Definition imr_lcl (xs : list R) : R :=
  average xs - 3 * (average (moving_ranges xs) / 1.128).

(** The centre line of the p-chart and the half width of its limits on
    a row of [n] units; the half width is NaN when the number under the
    root is negative. *)
Definition p_centre (df : dataframe) : R :=
  IZR (Pd.isum (map Defects_Total df)) / IZR (Pd.isum (map Production_Volume df)).

Definition p_half_width (p_bar : R) (n : Z) : float :=
  fmul (Some 3) (Np.fsqrt (Some (p_bar * (1 - p_bar) / IZR n))).

(** The lower bounds [simulate_new_row] puts on the row it appends. *)
Definition row_in_range (r : row) : Prop :=
  (0 <= Production_Volume r)%Z /\ (0 <= Defects_Total r)%Z /\
  0 <= Downtime_Total r /\ 0.1 <= Average_Cycle_Time r.

(** One production line, one row per day. *)
Fixpoint daily (df : dataframe) : Prop :=
  match df with
  | r :: ((s :: _) as rest) =>
      Date s = (Date r + 1)%Z /\ Line s = Line r /\ daily rest
  | _ => True
  end.

(** A row whose defects are counted among its (positive number of)
    units. *)
Definition proportion_row (r : row) : Prop :=
  (0 < Production_Volume r)%Z /\
  (0 <= Defects_Total r <= Production_Volume r)%Z.

(** The proportion defective of a row. *)
Definition proportion (r : row) : R :=
  IZR (Defects_Total r) / IZR (Production_Volume r).

(** [n] consecutive days, the first of which is [d]. *)
Fixpoint days_from (n : nat) (d : Datetime.datetime) : list Datetime.datetime :=
  match n with
  | O => []
  | S n => d :: days_from n (d + Datetime.day)%Z
  end.

Definition is_workday (d : Datetime.datetime) : bool :=
  (Datetime.weekday d <? 5)%Z.

(** The three shifts of a day, in the order of the loop. *)
Definition shifts_of (d : Datetime.datetime) : list (Datetime.datetime * string) :=
  [(d, "Morning"); (d, "Afternoon"); (d, "Night")]%string.

(** Parameters of a line the generator can work with: no negative
    time, capacity or rate, and a mean downtime whose fivefold, the
    cap on the downtime drawn, is within the 480 minutes of a shift. *)
Definition line_ok (lp : GenerateData.line_params) : Prop :=
  0 <= GenerateData.mean_cycle_time lp /\
  0 <= GenerateData.cycle_time_std_dev lp /\
  (0 <= GenerateData.base_capacity lp)%Z /\
  0 <= GenerateData.base_defect_rate lp <= 1 /\
  0 <= GenerateData.mean_downtime lp <= 96.

(** The monthly trends of a line reach up to [month]. *)
Definition trends_cover (lp : GenerateData.line_params) (month : Z) : Prop :=
  (1 <= month)%Z /\
  (month <= Z.of_nat (List.length (GenerateData.efficiency_trend lp)))%Z /\
  (month <= Z.of_nat (List.length (GenerateData.quality_trend lp)))%Z /\
  (month <= Z.of_nat (List.length (GenerateData.reliability_trend lp)))%Z.

(** What holds of a record generated for a line. *)
Definition record_ok (lp : GenerateData.line_params) (r : GenerateData.Rec.t)
  : Prop :=
  (0 <= GenerateData.Rec.Defects_Total r
     <= GenerateData.Rec.Production_Volume r)%Z /\
  (GenerateData.Rec.Production_Volume r
     <= Zfloor (1.2 * IZR (GenerateData.base_capacity lp)))%Z /\
  0 <= GenerateData.Rec.Downtime_Total r <= 5 * GenerateData.mean_downtime lp /\
  0 <= GenerateData.Rec.Defect_Rate r <= 1 /\
  0 <= GenerateData.Rec.Average_Cycle_Time r /\
  0.5 <= GenerateData.Rec.Efficiency_Factor r <= 0.99 /\
  0.5 <= GenerateData.Rec.Quality_Factor r <= 0.99 /\
  0.5 <= GenerateData.Rec.Reliability_Factor r <= 0.99.

(** Draws for one record that NumPy can make: no defect is drawn, all
    cycle times are 50 seconds, the spikes are the first records of the
    sample. *)
Definition sample_oracle : GenerateData.oracle :=
  {| GenerateData.efficiency_variation := 1;
     GenerateData.quality_variation := 1;
     GenerateData.reliability_variation := 1;
     GenerateData.downtime_uniform := 0.5;
     GenerateData.downtime_gamma := 10.07;
     GenerateData.downtime_multinomial := [30; 25; 20; 15; 10]%Z;
     GenerateData.volume_normal := 421.875;
     GenerateData.defects_binomial := fun _ => 0%Z;
     GenerateData.defects_multinomial := fun n => [n; 0; 0; 0; 0]%Z;
     GenerateData.cycle_normal := fun n => repeat 50 (Z.to_nat n);
     GenerateData.cycle_choice :=
       fun n => seq 0 (Z.to_nat (int (IZR n * 0.05)));
     GenerateData.cycle_uniform := fun _ => 2;
     GenerateData.setup_normal := 15;
     GenerateData.movement_normal := 10;
     GenerateData.operator_normal := 0.7;
     GenerateData.wip_normal := 15 |}.

(** The record of a frame and the line it is of. *)
Definition record_of_line (r : GenerateData.Rec.t) : Prop :=
  exists lp,
    In (GenerateData.Rec.Line r, lp) GenerateData.production_lines /\
    record_ok lp r.

(** An entry of the enumerated list of shifts whose date is of January
    to June. *)
Definition in_first_half (it : nat * (Datetime.datetime * string)) : Prop :=
  (Datetime.month (fst (snd it)) <= 6)%Z.

(* ================================================================== *)
(** * Part II: properties *)
(* ================================================================== *)

(** ** Rounding *)

Section Rounding.

Lemma round_half_even_error (x : R) :
  Rabs (IZR (round_half_even x) - x) <= 1/2.
Proof.
  unfold round_half_even.
  pose proof (Zfloor_bound x) as [Hlo Hhi].
  destruct (Rlt_dec (x - IZR (Zfloor x)) (1/2)).
  - apply Rabs_le; lra.
  - assert (Hup : IZR (Zfloor x + 1) = IZR (Zfloor x) + 1)
      by (rewrite plus_IZR; reflexivity).
    destruct (Rlt_dec (1/2) (x - IZR (Zfloor x))).
    + rewrite Hup; apply Rabs_le; lra.
    + destruct (Z.even (Zfloor x)).
      * apply Rabs_le; lra.
      * rewrite Hup; apply Rabs_le; lra.
Qed.

(** An integer bound on [x] is a bound on its rounding. *)
Lemma round_half_even_ge (z : Z) (x : R) :
  IZR z <= x -> (z <= round_half_even x)%Z.
Proof.
  intros Hz. pose proof (Zfloor_lub z x Hz) as Hf.
  unfold round_half_even.
  repeat match goal with
         | |- context [Rlt_dec ?a ?b] => destruct (Rlt_dec a b)
         | |- context [Z.even ?a] => destruct (Z.even a)
         end; lia.
Qed.

Lemma round_half_even_le (z : Z) (x : R) :
  x <= IZR z -> (round_half_even x <= z)%Z.
Proof.
  intros Hz.
  pose proof (Zfloor_bound x) as [Hlo Hhi].
  assert (Hfz : (Zfloor x <= z)%Z) by (apply le_IZR; lra).
  destruct (Z.eq_dec (Zfloor x) z) as [Heq | Hne].
  - (* [x] is the integer [z] itself *)
    assert (Hx : x - IZR (Zfloor x) < 1/2) by (rewrite Heq; lra).
    unfold round_half_even.
    destruct (Rlt_dec (x - IZR (Zfloor x)) (1/2)); [lia | contradiction].
  - unfold round_half_even.
    repeat match goal with
           | |- context [Rlt_dec ?a ?b] => destruct (Rlt_dec a b)
           | |- context [Z.even ?a] => destruct (Z.even a)
           end; lia.
Qed.

(** Away from a tie the nearest integer is determined. *)
Lemma round_half_even_eq (z : Z) (x : R) :
  IZR z - 1/2 < x < IZR z + 1/2 -> round_half_even x = z.
Proof.
  intros [Hlo Hhi].
  pose proof (Zfloor_bound x) as [Flo Fhi].
  assert (Hcases : Zfloor x = z \/ Zfloor x = (z - 1)%Z).
  { assert (IZR (Zfloor x) < IZR (z + 1)) by (rewrite plus_IZR; lra).
    assert (IZR (z - 1) < IZR (Zfloor x) + 1) by (rewrite minus_IZR; lra).
    assert (Zfloor x < z + 1)%Z by (apply lt_IZR; assumption).
    assert (z - 1 < Zfloor x + 1)%Z
      by (apply lt_IZR; rewrite plus_IZR; assumption).
    lia. }
  unfold round_half_even.
  destruct Hcases as [E | E]; rewrite E in *.
  - destruct (Rlt_dec (x - IZR z) (1/2)); [reflexivity | lra].
  - rewrite minus_IZR in *.
    destruct (Rlt_dec (x - (IZR z - 1)) (1/2)); [lra |].
    destruct (Rlt_dec (1/2) (x - (IZR z - 1))); [lia | lra].
Qed.

Lemma pow10_pos (n : nat) : 0 < 10 ^ n.
Proof. apply pow_lt; lra. Qed.

Lemma round_eq (x : R) (n : nat) (z : Z) :
  IZR z - 1/2 < x * 10 ^ n < IZR z + 1/2 -> round x n = IZR z / 10 ^ n.
Proof.
  intros H. unfold round. rewrite (round_half_even_eq z); [reflexivity | exact H].
Qed.

(** [round(x, n)] is within half a unit of the [n]-th decimal. *)
Lemma round_error (x : R) (n : nat) :
  Rabs (round x n - x) <= / 2 / 10 ^ n.
Proof.
  unfold round.
  pose proof (pow10_pos n) as Hp.
  pose proof (round_half_even_error (x * 10 ^ n)) as He.
  replace (IZR (round_half_even (x * 10 ^ n)) / 10 ^ n - x)
    with ((IZR (round_half_even (x * 10 ^ n)) - x * 10 ^ n) / 10 ^ n)
    by (field; lra).
  unfold Rdiv at 1. rewrite Rabs_mult, (Rabs_right (/ 10 ^ n)).
  - unfold Rdiv. apply Rmult_le_compat_r.
    + left; apply Rinv_0_lt_compat; exact Hp.
    + lra.
  - apply Rle_ge; left; apply Rinv_0_lt_compat; exact Hp.
Qed.

(** Rounding keeps a value between two integers between them. *)
Lemma round_between (x : R) (n : nat) (lo hi : Z) :
  IZR lo <= x <= IZR hi -> IZR lo <= round x n <= IZR hi.
Proof.
  intros [Hlo Hhi].
  pose proof (pow10_pos n) as Hp.
  assert (Hpz : 10 ^ n = IZR (10 ^ Z.of_nat n)).
  { rewrite <- pow_IZR; reflexivity. }
  unfold round. split.
  - apply Rle_trans with (IZR (lo * 10 ^ Z.of_nat n) / 10 ^ n).
    + rewrite mult_IZR, <- Hpz. right; field; lra.
    + apply Rmult_le_compat_r; [left; apply Rinv_0_lt_compat; exact Hp |].
      apply IZR_le, round_half_even_ge.
      rewrite mult_IZR, <- Hpz. apply Rmult_le_compat_r; lra.
  - apply Rle_trans with (IZR (hi * 10 ^ Z.of_nat n) / 10 ^ n).
    + apply Rmult_le_compat_r; [left; apply Rinv_0_lt_compat; exact Hp |].
      apply IZR_le, round_half_even_le.
      rewrite mult_IZR, <- Hpz. apply Rmult_le_compat_r; lra.
    + rewrite mult_IZR, <- Hpz. right; field; lra.
Qed.

End Rounding.

(** ** The generator: defects and downtime by category *)

Section Generator.

Import GenerateData.
Open Scope string_scope.

Lemma multinomial_draw_five (n : Z) (w : list R) (m : list Z) :
  List.length w = 5%nat -> Np.multinomial_draw n w m ->
  exists a b c d e, m = [a; b; c; d; e] /\ (a + b + c + d + e = n)%Z.
Proof.
  intros Hw (Hlen & _ & Hsum). rewrite Hw in Hlen.
  destruct m as [|a [|b [|c [|d [|e [|]]]]]]; try discriminate.
  exists a, b, c, d, e. split; [reflexivity |].
  simpl in Hsum. lia.
Qed.

Lemma random_binomial_inv n q k r :
  Np.random_binomial n q k = Ok r -> r = k /\ (0 <= n)%Z /\ 0 <= q <= 1.
Proof.
  unfold Np.random_binomial.
  destruct (Z.ltb_spec n 0); [discriminate |].
  destruct (Rlt_dec q 0); [discriminate |].
  destruct (Rlt_dec 1 q); [discriminate |].
  intros [= <-]. repeat split; try lia; lra.
Qed.

(** C4. The five per-type counts returned by [generate_defects] add
    up to the returned total, whatever the volume, the rates and the
    draws; when the total is 0 all five counts are 0.  The function
    returns as soon as NumPy accepts the binomial parameters. *)
Theorem generate_defects_sum
    (production_volume : Z) (base_defect_rate quality_factor : R)
    (binomial : Z) (multinomial : list Z) :
  Np.binomial_draw production_volume binomial ->
  ((0 < binomial)%Z ->
   Np.multinomial_draw binomial defect_weights multinomial) ->
  ((0 <= production_volume)%Z ->
   0 <= base_defect_rate * (1 - quality_factor) <= 1 ->
   exists r, generate_defects production_volume base_defect_rate
               quality_factor binomial multinomial = Ok r) /\
  (forall defect_types total_defects,
      generate_defects production_volume base_defect_rate quality_factor
        binomial multinomial = Ok (defect_types, total_defects) ->
      keys defect_types = defect_names /\
      Pd.isum (values defect_types) = total_defects /\
      (total_defects = 0%Z ->
       values defect_types = [0; 0; 0; 0; 0]%Z)).
Proof.
  intros [Hb0 _] Hdraw. unfold generate_defects. split.
  - intros Hpv Hrate. unfold Np.random_binomial.
    destruct (Z.ltb_spec production_volume 0); [lia |].
    destruct (Rlt_dec _ 0); [lra |].
    destruct (Rlt_dec 1 _); [lra |].
    cbn [bind].
    destruct (Z.ltb_spec 0 binomial) as [Hpos | Hnp]; [| eexists; reflexivity].
    destruct (multinomial_draw_five binomial defect_weights multinomial eq_refl
                (Hdraw Hpos))
      as (a & b & c & d & e & -> & _).
    unfold Np.random_multinomial.
    destruct (Z.ltb_spec binomial 0); [lia |].
    cbn. eexists; reflexivity.
  - intros types total.
    destruct (Np.random_binomial _ _ _) as [t | ex] eqn:Hb; [| discriminate].
    apply random_binomial_inv in Hb as (-> & _ & _).
    cbn [bind].
    destruct (Z.ltb_spec 0 binomial) as [Hpos | Hnp].
    + destruct (multinomial_draw_five binomial defect_weights multinomial eq_refl
                (Hdraw Hpos))
        as (a & b & c & d & e & -> & Hsum).
      unfold Np.random_multinomial.
      destruct (Z.ltb_spec binomial 0); [lia |].
      cbn. intros [= <- <-]. cbn.
      repeat split; try lia.
    + intros [= <- <-]. cbn. repeat split; try lia.
Qed.

Lemma generate_defects_sum_witness :
  Np.binomial_draw 100 3 /\
  ((0 < 3)%Z -> Np.multinomial_draw 3 defect_weights [1; 1; 0; 1; 0]%Z) /\
  generate_defects 100 0.025 0.8 3 [1; 1; 0; 1; 0]%Z
    = Ok ([("Dimensional", 1); ("Surface", 1); ("Assembly", 0);
           ("Material", 1); ("Other", 0)]%Z, 3%Z) /\
  Pd.isum [1; 1; 0; 1; 0]%Z = 3%Z.
Proof.
  assert (Hd : (0 < 3)%Z ->
               Np.multinomial_draw 3 defect_weights [1; 1; 0; 1; 0]%Z).
  { intros _. repeat split; repeat constructor; lia. }
  assert (Hrun : generate_defects 100 0.025 0.8 3 [1; 1; 0; 1; 0]%Z
    = Ok ([("Dimensional", 1); ("Surface", 1); ("Assembly", 0);
           ("Material", 1); ("Other", 0)]%Z, 3%Z)).
  { unfold generate_defects, Np.random_binomial.
    destruct (Rlt_dec _ 0); [lra |].
    destruct (Rlt_dec 1 _); [lra |].
    reflexivity. }
  assert (Hb : Np.binomial_draw 100 3) by (unfold Np.binomial_draw; lia).
  split; [exact Hb |]. split; [exact Hd |]. split; [exact Hrun |].
  exact (proj1 (proj2 (proj2 (generate_defects_sum 100 0.025 0.8 3 _ Hb Hd)
                        _ _ Hrun))).
Defined.

End Generator.

Section Downtime.

Import GenerateData.
Open Scope string_scope.

Lemma Rabs_bound (a b : R) : Rabs a <= b -> - b <= a <= b.
Proof. unfold Rabs. destruct (Rcase_abs a); lra. Qed.

Lemma round_1_error (x : R) : x - 0.05 <= round x 1 <= x + 0.05.
Proof.
  pose proof (round_error x 1) as H. simpl pow in H.
  apply Rabs_bound in H. lra.
Qed.

Lemma random_gamma_inv shape scale g r :
  Np.random_gamma shape scale g = Ok r -> r = g.
Proof.
  unfold Np.random_gamma.
  destruct (Rlt_dec shape 0); [discriminate |].
  destruct (Rlt_dec scale 0); [discriminate |].
  intros [= <-]; reflexivity.
Qed.




End Downtime.

(** ** The generator: production volume *)

Section Volume.

Import GenerateData.

Lemma int_nonneg (x : R) : 0 <= x -> int x = Zfloor x.
Proof. intros H. unfold int. destruct (Rlt_dec x 0); [lra | reflexivity]. Qed.

Lemma int_IZR (z : Z) : int (IZR z) = z.
Proof.
  unfold int. destruct (Rlt_dec (IZR z) 0).
  - apply Zceil_eq. lra.
  - apply ZfloorZ.
Qed.




(** With more downtime than the shift has minutes the scale of the
    normal draw is negative and NumPy refuses it. *)
Lemma generate_production_volume_negative_scale (normal : R) :
  generate_production_volume 500 0.9 500 normal = Raise ValueError.
Proof.
  unfold generate_production_volume, Np.random_normal.
  destruct (Rlt_dec _ 0); [reflexivity | lra].
Qed.

End Volume.

(** ** The generator: quality metrics *)

Section QualityMetrics.

Import GenerateData.

Lemma is_integer_1_5 : is_integer 1.5 = false.
Proof.
  unfold is_integer.
  assert (Hf : Zfloor 1.5 = 1%Z) by (apply Zfloor_eq; lra).
  rewrite Hf. destruct (Req_dec_T (IZR 1) 1.5); [lra | reflexivity].
Qed.

Lemma Rpower_one (y : R) : Rpower 1 y = 1.
Proof. unfold Rpower. rewrite ln_1, Rmult_0_r. apply exp_0. Qed.

(** [x ** 1.5] never divides by zero. *)
Lemma pow_1_5_cases (x : R) :
  (0 <= x /\ exists r, pow x 1.5 = Ok (Real r)) \/
  (x < 0 /\ pow x 1.5 = Ok Complex).
Proof.
  unfold pow.
  destruct (Rlt_dec 0 x); [left; split; [lra | eexists; reflexivity] |].
  destruct (Req_dec_T x 0).
  - destruct (Rlt_dec 0 1.5); [| lra].
    left; split; [lra | eexists; reflexivity].
  - rewrite is_integer_1_5. right; split; [lra | reflexivity].
Qed.

Lemma defect_rate_guarded (d v : Z) :
  (if (0 <? v)%Z then truediv (IZR d) (IZR v) else Ok 0)
  = Ok (defect_rate_of d v).
Proof.
  unfold defect_rate_of, truediv.
  destruct (Z.ltb_spec 0 v) as [Hv | Hv]; [| reflexivity].
  destruct (Req_dec_T (IZR v) 0) as [E | _]; [| reflexivity].
  apply (eq_IZR v 0) in E. lia.
Qed.

Lemma round_IZR (z : Z) (n : nat) : round (IZR z) n = IZR z.
Proof.
  pose proof (pow10_pos n) as Hp.
  assert (Hpz : 10 ^ n = IZR (10 ^ Z.of_nat n)).
  { rewrite <- pow_IZR; reflexivity. }
  rewrite (round_eq _ n (z * 10 ^ Z.of_nat n)).
  - rewrite mult_IZR, <- Hpz. field; lra.
  - rewrite mult_IZR, <- Hpz. lra.
Qed.

(** C8.  [calculate_quality_metrics] never raises ZeroDivisionError,
    and when the production volume is not positive the defect rate is
    0 and the metrics are FPY = 1, DPMO = 0, RTY = 1, Sigma_Level = 6. *)
Theorem calculate_quality_metrics_no_volume
    (defects_total production_volume : Z) :
  calculate_quality_metrics defects_total production_volume
    <> Raise ZeroDivisionError /\
  (~ (0 < production_volume)%Z ->
   defect_rate_of defects_total production_volume = 0 /\
   calculate_quality_metrics defects_total production_volume
   = Ok {| FPY := 1; DPMO := 0; RTY := 1; Sigma_Level := Some 6 |}).
Proof.
  unfold calculate_quality_metrics. rewrite defect_rate_guarded.
  cbn [bind]. split.
  - destruct (pow_1_5_cases (1 - defect_rate_of defects_total production_volume))
      as [[_ [r ->]] | [_ ->]]; cbn [bind round_number]; discriminate.
  - intros Hv.
    assert (Hr : defect_rate_of defects_total production_volume = 0).
    { unfold defect_rate_of.
      destruct (Z.ltb_spec 0 production_volume); [lia | reflexivity]. }
    split; [exact Hr |]. rewrite Hr.
    replace (1 - 0) with 1 by lra.
    unfold pow. destruct (Rlt_dec 0 1); [| lra].
    cbn [bind round_number]. rewrite Rpower_one.
    destruct (Req_dec_T 0 0) as [_ | N]; [| contradiction].
    cbn [fround option_map].
    replace (0 * 1000000) with (IZR 0) by lra.
    rewrite int_IZR, (round_IZR 1), (round_IZR 6). reflexivity.
Qed.

Lemma calculate_quality_metrics_no_volume_witness :
  ~ (0 < 0)%Z /\
  calculate_quality_metrics 3 0
  = Ok {| FPY := 1; DPMO := 0; RTY := 1; Sigma_Level := Some 6 |}.
Proof.
  split; [lia |].
  apply (proj2 (calculate_quality_metrics_no_volume 3 0)). lia.
Defined.

Lemma clamp_range (x : R) : 0 <= Rmax 0 (Rmin 6 x) <= 6.
Proof.
  unfold Rmax, Rmin.
  repeat match goal with
         | |- context [Rle_dec ?a ?b] => destruct (Rle_dec a b)
         end; lra.
Qed.

(** The built-ins [max] and [min] clamp a finite value as [Rmax] and
    [Rmin] do. *)
Lemma py_clamp (x : R) :
  Py.max (Some 0) (Py.min (Some 6) (Some x)) = Some (Rmax 0 (Rmin 6 x)).
Proof.
  unfold Py.min. cbn [flt].
  destruct (Rlt_dec x 6) as [Hx | Hx]; unfold Py.max; cbn [flt].
  - destruct (Rlt_dec 0 x); f_equal; unfold Rmax, Rmin;
      destruct (Rle_dec 6 x); try lra; destruct (Rle_dec 0 _); lra.
  - destruct (Rlt_dec 0 6); [| lra]. f_equal. unfold Rmax, Rmin.
    destruct (Rle_dec 6 x); [| lra]. destruct (Rle_dec 0 6); lra.
Qed.

(** C9, as the code has it.  For non-negative defects and volume with
    a defect rate of at most 1, [calculate_quality_metrics] returns,
    and its Sigma_Level is a number between 0 and 6: it is 6 at a
    zero defect rate, 0 at a defect rate of 1, and otherwise the
    clamped approximation rounded to two decimals. *)
Theorem sigma_level_range (defects_total production_volume : Z) :
  (0 <= defects_total)%Z -> (0 <= production_volume)%Z ->
  defect_rate_of defects_total production_volume <= 1 ->
  exists m s,
    calculate_quality_metrics defects_total production_volume = Ok m /\
    Sigma_Level m = Some s /\
    0 <= s <= 6 /\
    s = round (sigma_level_spec
                 (defect_rate_of defects_total production_volume)) 2 /\
    (defect_rate_of defects_total production_volume = 0 -> s = 6) /\
    (1 <= defect_rate_of defects_total production_volume -> s = 0).
Proof.
  intros Hd Hv Hle.
  unfold calculate_quality_metrics. rewrite defect_rate_guarded.
  set (rate := defect_rate_of defects_total production_volume) in *.
  cbn [bind].
  destruct (pow_1_5_cases (1 - rate)) as [[_ [r ->]] | [Hneg _]]; [| lra].
  cbn [bind round_number]. unfold sigma_level_spec.
  destruct (Req_dec_T rate 0) as [E0 | N0].
  - eexists; exists (round 6 2). split; [reflexivity |].
    cbn [Sigma_Level fround option_map]. split; [reflexivity |].
    rewrite (round_IZR 6). repeat split; try lra.
  - destruct (Rle_dec 1 rate) as [G1 | L1].
    + eexists; exists (round 0 2). split; [reflexivity |].
      cbn [Sigma_Level fround option_map]. split; [reflexivity |].
      rewrite (round_IZR 0). repeat split; try lra.
    + assert (Hpos : 0 < rate).
      { assert (0 <= rate); [| lra]. unfold rate, defect_rate_of.
        destruct (Z.ltb_spec 0 production_volume); [| lra].
        apply Rmult_le_pos; [apply IZR_le; lia |].
        left; apply Rinv_0_lt_compat, IZR_lt; lia. }
      unfold Np.log10. destruct (Rlt_dec 0 rate); [| contradiction].
      cbn [fsub fmul lift2]. rewrite py_clamp.
      eexists; eexists. split; [reflexivity |].
      cbn [Sigma_Level fround option_map]. split; [reflexivity |].
      split; [| repeat split; intros; lra].
      apply (round_between _ 2 0 6), clamp_range.
Qed.

Lemma sigma_level_range_witness :
  (0 <= 1)%Z /\ (0 <= 10)%Z /\ defect_rate_of 1 10 <= 1 /\
  exists m s,
    calculate_quality_metrics 1 10 = Ok m /\
    Sigma_Level m = Some s /\ 0 <= s <= 6.
Proof.
  assert (Hr : defect_rate_of 1 10 <= 1) by (unfold defect_rate_of; simpl; lra).
  split; [lia |]. split; [lia |]. split; [exact Hr |].
  destruct (sigma_level_range 1 10 ltac:(lia) ltac:(lia) Hr)
    as (m & s & Hm & Hs & Hrange & _).
  exists m, s. repeat split; try assumption; apply Hrange.
Defined.

Lemma log10_tenth : Np.log10 (1 / 10) = Some (-1).
Proof.
  unfold Np.log10. destruct (Rlt_dec 0 (1 / 10)); [| lra].
  f_equal. replace (1 / 10) with (/ 10) by lra. rewrite ln_Rinv by lra.
  assert (0 < ln 10) by (rewrite <- ln_1; apply ln_increasing; lra).
  field. lra.
Qed.

(** C9, as stated, fails at 1 defect in 10 units: the approximation
    is 4.2606 and the Sigma_Level returned is 4.26. *)
Lemma sigma_level_is_rounded :
  exists m,
    calculate_quality_metrics 1 10 = Ok m /\
    Sigma_Level m = Some 4.26 /\
    sigma_level_spec (defect_rate_of 1 10) = 4.2606 /\
    Sigma_Level m <> Some (sigma_level_spec (defect_rate_of 1 10)).
Proof.
  assert (Hr : defect_rate_of 1 10 = 1 / 10) by reflexivity.
  assert (Hspec : sigma_level_spec (1 / 10) = 4.2606).
  { unfold sigma_level_spec.
    destruct (Req_dec_T (1 / 10) 0); [lra |].
    destruct (Rle_dec 1 (1 / 10)); [lra |].
    pose proof log10_tenth as Hl. unfold Np.log10 in Hl.
    destruct (Rlt_dec 0 (1 / 10)); [| lra].
    injection Hl as ->. unfold Rmax, Rmin.
    destruct (Rle_dec 6 _); [lra |].
    destruct (Rle_dec 0 _); lra. }
  assert (Hrun : exists m, calculate_quality_metrics 1 10 = Ok m /\
                           Sigma_Level m = Some 4.26).
  { unfold calculate_quality_metrics. rewrite defect_rate_guarded, Hr.
    cbn [bind]. unfold pow. destruct (Rlt_dec 0 (1 - 1 / 10)); [| lra].
    cbn [bind round_number].
    destruct (Req_dec_T (1 / 10) 0); [lra |].
    destruct (Rle_dec 1 (1 / 10)); [lra |].
    rewrite log10_tenth. cbn [fsub fmul lift2]. rewrite py_clamp.
    eexists; split; [reflexivity |].
    cbn [Sigma_Level fround option_map]. f_equal.
    replace (Rmax 0 (Rmin 6 (0.8406 - 3.42 * -1))) with 4.2606.
    - rewrite (round_eq _ 2 426) by (simpl pow; lra). simpl pow. lra.
    - unfold Rmax, Rmin.
      destruct (Rle_dec 6 _); [lra |].
      destruct (Rle_dec 0 _); lra. }
  destruct Hrun as (m & Hm & Hs). exists m.
  rewrite Hr, Hspec, Hs. repeat split; try assumption.
  intros [= E]. lra.
Qed.

(** More defects than units: the yield to the power 1.5 is a complex
    number, and rounding it raises TypeError before anything is
    returned. *)
Lemma calculate_quality_metrics_excess_defects :
  calculate_quality_metrics 5 3 = Raise TypeError.
Proof.
  unfold calculate_quality_metrics. rewrite defect_rate_guarded.
  assert (Hr : defect_rate_of 5 3 = 5 / 3) by reflexivity.
  rewrite Hr. cbn [bind].
  destruct (pow_1_5_cases (1 - 5 / 3)) as [[Hp _] | [_ ->]]; [lra |].
  reflexivity.
Qed.

End QualityMetrics.

(** ** The metrics engine: OEE *)

Section OEE.

Lemma zip_with_map {A B C D E} (f : C -> D -> E) (g : A -> C) (h : B -> D)
    (s : list A) (t : list B) :
  Pd.zip_with f (map g s) (map h t) = Pd.zip_with (fun x y => f (g x) (h y)) s t.
Proof.
  revert t. induction s as [| x s IH]; intros [| y t]; cbn; try reflexivity.
  now rewrite IH.
Qed.

Lemma zip_with_diag {A C} (f : A -> A -> C) (s : list A) :
  Pd.zip_with f s s = map (fun x => f x x) s.
Proof. induction s as [| x s IH]; cbn; [reflexivity | now rewrite IH]. Qed.

(** Columns computed from the columns of one frame are computed row
    by row. *)
Lemma zip_with_columns {A B C D} (f : B -> C -> D) (g : A -> B) (h : A -> C)
    (df : list A) :
  Pd.zip_with f (map g df) (map h df) = map (fun r => f (g r) (h r)) df.
Proof. rewrite zip_with_map. apply zip_with_diag. Qed.

Lemma combine_columns {A B C} (g : A -> B) (h : A -> C) (df : list A) :
  combine (map g df) (map h df) = map (fun r => (g r, h r)) df.
Proof. induction df as [| r df IH]; cbn; [reflexivity | now rewrite IH]. Qed.

Lemma quality_replace_zero (r : row) :
  Np.fdiv (fsub (Some (IZR (Production_Volume r)))
                (Some (IZR (Defects_Total r))))
          (if Req_dec_T (IZR (Production_Volume r)) 0
           then None else Some (IZR (Production_Volume r)))
  = quality_spec r.
Proof.
  unfold quality_spec, Np.fdiv. cbn [fsub lift2].
  destruct (Req_dec_T (IZR (Production_Volume r)) 0) as [E | N].
  - reflexivity.
  - destruct (Req_dec_T (IZR (Production_Volume r)) 0); [contradiction |].
    reflexivity.
Qed.

(** On a row without volume the Quality, and with it the OEE, is not a
    number. *)
Lemma quality_spec_zero_volume (optimal : float) (r : row) :
  Production_Volume r = 0%Z ->
  quality_spec r = None /\ oee_spec optimal r = None.
Proof.
  intros Hv. unfold oee_spec, quality_spec, Np.fdiv. rewrite Hv.
  destruct (Req_dec_T (IZR 0) 0) as [_ | N]; [| contradiction].
  split; [reflexivity |].
  destruct (fmul (availability_spec r) (performance_spec optimal r));
    reflexivity.
Qed.

(** The dashboard's engine, row by row. *)
Lemma dashboard_oee_rows (df : dataframe) :
  Dashboard.calculate_oee_metrics df =
  map (fun r =>
         {| Dashboard.record := r;
            Dashboard.Availability := availability_spec r;
            Dashboard.Performance := performance_spec (optimal_cycle_time df) r;
            Dashboard.Quality := quality_spec r;
            Dashboard.OEE := oee_spec (optimal_cycle_time df) r |}) df.
Proof.
  unfold Dashboard.calculate_oee_metrics, Dashboard.with_columns.
  fold (optimal_cycle_time df).
  unfold Pd.replace, Pd.of_ints, Pd.of_reals.
  rewrite !map_map.
  rewrite (zip_with_columns fsub).
  rewrite (zip_with_columns Np.fdiv).
  rewrite (zip_with_columns fmul).
  rewrite (zip_with_columns fmul).
  rewrite !combine_columns.
  rewrite <- (map_id df) at 1.
  rewrite zip_with_columns.
  apply map_ext. intros r.
  rewrite quality_replace_zero. reflexivity.
Qed.

(** C1.  In both engines the OEE column is, on every row, the product
    of that row's Availability, Performance and Quality, which are
    (scheduled - Downtime_Total)/scheduled,
    (optimal_cycle_time x Production_Volume)/scheduled and
    (Production_Volume - Defects_Total)/Production_Volume. *)
Theorem oee_is_product (df : dataframe) :
  let optimal := optimal_cycle_time df in
  (map Dashboard.record (Dashboard.calculate_oee_metrics df) = df /\
   map Dashboard.Availability (Dashboard.calculate_oee_metrics df)
     = map availability_spec df /\
   map Dashboard.Performance (Dashboard.calculate_oee_metrics df)
     = map (performance_spec optimal) df /\
   map Dashboard.Quality (Dashboard.calculate_oee_metrics df)
     = map quality_spec df /\
   map Dashboard.OEE (Dashboard.calculate_oee_metrics df)
     = map (fun r => fmul (fmul (availability_spec r)
                                (performance_spec optimal r))
                          (quality_spec r)) df) /\
  (SPC.availability (SPC.calculate_oee_metrics df)
     = map availability_spec df /\
   SPC.performance (SPC.calculate_oee_metrics df)
     = map (performance_spec optimal) df /\
   SPC.quality (SPC.calculate_oee_metrics df) = map quality_spec df /\
   SPC.OEE (SPC.calculate_oee_metrics df)
     = map (fun r => fmul (fmul (availability_spec r)
                                (performance_spec optimal r))
                          (quality_spec r)) df).
Proof.
  cbv zeta. split.
  - rewrite dashboard_oee_rows, !map_map. cbn.
    rewrite map_id. repeat split; reflexivity.
  - unfold SPC.calculate_oee_metrics.
    cbn [SPC.availability SPC.performance SPC.quality SPC.OEE].
    fold (optimal_cycle_time df).
    unfold Pd.of_ints, Pd.of_reals.
    rewrite !map_map.
    rewrite (zip_with_columns fsub).
    rewrite (zip_with_columns Np.fdiv).
    rewrite (zip_with_columns fmul).
    rewrite (zip_with_columns fmul).
    repeat split; reflexivity.
Qed.

End OEE.

(** ** The dashboard: the rolling window and the Quality of its rows *)

Section RollingWindow.

Lemma zmax_max (a b : Z) : zmax a b = Z.max a b.
Proof. unfold zmax. destruct (Z.ltb_spec a b); lia. Qed.

Lemma rmax_max (a b : R) : rmax a b = Rmax a b.
Proof.
  unfold rmax, Rmax.
  destruct (Rlt_dec a b), (Rle_dec a b); lra.
Qed.

Lemma iloc_last_app (df : dataframe) (r : row) :
  Dashboard.iloc_last (df ++ [r]) = Ok r.
Proof. unfold Dashboard.iloc_last. rewrite rev_unit. reflexivity. Qed.

Lemma iloc_last_nonempty (df : dataframe) :
  df <> [] -> exists init last, df = init ++ [last].
Proof.
  intros H. destruct (exists_last H) as (init & last & E).
  exists init, last. exact E.
Qed.

(** One refresh, in closed form. *)
Lemma simulate_new_row_app (init : dataframe) (last : row)
    (rnd : Dashboard.draws) :
  Dashboard.simulate_new_row (init ++ [last]) rnd
  = Ok (tl (init ++ [last]) ++ [simulated_row last rnd]).
Proof.
  unfold Dashboard.simulate_new_row. rewrite iloc_last_app. cbn [bind].
  rewrite !zmax_max, !rmax_max. fold (simulated_row last rnd).
  destruct init; reflexivity.
Qed.

(** C10.  On a non-empty table [simulate_new_row] returns a table of
    the same number of rows: the old rows but the first, unchanged
    and in order, followed by one simulated row whose volume, defects
    and downtime are non-negative and whose cycle time is at least
    0.1. *)
Theorem simulate_new_row_window (df : dataframe) (rnd : Dashboard.draws) :
  df <> [] ->
  exists df' new_row,
    Dashboard.simulate_new_row df rnd = Ok df' /\
    List.length df' = List.length df /\
    df' = tl df ++ [new_row] /\
    (0 <= Production_Volume new_row)%Z /\
    (0 <= Defects_Total new_row)%Z /\
    0 <= Downtime_Total new_row /\
    0.1 <= Average_Cycle_Time new_row.
Proof.
  intros Hne.
  destruct (iloc_last_nonempty df Hne) as (init & last & ->).
  exists (tl (init ++ [last]) ++ [simulated_row last rnd]),
    (simulated_row last rnd).
  split; [apply simulate_new_row_app |].
  split.
  { rewrite length_app. cbn [List.length].
    destruct init; cbn [app tl List.length]; [reflexivity |].
    rewrite !length_app. cbn [List.length]. lia. }
  split; [reflexivity |].
  cbn [simulated_row Production_Volume Defects_Total Downtime_Total
         Average_Cycle_Time].
  repeat split; try lia; try apply Rmax_l.
Qed.

Lemma simulate_new_row_window_witness :
  initial_table <> [] /\
  exists df',
    Dashboard.simulate_new_row initial_table
      {| Dashboard.volume_step := -15; Dashboard.defects_step := 2;
         Dashboard.downtime_step := 19; Dashboard.cycle_time_step := 0.1 |}
    = Ok df' /\
    List.length df' = List.length initial_table.
Proof.
  assert (Hne : initial_table <> []) by discriminate.
  split; [exact Hne |].
  destruct (simulate_new_row_window initial_table
              {| Dashboard.volume_step := -15; Dashboard.defects_step := 2;
                 Dashboard.downtime_step := 19;
                 Dashboard.cycle_time_step := 0.1 |} Hne)
    as (df' & new_row & Hrun & Hlen & _).
  exists df'. split; assumption.
Defined.

(** On an empty table there is no last row to copy. *)
Lemma simulate_new_row_empty (rnd : Dashboard.draws) :
  Dashboard.simulate_new_row [] rnd = Raise IndexError.
Proof. reflexivity. Qed.

Lemma quality_spec_value (r : row) :
  (0 < Production_Volume r)%Z ->
  quality_spec r
  = Some ((IZR (Production_Volume r) - IZR (Defects_Total r))
          / IZR (Production_Volume r)).
Proof.
  intros Hv. unfold quality_spec, Np.fdiv.
  destruct (Req_dec_T (IZR (Production_Volume r)) 0) as [E | _];
    [| reflexivity].
  apply (eq_IZR _ 0) in E. lia.
Qed.

(** C2, as the code has it.  On a row of positive volume the Quality
    the dashboard derives is a number, and it lies between 0 and 1
    exactly when the defects lie between 0 and the volume. *)
Theorem quality_range (df : dataframe) (i : nat) (o : Dashboard.oee_row) :
  nth_error (Dashboard.calculate_oee_metrics df) i = Some o ->
  (0 < Production_Volume (Dashboard.record o))%Z ->
  nth_error df i = Some (Dashboard.record o) /\
  exists q,
    Dashboard.Quality o = Some q /\
    (0 <= q <= 1 <->
     (0 <= Defects_Total (Dashboard.record o)
        <= Production_Volume (Dashboard.record o))%Z).
Proof.
  rewrite dashboard_oee_rows, nth_error_map.
  destruct (nth_error df i) as [r |]; [| discriminate].
  cbn [option_map]. intros [= <-]. cbn [Dashboard.record Dashboard.Quality].
  intros Hv. split; [reflexivity |].
  rewrite (quality_spec_value r Hv). eexists; split; [reflexivity |].
  set (v := Production_Volume r) in *. set (d := Defects_Total r).
  assert (Hv' : 0 < IZR v) by (apply IZR_lt; exact Hv).
  assert (Hq : (IZR v - IZR d) / IZR v = 1 - IZR d / IZR v) by (field; lra).
  rewrite Hq.
  assert (Hd : IZR d = IZR d / IZR v * IZR v) by (field; lra).
  set (x := IZR d / IZR v) in *.
  split.
  - intros [Hlo Hhi]. split; apply le_IZR; nra.
  - intros [Hd0 Hd1]. apply IZR_le in Hd0, Hd1. split; nra.
Qed.

End RollingWindow.

Section QualityOfSimulatedRows.

Lemma quality_range_witness :
  exists o,
    nth_error (Dashboard.calculate_oee_metrics initial_table) 0 = Some o /\
    (0 < Production_Volume (Dashboard.record o))%Z /\
    exists q, Dashboard.Quality o = Some q /\ 0 <= q <= 1.
Proof.
  assert (Hrow : exists o,
             nth_error (Dashboard.calculate_oee_metrics initial_table) 0
             = Some o /\
             Production_Volume (Dashboard.record o) = 80%Z /\
             Defects_Total (Dashboard.record o) = 4%Z).
  { rewrite dashboard_oee_rows. eexists. split; [reflexivity |].
    split; reflexivity. }
  destruct Hrow as (o & Hnth & Hv & Hd).
  assert (Hpos : (0 < Production_Volume (Dashboard.record o))%Z)
    by (rewrite Hv; lia).
  exists o. split; [exact Hnth |]. split; [exact Hpos |].
  destruct (quality_range initial_table 0 o Hnth Hpos) as (_ & q & Hq & Hiff).
  exists q. split; [exact Hq |].
  apply Hiff. rewrite Hv, Hd. lia.
Defined.

Ltac refresh_step :=
  match goal with
  | |- context [Dashboard.simulate_new_row [?a; ?b] ?d] =>
      change (Dashboard.simulate_new_row [a; b] d)
        with (Dashboard.simulate_new_row ([a] ++ [b]) d);
      rewrite (simulate_new_row_app [a] b d);
      cbn [bind app tl]
  end.

(** C2, as stated, fails on simulated rows.  From a table whose rows
    all have defects between 0 and the volume, six refreshes with
    draws in range lead to a row of volume 2 with 4 defects, whose
    Quality is -1. *)
Lemma quality_negative_after_refresh :
  Forall Dashboard.valid_draws falling_volume /\
  Forall (fun r => (0 <= Defects_Total r <= Production_Volume r)%Z)
         initial_table /\
  exists df' o,
    Dashboard.refresh initial_table falling_volume = Ok df' /\
    nth_error (Dashboard.calculate_oee_metrics df') 1 = Some o /\
    Production_Volume (Dashboard.record o) = 2%Z /\
    Defects_Total (Dashboard.record o) = 4%Z /\
    Dashboard.Quality o = Some (-1) /\
    ~ (0 <= -1 <= 1).
Proof.
  split.
  { unfold falling_volume, Dashboard.valid_draws, Dashboard.randint_draw.
    repeat constructor; cbn; try lia; lra. }
  split.
  { unfold initial_table. repeat constructor; cbn; lia. }
  unfold falling_volume, initial_table.
  cbn [Dashboard.refresh].
  do 6 refresh_step.
  eexists; eexists. split; [reflexivity |].
  rewrite dashboard_oee_rows. cbn [map nth_error].
  split; [reflexivity |].
  cbn [Dashboard.record Dashboard.Quality].
  split; [reflexivity |]. split; [reflexivity |].
  split; [| lra].
  rewrite quality_spec_value by (vm_compute; reflexivity).
  match goal with
  | |- Some ((IZR ?v - IZR ?d) / IZR ?v) = _ =>
      change v with 2%Z; change d with 4%Z
  end.
  f_equal. lra.
Qed.

End QualityOfSimulatedRows.

(** ** The SPC charts *)

Section ControlCharts.

Lemma dropna_of_reals (xs : list R) : Pd.dropna (Pd.of_reals xs) = xs.
Proof.
  unfold Pd.dropna, Pd.of_reals.
  induction xs as [| x xs IH]; cbn; [reflexivity | now rewrite IH].
Qed.

Lemma mean_of_reals (xs : list R) :
  xs <> [] -> Pd.mean (Pd.of_reals xs) = Some (average xs).
Proof.
  intros Hne. unfold Pd.mean. rewrite dropna_of_reals.
  destruct xs; [contradiction | reflexivity].
Qed.

Lemma mean_skips_nan (s : Pd.series) : Pd.mean (None :: s) = Pd.mean s.
Proof. reflexivity. Qed.

(** [diff] then [abs] on a series of numbers gives NaN and then the
    moving ranges. *)
Lemma abs_diff_tail (x : R) (t : list R) :
  Pd.abs (Pd.zip_with fsub (Pd.of_reals t) (Pd.of_reals (x :: t)))
  = Pd.of_reals (moving_ranges (x :: t)).
Proof.
  revert x. induction t as [| y t IH]; intros x; [reflexivity |].
  change (Some (Rabs (y - x))
            :: Pd.abs (Pd.zip_with fsub (Pd.of_reals t) (Pd.of_reals (y :: t)))
          = Some (Rabs (y - x)) :: Pd.of_reals (moving_ranges (y :: t))).
  rewrite IH. reflexivity.
Qed.

Lemma abs_diff_of_reals (x : R) (t : list R) :
  Pd.abs (Pd.diff (Pd.of_reals (x :: t)))
  = None :: Pd.of_reals (moving_ranges (x :: t)).
Proof.
  change (Pd.diff (Pd.of_reals (x :: t)))
    with (None :: Pd.zip_with fsub (Pd.of_reals t) (Pd.of_reals (x :: t))).
  change (Pd.abs (None :: ?s)) with (None :: Pd.abs s).
  cbn [Pd.abs map option_map]. f_equal. apply abs_diff_tail.
Qed.

Lemma fdiv_d2 (x : R) : Np.fdiv (Some x) (Some 1.128) = Some (x / 1.128).
Proof.
  unfold Np.fdiv. destruct (Req_dec_T 1.128 0); [lra | reflexivity].
Qed.

(** The limits both I-MR charts assign, for the series [xs] of the
    charted column. *)
Lemma imr_limits_of_series (xs : list R) :
  (2 <= List.length xs)%nat ->
  Pd.mean (Pd.of_reals xs) = Some (average xs) /\
  Pd.abs (Pd.diff (Pd.of_reals xs))
    = None :: Pd.of_reals (moving_ranges xs) /\
  fadd (Pd.mean (Pd.of_reals xs))
       (fmul (Some 3)
          (Np.fdiv (Pd.mean (Pd.abs (Pd.diff (Pd.of_reals xs))))
                   (Some 1.128)))
    = Some (imr_ucl xs) /\
  fsub (Pd.mean (Pd.of_reals xs))
       (fmul (Some 3)
          (Np.fdiv (Pd.mean (Pd.abs (Pd.diff (Pd.of_reals xs))))
                   (Some 1.128)))
    = Some (imr_lcl xs).
Proof.
  intros Hlen.
  destruct xs as [| x [| y t]]; cbn [List.length] in Hlen; try lia.
  assert (Hmean : Pd.mean (Pd.of_reals (x :: y :: t))
                  = Some (average (x :: y :: t)))
    by (apply mean_of_reals; discriminate).
  assert (Hmr : Pd.mean (Pd.of_reals (moving_ranges (x :: y :: t)))
                = Some (average (moving_ranges (x :: y :: t))))
    by (apply mean_of_reals; discriminate).
  rewrite abs_diff_of_reals, mean_skips_nan, Hmean, Hmr, fdiv_d2.
  repeat split; reflexivity.
Qed.

(** C6.  On a table of at least two rows both I-MR charts put, on
    every row, the upper limit at mean + 3 (MR-bar / 1.128) and the
    lower limit at mean - 3 (MR-bar / 1.128), where the mean is that
    of the charted column (cycle time, downtime) and MR-bar the mean
    of the absolute differences of consecutive values. *)
Theorem imr_limits (df : dataframe) :
  (2 <= List.length df)%nat ->
  let cycle_time := map Average_Cycle_Time df in
  let downtime := map Downtime_Total df in
  (SPC.Mean (SPC.imr_chart_cycle_time df)
     = map (fun _ => Some (average cycle_time)) df /\
   SPC.MR (SPC.imr_chart_cycle_time df)
     = None :: map Some (moving_ranges cycle_time) /\
   SPC.UCL_I (SPC.imr_chart_cycle_time df)
     = map (fun _ => Some (imr_ucl cycle_time)) df /\
   SPC.LCL_I (SPC.imr_chart_cycle_time df)
     = map (fun _ => Some (imr_lcl cycle_time)) df) /\
  (SPC.Mean (SPC.imr_chart_downtime df)
     = map (fun _ => Some (average downtime)) df /\
   SPC.MR (SPC.imr_chart_downtime df)
     = None :: map Some (moving_ranges downtime) /\
   SPC.UCL_I (SPC.imr_chart_downtime df)
     = map (fun _ => Some (imr_ucl downtime)) df /\
   SPC.LCL_I (SPC.imr_chart_downtime df)
     = map (fun _ => Some (imr_lcl downtime)) df).
Proof.
  intros Hlen. cbv zeta.
  assert (Hc : (2 <= List.length (map Average_Cycle_Time df))%nat)
    by (rewrite length_map; exact Hlen).
  assert (Hd : (2 <= List.length (map Downtime_Total df))%nat)
    by (rewrite length_map; exact Hlen).
  destruct (imr_limits_of_series _ Hc) as (Hm1 & Hr1 & Hu1 & Hl1).
  destruct (imr_limits_of_series _ Hd) as (Hm2 & Hr2 & Hu2 & Hl2).
  unfold SPC.imr_chart_cycle_time, SPC.imr_chart_downtime.
  cbn [SPC.Mean SPC.MR SPC.UCL_I SPC.LCL_I].
  rewrite !map_map, Hu1, Hl1, Hu2, Hl2, Hm1, Hm2, Hr1, Hr2.
  repeat split; reflexivity.
Qed.

Lemma imr_limits_witness :
  (2 <= List.length initial_table)%nat /\
  SPC.UCL_I (SPC.imr_chart_cycle_time initial_table)
    = [Some (imr_ucl [2; 2]); Some (imr_ucl [2; 2])] /\
  SPC.LCL_I (SPC.imr_chart_downtime initial_table)
    = [Some (imr_lcl [10; 10]); Some (imr_lcl [10; 10])].
Proof.
  assert (Hlen : (2 <= List.length initial_table)%nat) by (cbn; lia).
  split; [exact Hlen |].
  destruct (imr_limits initial_table Hlen)
    as ((_ & _ & Hu & _) & (_ & _ & _ & Hl)).
  split; [exact Hu | exact Hl].
Defined.

End ControlCharts.

Section PChart.

Lemma isum_positive (c : list Z) :
  c <> [] -> Forall (fun n => (0 < n)%Z) c -> (0 < Pd.isum c)%Z.
Proof.
  intros Hne Hall. induction Hall as [| n c Hn Hall IH]; [contradiction |].
  cbn [Pd.isum fold_right]. destruct c as [| m c].
  - cbn. lia.
  - assert (0 < Pd.isum (m :: c))%Z by (apply IH; discriminate).
    unfold Pd.isum in *. lia.
Qed.

Lemma fdiv_nonzero (x y : R) : y <> 0 -> Np.fdiv (Some x) (Some y) = Some (x / y).
Proof.
  intros Hy. unfold Np.fdiv. destruct (Req_dec_T y 0); [contradiction |].
  reflexivity.
Qed.

(** C5.  On a table whose rows all have a positive volume, the
    p-chart takes as centre line the sum of the defects over the sum
    of the volumes, and on every row puts the upper and the lower
    limit at the centre line plus and minus the same half width,
    3 sqrt(p-bar (1 - p-bar) / Production_Volume); where both limits
    are numbers they are at the same distance from the centre line. *)
Theorem p_chart_limits (df : dataframe) :
  Forall (fun r => (0 < Production_Volume r)%Z) df ->
  SPC.p_bar (SPC.p_chart df)
    = Np.fdiv (Some (IZR (Pd.isum (map Defects_Total df))))
              (Some (IZR (Pd.isum (map Production_Volume df)))) /\
  (df <> [] -> SPC.p_bar (SPC.p_chart df) = Some (p_centre df)) /\
  SPC.UCL (SPC.p_chart df)
    = map (fun r => fadd (Some (p_centre df))
                      (p_half_width (p_centre df) (Production_Volume r))) df /\
  SPC.LCL (SPC.p_chart df)
    = map (fun r => fsub (Some (p_centre df))
                      (p_half_width (p_centre df) (Production_Volume r))) df /\
  (forall i u l,
      nth_error (SPC.UCL (SPC.p_chart df)) i = Some (Some u) ->
      nth_error (SPC.LCL (SPC.p_chart df)) i = Some (Some l) ->
      u - p_centre df = p_centre df - l).
Proof.
  intros Hpos.
  assert (Hbar : df <> [] -> SPC.p_bar (SPC.p_chart df) = Some (p_centre df)).
  { intros Hne. cbn [SPC.p_chart SPC.p_bar]. apply fdiv_nonzero.
    assert (0 < Pd.isum (map Production_Volume df))%Z.
    { apply isum_positive.
      - destruct df; [contradiction | discriminate].
      - rewrite Forall_map. exact Hpos. }
    apply not_0_IZR. lia. }
  assert (Hucl : SPC.UCL (SPC.p_chart df)
    = map (fun r => fadd (Some (p_centre df))
                      (p_half_width (p_centre df) (Production_Volume r))) df).
  { destruct df as [| r0 df0]; [reflexivity |].
    set (df := r0 :: df0) in *.
    specialize (Hbar ltac:(discriminate)).
    cbn [SPC.p_chart SPC.p_bar SPC.UCL] in *. rewrite Hbar.
    unfold Pd.of_ints. rewrite !map_map.
    apply map_ext_Forall. revert Hpos. apply Forall_impl. intros r Hr.
    cbn [fsub fmul lift2]. rewrite fdiv_nonzero; [reflexivity |].
    apply not_0_IZR. lia. }
  assert (Hlcl : SPC.LCL (SPC.p_chart df)
    = map (fun r => fsub (Some (p_centre df))
                      (p_half_width (p_centre df) (Production_Volume r))) df).
  { destruct df as [| r0 df0]; [reflexivity |].
    set (df := r0 :: df0) in *.
    specialize (Hbar ltac:(discriminate)).
    cbn [SPC.p_chart SPC.p_bar SPC.LCL] in *. rewrite Hbar.
    unfold Pd.of_ints. rewrite !map_map.
    apply map_ext_Forall. revert Hpos. apply Forall_impl. intros r Hr.
    cbn [fsub fmul lift2]. rewrite fdiv_nonzero; [reflexivity |].
    apply not_0_IZR. lia. }
  split; [reflexivity |]. split; [exact Hbar |].
  split; [exact Hucl |]. split; [exact Hlcl |].
  intros i u l. rewrite Hucl, Hlcl, !nth_error_map.
  destruct (nth_error df i) as [r |]; [| discriminate].
  cbn [option_map].
  destruct (p_half_width (p_centre df) (Production_Volume r)) as [h |];
    [| discriminate].
  cbn [fadd fsub lift2]. intros [= <-] [= <-]. lra.
Qed.

Lemma p_chart_limits_witness :
  Forall (fun r => (0 < Production_Volume r)%Z) initial_table /\
  SPC.p_bar (SPC.p_chart initial_table) = Some (8 / 160) /\
  SPC.UCL (SPC.p_chart initial_table)
    = map (fun r => fadd (Some (p_centre initial_table))
                      (p_half_width (p_centre initial_table)
                         (Production_Volume r))) initial_table.
Proof.
  assert (Hpos : Forall (fun r => (0 < Production_Volume r)%Z) initial_table).
  { unfold initial_table. repeat constructor; cbn; lia. }
  split; [exact Hpos |].
  destruct (p_chart_limits initial_table Hpos) as (_ & Hbar & Hucl & _).
  split; [| exact Hucl].
  rewrite Hbar by discriminate. reflexivity.
Defined.

End PChart.

(* ================================================================== *)
(** * Part III: further properties of the generator *)
(* ================================================================== *)

Section DefectsMore.

Import GenerateData.

Lemma multinomial_draw_parts (n : Z) (w : list R) (m : list Z) :
  Np.multinomial_draw n w m -> Forall (fun c => (0 <= c <= n)%Z) m.
Proof.
  intros (_ & Hpos & Hsum). revert n Hsum.
  induction Hpos as [| c m Hc Hpos IH]; intros n Hsum; [constructor |].
  cbn [fold_right] in Hsum.
  assert (Hrest : (0 <= fold_right Z.add 0 m)%Z).
  { clear - Hpos. induction Hpos; cbn; lia. }
  constructor; [lia |].
  specialize (IH _ eq_refl).
  revert IH. apply Forall_impl. intros a Ha. lia.
Qed.

(** X1.  With draws NumPy can make, the total [generate_defects]
    returns lies between 0 and the production volume, and each of the
    five counts lies between 0 and the total. *)
Theorem generate_defects_bounds
    (production_volume : Z) (base_defect_rate quality_factor : R)
    (binomial : Z) (multinomial : list Z)
    (defect_types : dict Z) (total_defects : Z) :
  Np.binomial_draw production_volume binomial ->
  ((0 < binomial)%Z ->
   Np.multinomial_draw binomial defect_weights multinomial) ->
  generate_defects production_volume base_defect_rate quality_factor
    binomial multinomial = Ok (defect_types, total_defects) ->
  (0 <= total_defects <= production_volume)%Z /\
  Forall (fun c => (0 <= c <= total_defects)%Z) (values defect_types).
Proof.
  intros [Hb0 Hb1] Hdraw. unfold generate_defects.
  destruct (Np.random_binomial _ _ _) as [t | ex] eqn:Hb; [| discriminate].
  apply random_binomial_inv in Hb as (-> & _ & _).
  cbn [bind].
  destruct (Z.ltb_spec 0 binomial) as [Hpos | Hnp].
  - pose proof (multinomial_draw_parts _ _ _ (Hdraw Hpos)) as Hparts.
    destruct (multinomial_draw_five binomial defect_weights multinomial eq_refl
                (Hdraw Hpos)) as (a & b & c & d & e & -> & _).
    unfold Np.random_multinomial.
    destruct (Z.ltb_spec binomial 0); [lia |].
    cbn. intros [= <- <-]. split; [lia | exact Hparts].
  - intros [= <- <-]. split; [lia |].
    cbn. repeat constructor; lia.
Qed.

Lemma generate_defects_bounds_witness :
  Np.binomial_draw 100 3 /\
  exists defect_types total_defects,
    generate_defects 100 0.025 0.8 3 [1; 1; 0; 1; 0]%Z
      = Ok (defect_types, total_defects) /\
    (0 <= total_defects <= 100)%Z.
Proof.
  assert (Hb : Np.binomial_draw 100 3) by (unfold Np.binomial_draw; lia).
  assert (Hd : (0 < 3)%Z ->
               Np.multinomial_draw 3 defect_weights [1; 1; 0; 1; 0]%Z).
  { intros _. repeat split; repeat constructor; lia. }
  assert (Hrun : generate_defects 100 0.025 0.8 3 [1; 1; 0; 1; 0]%Z
    = Ok ([("Dimensional", 1); ("Surface", 1); ("Assembly", 0);
           ("Material", 1); ("Other", 0)]%Z%string, 3%Z)).
  { unfold generate_defects, Np.random_binomial.
    destruct (Rlt_dec _ 0); [lra |].
    destruct (Rlt_dec 1 _); [lra |].
    reflexivity. }
  split; [exact Hb |].
  eexists; eexists. split; [exact Hrun |].
  exact (proj1 (generate_defects_bounds 100 0.025 0.8 3 _ _ _ Hb Hd Hrun)).
Defined.

(** X2.  [generate_defects] raises exactly when NumPy refuses the
    binomial parameters: a negative volume, or an effective defect rate
    outside of 0..1.  The exception is then ValueError. *)
Theorem generate_defects_raises
    (production_volume : Z) (base_defect_rate quality_factor : R)
    (binomial : Z) (multinomial : list Z) (e : exn) :
  ((0 < binomial)%Z ->
   Np.multinomial_draw binomial defect_weights multinomial) ->
  (generate_defects production_volume base_defect_rate quality_factor
     binomial multinomial = Raise e <->
   e = ValueError /\
   ((production_volume < 0)%Z \/
    base_defect_rate * (1 - quality_factor) < 0 \/
    1 < base_defect_rate * (1 - quality_factor))).
Proof.
  intros Hdraw. unfold generate_defects, Np.random_binomial.
  destruct (Z.ltb_spec production_volume 0) as [Hv | Hv].
  { cbn [bind]. split.
    - intros [= <-]. split; [reflexivity | left; exact Hv].
    - intros [-> _]. reflexivity. }
  destruct (Rlt_dec _ 0) as [Hlo | Hlo].
  { cbn [bind]. split.
    - intros [= <-]. split; [reflexivity | right; left; exact Hlo].
    - intros [-> _]. reflexivity. }
  destruct (Rlt_dec 1 _) as [Hhi | Hhi].
  { cbn [bind]. split.
    - intros [= <-]. split; [reflexivity | right; right; exact Hhi].
    - intros [-> _]. reflexivity. }
  cbn [bind]. split.
  - destruct (Z.ltb_spec 0 binomial) as [Hpos | Hnp]; [| discriminate].
    destruct (multinomial_draw_five binomial defect_weights multinomial eq_refl
                (Hdraw Hpos)) as (a & b & c & d & e' & -> & _).
    unfold Np.random_multinomial.
    destruct (Z.ltb_spec binomial 0); [lia |].
    cbn. discriminate.
  - intros [_ [H | [H | H]]]; [lia | lra | lra].
Qed.

Lemma generate_defects_raises_witness :
  ((0 < 3)%Z -> Np.multinomial_draw 3 defect_weights [1; 1; 0; 1; 0]%Z) /\
  generate_defects (-1) 0.025 0.8 3 [1; 1; 0; 1; 0]%Z = Raise ValueError.
Proof.
  assert (Hd : (0 < 3)%Z ->
               Np.multinomial_draw 3 defect_weights [1; 1; 0; 1; 0]%Z).
  { intros _. repeat split; repeat constructor; lia. }
  split; [exact Hd |].
  apply (proj2 (generate_defects_raises (-1) 0.025 0.8 3 _ ValueError Hd)).
  split; [reflexivity | left; lia].
Defined.

End DefectsMore.

Section DowntimeMore.

Import GenerateData.

Lemma round_nonneg (x : R) (n : nat) : 0 <= x -> 0 <= round x n.
Proof.
  intros Hx. pose proof (pow10_pos n) as Hp. unfold round.
  apply Rmult_le_pos; [| left; apply Rinv_0_lt_compat; exact Hp].
  apply IZR_le, round_half_even_ge. simpl. nra.
Qed.

Lemma clamp_total_range (gamma mean : R) :
  0 <= gamma -> 0 <= mean ->
  0 <= rmin (rmax gamma 0) (mean * 5) <= mean * 5.
Proof.
  intros Hg Hm. unfold rmin, rmax.
  destruct (Rlt_dec gamma 0); [lra |].
  destruct (Rlt_dec (mean * 5) gamma); lra.
Qed.

(** X3.  For a non-negative mean downtime and draws NumPy can make,
    the total [generate_downtime] returns lies between 0 and five times
    the mean, and each per-cause value lies between 0 and the total
    plus half a tenth. *)
Theorem generate_downtime_bounds
    (mean_downtime_minutes reliability_factor : R)
    (uniform gamma : R) (multinomial : list Z)
    (downtime_causes : dict R) (total_downtime : R) :
  0 <= mean_downtime_minutes -> 0 <= gamma ->
  Np.multinomial_draw 100 cause_weights multinomial ->
  generate_downtime mean_downtime_minutes reliability_factor
    uniform gamma multinomial = Ok (downtime_causes, total_downtime) ->
  0 <= total_downtime <= 5 * mean_downtime_minutes /\
  Forall (fun c => 0 <= c <= total_downtime + 0.05) (values downtime_causes).
Proof.
  intros Hmean Hgamma Hdraw.
  pose proof (multinomial_draw_parts _ _ _ Hdraw) as Hparts.
  destruct (multinomial_draw_five 100 cause_weights multinomial eq_refl Hdraw)
    as (a & b & c & d & e & -> & _).
  unfold generate_downtime.
  destruct (Rlt_dec uniform 0.8) as [Hu | Hu].
  - destruct (Np.random_gamma _ _ _) as [t | ex] eqn:Hg; [| discriminate].
    apply random_gamma_inv in Hg as ->.
    cbn -[round]. intros [= <- <-].
    pose proof (clamp_total_range gamma mean_downtime_minutes Hgamma Hmean)
      as HT.
    set (T := rmin (rmax gamma 0) (mean_downtime_minutes * 5)) in *.
    split; [lra |].
    assert (Hpart : forall k, (0 <= k <= 100)%Z ->
                      0 <= round (T * IZR k / 100) 1 <= T + 0.05).
    { intros k [Hk0 Hk1]. apply IZR_le in Hk0, Hk1.
      assert (0 <= T * IZR k / 100 <= T) by nra.
      split; [apply round_nonneg; lra |].
      pose proof (round_1_error (T * IZR k / 100)). lra. }
    cbn -[round].
    repeat match goal with
           | H : Forall _ (_ :: _) |- _ => inversion H; subst; clear H
           end.
    repeat (apply Forall_cons; [apply Hpart; assumption |]).
    apply Forall_nil.
  - intros [= <- <-]. split; [lra |].
    cbn. repeat constructor; lra.
Qed.

Lemma generate_downtime_bounds_witness :
  0 <= 30 /\ 0 <= 10.07 /\
  Np.multinomial_draw 100 cause_weights [30; 25; 20; 15; 10]%Z /\
  exists downtime_causes total_downtime,
    generate_downtime 30 0.5 0.5 10.07 [30; 25; 20; 15; 10]%Z
      = Ok (downtime_causes, total_downtime) /\
    0 <= total_downtime <= 5 * 30.
Proof.
  assert (Hd : Np.multinomial_draw 100 cause_weights [30; 25; 20; 15; 10]%Z).
  { repeat split; repeat constructor; lia. }
  assert (Hrun : exists r, generate_downtime 30 0.5 0.5 10.07
                             [30; 25; 20; 15; 10]%Z = Ok r).
  { unfold generate_downtime, Np.random_gamma.
    destruct (Rlt_dec 0.5 0.8); [| lra].
    destruct (Rlt_dec 2 0); [lra |].
    destruct (Rlt_dec _ 0); [lra |].
    cbn -[round]. eexists; reflexivity. }
  destruct Hrun as [[causes total] Hrun].
  split; [lra |]. split; [lra |]. split; [exact Hd |].
  exists causes, total. split; [exact Hrun |].
  exact (proj1 (generate_downtime_bounds 30 0.5 0.5 10.07 _ _ _
                  ltac:(lra) ltac:(lra) Hd Hrun)).
Defined.



End DowntimeMore.

Section VolumeMore.

Import GenerateData.


End VolumeMore.

Section QualityMetricsMore.

Import GenerateData.






End QualityMetricsMore.

(* ================================================================== *)
(** * Part IV: further properties of the dashboard *)
(* ================================================================== *)

Section RefreshLoop.

Lemma simulated_row_in_range (last : row) (rnd : Dashboard.draws) :
  row_in_range (simulated_row last rnd).
Proof.
  unfold row_in_range, simulated_row; cbn.
  repeat split; try lia; apply Rmax_l.
Qed.

(** After [k] refreshes the last [k] rows are simulated ones. *)
Lemma refresh_invariant (P : row -> Prop) :
  (forall last rnd, P (simulated_row last rnd)) ->
  forall (ticks : list Dashboard.draws) (df : dataframe) (k : nat),
    df <> [] ->
    Forall P (skipn k df) ->
    exists df',
      Dashboard.refresh df ticks = Ok df' /\
      List.length df' = List.length df /\
      Forall P (skipn (k - List.length ticks) df').
Proof.
  intros HP. induction ticks as [| rnd ticks IH]; intros df k Hne Hk.
  - exists df. cbn [Dashboard.refresh List.length].
    rewrite Nat.sub_0_r. auto.
  - destruct (iloc_last_nonempty df Hne) as (init & last & ->).
    cbn [Dashboard.refresh]. rewrite simulate_new_row_app. cbn [bind].
    set (df1 := tl (init ++ [last]) ++ [simulated_row last rnd]).
    assert (Hlen1 : List.length df1 = List.length (init ++ [last])).
    { unfold df1. destruct init; cbn [app tl List.length]; [reflexivity |].
      rewrite !length_app. cbn [List.length]. lia. }
    assert (Hne1 : df1 <> []).
    { intros E. rewrite E in Hlen1. rewrite length_app in Hlen1.
      cbn in Hlen1. lia. }
    assert (Hk1 : Forall P (skipn (k - 1) df1)).
    { unfold df1. destruct (init ++ [last]) as [| a l] eqn:El.
      - destruct init; discriminate.
      - cbn [tl]. destruct k as [| k].
        + cbn [Nat.sub skipn] in *. inversion Hk; subst.
          apply Forall_app. split; [assumption |].
          constructor; [apply HP | constructor].
        + cbn [skipn] in Hk. replace (S k - 1)%nat with k by lia.
          destruct (Nat.le_gt_cases k (List.length l)) as [Hle | Hgt].
          * rewrite skipn_app. apply Forall_app. split; [exact Hk |].
            destruct (k - List.length l)%nat; cbn [skipn];
              [constructor; [apply HP | constructor] |].
            rewrite skipn_nil. constructor.
          * rewrite skipn_all2; [constructor |].
            rewrite length_app. cbn. lia. }
    destruct (IH df1 (k - 1)%nat Hne1 Hk1) as (df' & Hrun & Hlen & Hall).
    exists df'. split; [exact Hrun |]. split; [lia |].
    cbn [List.length]. replace (k - S (List.length ticks))%nat
      with (k - 1 - List.length ticks)%nat by lia.
    exact Hall.
Qed.

(** X8.  The refresh loop never fails on a non-empty table and keeps
    its number of rows; once it has run for as many refreshes as the
    table has rows, every row has a non-negative volume, defect count
    and downtime and a cycle time of at least 0.1. *)
Theorem refresh_keeps_window (df : dataframe) (ticks : list Dashboard.draws) :
  df <> [] ->
  exists df',
    Dashboard.refresh df ticks = Ok df' /\
    List.length df' = List.length df /\
    ((List.length df <= List.length ticks)%nat -> Forall row_in_range df').
Proof.
  intros Hne.
  destruct (refresh_invariant row_in_range simulated_row_in_range
              ticks df (List.length df) Hne) as (df' & Hrun & Hlen & Hall).
  { rewrite skipn_all. constructor. }
  exists df'. split; [exact Hrun |]. split; [exact Hlen |].
  intros Hk. replace (List.length df - List.length ticks)%nat with 0%nat in Hall
    by lia.
  exact Hall.
Qed.

Lemma refresh_keeps_window_witness :
  initial_table <> [] /\
  exists df',
    Dashboard.refresh initial_table falling_volume = Ok df' /\
    List.length df' = 2%nat /\ Forall row_in_range df'.
Proof.
  assert (Hne : initial_table <> []) by discriminate.
  split; [exact Hne |].
  destruct (refresh_keeps_window initial_table falling_volume Hne)
    as (df' & Hrun & Hlen & Hall).
  exists df'. split; [exact Hrun |]. split; [exact Hlen |].
  apply Hall. cbn. lia.
Defined.

End RefreshLoop.

Section PageFrame.

Lemma daily_tail (r : row) (df : dataframe) : daily (r :: df) -> daily df.
Proof. destruct df as [| s df]; cbn; [trivial | intros (_ & _ & H); exact H]. Qed.

Lemma daily_app (df : dataframe) (last new : row) :
  daily (df ++ [last]) ->
  Date new = (Date last + 1)%Z -> Line new = Line last ->
  daily ((df ++ [last]) ++ [new]).
Proof.
  intros Hd Hdate Hline. induction df as [| r df IH].
  - cbn. repeat split; assumption.
  - destruct df as [| s df].
    + destruct Hd as (H1 & H2 & _). cbn. repeat split; assumption.
    + destruct Hd as (H1 & H2 & H3).
      change (Date s = (Date r + 1)%Z /\ Line s = Line r /\
              daily (((s :: df) ++ [last]) ++ [new])).
      repeat split; try assumption. apply IH. exact H3.
Qed.

Lemma daily_latest (r : row) (df : dataframe) :
  daily (r :: df) ->
  fold_left Z.max (map Date df) (Date r)
  = (Date r + Z.of_nat (List.length df))%Z.
Proof.
  revert r. induction df as [| s df IH]; intros r Hd.
  - cbn. lia.
  - destruct Hd as (Hs & _ & Hd). cbn [map fold_left List.length].
    replace (Z.max (Date r) (Date s)) with (Date s) by lia.
    rewrite (IH s Hd). lia.
Qed.

Lemma daily_filter (latest : Z) (r : row) (df : dataframe) :
  daily (r :: df) ->
  latest = (Date r + Z.of_nat (List.length df))%Z ->
  filter (fun x => (latest - 30 <=? Date x)%Z) (r :: df)
  = skipn (S (List.length df) - 31) (r :: df).
Proof.
  revert r. induction df as [| s df IH]; intros r Hd Hl.
  - cbn [filter List.length]. cbn in Hl.
    destruct (Z.leb_spec (latest - 30) (Date r)); [reflexivity | lia].
  - pose proof Hd as (Hs & _ & Hd').
    specialize (IH s Hd' ltac:(cbn [List.length] in Hl; lia)).
    change (filter ?f (r :: ?l))
      with (if f r then r :: filter f l else filter f l).
    cbn beta. rewrite IH. cbn [List.length] in *.
    destruct (Z.leb_spec (latest - 30) (Date r)) as [Hin | Hout].
    + replace (S (S (List.length df)) - 31)%nat with 0%nat by lia.
      replace (S (List.length df) - 31)%nat with 0%nat by lia.
      reflexivity.
    + replace (S (S (List.length df)) - 31)%nat
        with (S (S (List.length df) - 31))%nat by lia.
      reflexivity.
Qed.

Lemma simulated_table_daily (init : dataframe) (last : row)
    (rnd : Dashboard.draws) :
  daily (init ++ [last]) ->
  daily (tl (init ++ [last]) ++ [simulated_row last rnd]).
Proof.
  intros Hd.
  assert (Hall : daily ((init ++ [last]) ++ [simulated_row last rnd]))
    by (apply daily_app; [exact Hd | reflexivity | reflexivity]).
  destruct init as [| a init]; [cbn; trivial |].
  cbn [app tl] in *. exact (daily_tail _ _ Hall).
Qed.

Lemma last_30_days_skipn (df : dataframe) :
  daily df -> Dashboard.last_30_days df = skipn (List.length df - 31) df.
Proof.
  intros Hd. destruct df as [| r df]; [reflexivity |].
  unfold Dashboard.last_30_days, Dashboard.date_max.
  rewrite (daily_latest r df Hd).
  apply daily_filter; [exact Hd | reflexivity].
Qed.

(** X9.  [simulate_new_row] keeps a table daily: if each row is dated
    one day after the row before it and all rows are of one line, the
    same holds of the table returned. *)
Theorem simulate_new_row_daily
    (df df' : dataframe) (rnd : Dashboard.draws) :
  daily df ->
  Dashboard.simulate_new_row df rnd = Ok df' ->
  daily df'.
Proof.
  intros Hd Hrun.
  destruct df as [| r0 df0]; [discriminate |].
  destruct (iloc_last_nonempty (r0 :: df0) ltac:(discriminate))
    as (init & last & E).
  rewrite E in *. rewrite simulate_new_row_app in Hrun.
  injection Hrun as <-.
  apply simulated_table_daily. exact Hd.
Qed.

Lemma simulate_new_row_daily_witness :
  daily initial_table /\
  exists df',
    Dashboard.simulate_new_row initial_table
      {| Dashboard.volume_step := -15; Dashboard.defects_step := 2;
         Dashboard.downtime_step := 19; Dashboard.cycle_time_step := 0.1 |}
    = Ok df' /\ daily df'.
Proof.
  assert (Hd : daily initial_table) by (cbn; auto).
  assert (Hrun : exists df',
             Dashboard.simulate_new_row initial_table
               {| Dashboard.volume_step := -15; Dashboard.defects_step := 2;
                  Dashboard.downtime_step := 19;
                  Dashboard.cycle_time_step := 0.1 |} = Ok df').
  { unfold initial_table.
    match goal with
    | |- exists _, Dashboard.simulate_new_row [?a; ?b] ?d = _ =>
        exists (tl ([a] ++ [b]) ++ [simulated_row b d]);
        exact (simulate_new_row_app [a] b d)
    end. }
  destruct Hrun as [df' Hrun].
  split; [exact Hd |]. exists df'. split; [exact Hrun |].
  exact (simulate_new_row_daily _ _ _ Hd Hrun).
Defined.

(** X10.  On a daily table the "last 30 days" are its last 31 rows
    (all of them when the table has fewer): the row dated 30 days
    before the latest one is kept. *)
Theorem last_30_days_daily (df : dataframe) :
  daily df ->
  Dashboard.last_30_days df = skipn (List.length df - 31) df /\
  List.length (Dashboard.last_30_days df) = Nat.min (List.length df) 31.
Proof.
  intros Hd. pose proof (last_30_days_skipn df Hd) as Heq.
  split; [exact Heq |].
  rewrite Heq, length_skipn. lia.
Qed.

Lemma last_30_days_daily_witness :
  daily initial_table /\
  Dashboard.last_30_days initial_table = initial_table.
Proof.
  assert (Hd : daily initial_table) by (cbn; auto).
  split; [exact Hd |].
  rewrite (proj1 (last_30_days_daily initial_table Hd)). reflexivity.
Defined.

End PageFrame.

Section Render.

Lemma fold_max_spec (l : list Z) (a : Z) :
  (fold_left Z.max l a = a \/ In (fold_left Z.max l a) l) /\
  (a <= fold_left Z.max l a)%Z.
Proof.
  revert a. induction l as [| x l IH]; intros a; cbn [fold_left].
  - split; [left; reflexivity | lia].
  - destruct (IH (Z.max a x)) as [[E | Hin] Hle].
    + split; [| lia]. rewrite E.
      destruct (Z.max_spec a x) as [[_ ->] | [_ ->]];
        [right; left; reflexivity | left; reflexivity].
    + split; [right; right; exact Hin | lia].
Qed.

(** The row with the latest date is within 30 days of itself. *)
Lemma last_30_days_nonempty (df : dataframe) :
  df <> [] -> Dashboard.last_30_days df <> [].
Proof.
  intros Hne. destruct df as [| r df]; [contradiction |].
  unfold Dashboard.last_30_days, Dashboard.date_max.
  set (latest := fold_left Z.max (map Date df) (Date r)).
  assert (Hin : exists x, In x (r :: df) /\ Date x = latest).
  { destruct (fold_max_spec (map Date df) (Date r)) as [[E | Hin] _].
    - exists r. split; [left; reflexivity | symmetry; exact E].
    - apply in_map_iff in Hin as (x & Hx & Hin).
      exists x. split; [right; exact Hin | exact Hx]. }
  destruct Hin as (x & Hin & Hx).
  assert (Hf : In x (filter (fun y => (latest - 30 <=? Date y)%Z) (r :: df))).
  { apply filter_In. split; [exact Hin |]. apply Z.leb_le. lia. }
  intros E. rewrite E in Hf. exact Hf.
Qed.

Lemma simulate_new_row_returns (df : dataframe) (rnd : Dashboard.draws) :
  df <> [] ->
  exists init last,
    df = init ++ [last] /\
    Dashboard.simulate_new_row df rnd
    = Ok (tl df ++ [simulated_row last rnd]) /\
    List.length (tl df ++ [simulated_row last rnd]) = List.length df.
Proof.
  intros Hne. destruct (iloc_last_nonempty df Hne) as (init & last & ->).
  exists init, last. split; [reflexivity |].
  split; [apply simulate_new_row_app |].
  destruct init; cbn [app tl List.length]; [reflexivity |].
  rewrite !length_app. cbn [List.length]. lia.
Qed.

(** X11.  One pass of the page loop succeeds on every non-empty table:
    the table kept has as many rows as before and the 30-day window is
    never empty, so there are always current values to show.  On an
    empty table it fails with IndexError. *)
Theorem render_returns (df : dataframe) (rnd : Dashboard.draws) :
  (df <> [] ->
   exists f,
     Dashboard.render df rnd = Ok f /\
     List.length (Dashboard.session f) = List.length df /\
     In (Dashboard.current f) (Dashboard.df_30 f)) /\
  (df = [] -> Dashboard.render df rnd = Raise IndexError).
Proof.
  split.
  - intros Hne.
    destruct (simulate_new_row_returns df rnd Hne)
      as (init & last & _ & Hrun & Hlen).
    unfold Dashboard.render. rewrite Hrun. cbn [bind].
    set (df1 := tl df ++ [simulated_row last rnd]) in *.
    assert (Hne1 : df1 <> []) by (unfold df1; destruct (tl df); discriminate).
    pose proof (last_30_days_nonempty df1 Hne1) as Hw.
    unfold Dashboard.iloc_last_metrics.
    destruct (rev (Dashboard.calculate_oee_metrics (Dashboard.last_30_days df1)))
      as [| o rest] eqn:Hrev.
    + exfalso. apply Hw.
      apply (f_equal (@rev _)) in Hrev. rewrite rev_involutive in Hrev.
      rewrite dashboard_oee_rows in Hrev. cbn in Hrev.
      apply map_eq_nil in Hrev. exact Hrev.
    + cbn [bind]. eexists. split; [reflexivity |].
      cbn [Dashboard.session Dashboard.current Dashboard.df_30].
      split; [exact Hlen |].
      apply in_rev. rewrite Hrev. left; reflexivity.
  - intros ->. reflexivity.
Qed.

Lemma render_returns_witness :
  initial_table <> [] /\
  exists f,
    Dashboard.render initial_table
      {| Dashboard.volume_step := -15; Dashboard.defects_step := 2;
         Dashboard.downtime_step := 19; Dashboard.cycle_time_step := 0.1 |}
    = Ok f /\
    List.length (Dashboard.session f) = 2%nat.
Proof.
  assert (Hne : initial_table <> []) by discriminate.
  split; [exact Hne |].
  destruct (proj1 (render_returns initial_table
              {| Dashboard.volume_step := -15; Dashboard.defects_step := 2;
                 Dashboard.downtime_step := 19;
                 Dashboard.cycle_time_step := 0.1 |}) Hne)
    as (f & Hf & Hlen & _).
  exists f. split; [exact Hf | exact Hlen].
Defined.

Lemma rev_skipn_last {A} (k : nat) (l : list A) (x : A) :
  (k <= List.length l)%nat ->
  exists rest, rev (skipn k (l ++ [x])) = x :: rest.
Proof.
  intros Hk. rewrite skipn_app.
  replace (k - List.length l)%nat with 0%nat by lia.
  cbn [skipn]. rewrite rev_unit. eexists; reflexivity.
Qed.

(** X12.  On a daily table the current values the page shows are those
    of the row just simulated, computed over a window of the last 31
    rows of the new table (all rows when there are fewer). *)
Theorem render_current (df : dataframe) (rnd : Dashboard.draws) :
  daily df -> df <> [] ->
  exists f last,
    Dashboard.render df rnd = Ok f /\
    Dashboard.iloc_last df = Ok last /\
    Dashboard.record (Dashboard.current f) = simulated_row last rnd /\
    Dashboard.Quality (Dashboard.current f)
      = quality_spec (simulated_row last rnd) /\
    Dashboard.Availability (Dashboard.current f)
      = availability_spec (simulated_row last rnd) /\
    map Dashboard.record (Dashboard.df_30 f)
      = skipn (List.length df - 31) (Dashboard.session f).
Proof.
  intros Hd Hne.
  destruct (simulate_new_row_returns df rnd Hne)
    as (init & last & Hdf & Hrun & Hlen).
  assert (Hd1 : daily (tl df ++ [simulated_row last rnd])).
  { rewrite Hdf. apply simulated_table_daily. rewrite <- Hdf. exact Hd. }
  unfold Dashboard.render. rewrite Hrun. cbn [bind].
  set (df1 := tl df ++ [simulated_row last rnd]) in *.
  rewrite (last_30_days_skipn df1 Hd1), Hlen, dashboard_oee_rows.
  unfold Dashboard.iloc_last_metrics. rewrite <- map_rev.
  destruct (rev_skipn_last (List.length df - 31) (tl df)
              (simulated_row last rnd)) as [rest Hrev].
  { assert (List.length (tl df) = (List.length df - 1)%nat).
    { destruct df; [contradiction | cbn; lia]. }
    destruct df; [contradiction |]. cbn [List.length] in *. lia. }
  fold df1 in Hrev. rewrite Hrev. cbn [map bind].
  eexists; exists last. split; [reflexivity |].
  split; [rewrite Hdf; apply iloc_last_app |].
  cbn [Dashboard.record Dashboard.Quality Dashboard.Availability
         Dashboard.current Dashboard.df_30 Dashboard.session].
  repeat split; try reflexivity.
  rewrite map_map. cbn [Dashboard.record]. apply map_id.
Qed.

Lemma render_current_witness :
  daily initial_table /\ initial_table <> [] /\
  exists f,
    Dashboard.render initial_table
      {| Dashboard.volume_step := -15; Dashboard.defects_step := 2;
         Dashboard.downtime_step := 19; Dashboard.cycle_time_step := 0.1 |}
    = Ok f /\
    Production_Volume (Dashboard.record (Dashboard.current f)) = 65%Z.
Proof.
  assert (Hd : daily initial_table) by (cbn; auto).
  assert (Hne : initial_table <> []) by discriminate.
  split; [exact Hd |]. split; [exact Hne |].
  destruct (render_current initial_table
              {| Dashboard.volume_step := -15; Dashboard.defects_step := 2;
                 Dashboard.downtime_step := 19;
                 Dashboard.cycle_time_step := 0.1 |} Hd Hne)
    as (f & last & Hf & Hlast & Hrec & _).
  exists f. split; [exact Hf |].
  rewrite Hrec. injection Hlast as <-. reflexivity.
Defined.

End Render.

(* ================================================================== *)
(** * Part V: further properties of the metrics engine *)
(* ================================================================== *)

Section EngineEdges.

Lemma optimal_cycle_time_defined (df : dataframe) :
  optimal_cycle_time df = None <-> (List.length df < 2)%nat.
Proof.
  unfold optimal_cycle_time, Pd.mean, Pd.std.
  rewrite dropna_of_reals, length_map.
  destruct df as [| r [| s df]]; cbn; split; intros H;
    try reflexivity; try lia; try discriminate.
Qed.

Lemma availability_spec_value (r : row) :
  availability_spec r = Some ((420 - Downtime_Total r) / 420).
Proof.
  unfold availability_spec, scheduled, Np.fdiv.
  destruct (Req_dec_T 420 0); [lra | reflexivity].
Qed.

Lemma quality_spec_undefined (r : row) :
  quality_spec r = None <-> Production_Volume r = 0%Z.
Proof.
  unfold quality_spec, Np.fdiv.
  destruct (Req_dec_T (IZR (Production_Volume r)) 0) as [E | N].
  - split; [intros _; apply eq_IZR; exact E | reflexivity].
  - split; [discriminate |]. intros E. rewrite E in N. contradiction.
Qed.

Lemma oee_spec_undefined (optimal : float) (r : row) :
  oee_spec optimal r = None <-> optimal = None \/ Production_Volume r = 0%Z.
Proof.
  unfold oee_spec. rewrite availability_spec_value.
  rewrite <- quality_spec_undefined.
  unfold performance_spec, scheduled, Np.fdiv.
  destruct optimal as [c |]; cbn [fmul lift2].
  - destruct (Req_dec_T 420 0); [lra |].
    destruct (quality_spec r); cbn; split; intros H;
      try discriminate; try (right; reflexivity); try reflexivity.
    destruct H; discriminate.
  - split; [left; reflexivity | reflexivity].
Qed.

(** X13.  The OEE either engine derives for a row is NaN exactly when
    the table has fewer than two rows, so that the standard deviation
    of the cycle times is undefined, or the row has no volume. *)
Theorem oee_undefined (df : dataframe) (i : nat) (r : row) :
  nth_error df i = Some r ->
  (exists o,
      nth_error (Dashboard.calculate_oee_metrics df) i = Some o /\
      Dashboard.record o = r /\
      (Dashboard.OEE o = None <->
       (List.length df < 2)%nat \/ Production_Volume r = 0%Z)) /\
  (exists x,
      nth_error (SPC.OEE (SPC.calculate_oee_metrics df)) i = Some x /\
      (x = None <->
       (List.length df < 2)%nat \/ Production_Volume r = 0%Z)).
Proof.
  intros Hr.
  assert (Hspc : SPC.OEE (SPC.calculate_oee_metrics df)
                 = map (oee_spec (optimal_cycle_time df)) df).
  { unfold SPC.calculate_oee_metrics. cbn [SPC.OEE].
    fold (optimal_cycle_time df). unfold Pd.of_ints, Pd.of_reals.
    rewrite !map_map.
    rewrite (zip_with_columns fsub), (zip_with_columns Np.fdiv).
    rewrite (zip_with_columns fmul), (zip_with_columns fmul).
    reflexivity. }
  split.
  - rewrite dashboard_oee_rows, nth_error_map, Hr. cbn [option_map].
    eexists. split; [reflexivity |].
    cbn [Dashboard.record Dashboard.OEE]. split; [reflexivity |].
    rewrite oee_spec_undefined, optimal_cycle_time_defined. reflexivity.
  - rewrite Hspc, nth_error_map, Hr. cbn [option_map].
    eexists. split; [reflexivity |].
    rewrite oee_spec_undefined, optimal_cycle_time_defined. reflexivity.
Qed.

Lemma oee_undefined_witness :
  nth_error initial_table 0 <> None /\
  exists o,
    nth_error (Dashboard.calculate_oee_metrics initial_table) 0 = Some o /\
    Dashboard.OEE o <> None.
Proof.
  assert (Hr : nth_error initial_table 0
               = Some {| Date := 0; Line := "A"; Production_Volume := 80;
                         Defects_Total := 4; Downtime_Total := 10;
                         Average_Cycle_Time := 2 |}) by reflexivity.
  split; [rewrite Hr; discriminate |].
  destruct (proj1 (oee_undefined initial_table 0 _ Hr)) as (o & Ho & _ & Hiff).
  exists o. split; [exact Ho |].
  intros E. apply Hiff in E. cbn in E. destruct E; [lia | discriminate].
Defined.

(** X14.  On a row within the bounds [simulate_new_row] keeps, the
    dashboard's Availability is a number not above 1, its Quality is
    NaN exactly when the row has no volume, and otherwise a number not
    above 1. *)
Theorem oee_factors_at_most_one (df : dataframe) (o : Dashboard.oee_row) :
  In o (Dashboard.calculate_oee_metrics df) ->
  row_in_range (Dashboard.record o) ->
  (exists a, Dashboard.Availability o = Some a /\ a <= 1) /\
  (Dashboard.Quality o = None <->
   Production_Volume (Dashboard.record o) = 0%Z) /\
  (forall q, Dashboard.Quality o = Some q -> q <= 1).
Proof.
  rewrite dashboard_oee_rows. intros Hin (Hv & Hd & Ht & _).
  apply in_map_iff in Hin as (r & <- & _).
  cbn [Dashboard.record Dashboard.Availability Dashboard.Quality] in *.
  split; [| split].
  - rewrite availability_spec_value. eexists; split; [reflexivity | lra].
  - apply quality_spec_undefined.
  - intros q Hq.
    destruct (Z.eq_dec (Production_Volume r) 0) as [E | N].
    + apply quality_spec_undefined in E. congruence.
    + rewrite quality_spec_value in Hq by lia. injection Hq as <-.
      assert (0 < IZR (Production_Volume r)) by (apply IZR_lt; lia).
      apply IZR_le in Hd.
      apply Rmult_le_reg_r with (IZR (Production_Volume r)); [assumption |].
      replace ((IZR (Production_Volume r) - IZR (Defects_Total r))
               / IZR (Production_Volume r) * IZR (Production_Volume r))
        with (IZR (Production_Volume r) - IZR (Defects_Total r))
        by (field; lra).
      lra.
Qed.

Lemma oee_factors_at_most_one_witness :
  exists o,
    In o (Dashboard.calculate_oee_metrics initial_table) /\
    row_in_range (Dashboard.record o) /\
    exists a, Dashboard.Availability o = Some a /\ a <= 1.
Proof.
  assert (Hrow : exists o,
             nth_error (Dashboard.calculate_oee_metrics initial_table) 0
             = Some o /\
             Dashboard.record o
             = {| Date := 0; Line := "A"; Production_Volume := 80;
                  Defects_Total := 4; Downtime_Total := 10;
                  Average_Cycle_Time := 2 |}).
  { rewrite dashboard_oee_rows. eexists. split; reflexivity. }
  destruct Hrow as (o & Hnth & Hrec).
  assert (Hin : In o (Dashboard.calculate_oee_metrics initial_table))
    by (eapply nth_error_In; exact Hnth).
  assert (Hrange : row_in_range (Dashboard.record o)).
  { rewrite Hrec. unfold row_in_range; cbn. repeat split; try lia; lra. }
  exists o. split; [exact Hin |]. split; [exact Hrange |].
  exact (proj1 (oee_factors_at_most_one initial_table o Hin Hrange)).
Defined.

End EngineEdges.

Section PChartMore.

Lemma fdiv_by_positive (x : float) (n : Z) :
  (0 < n)%Z ->
  Np.fdiv x (Some (IZR n)) = option_map (fun a => a / IZR n) x.
Proof.
  intros Hn. destruct x as [a |]; [| reflexivity].
  cbn [option_map]. apply fdiv_nonzero, not_0_IZR. lia.
Qed.

(** The columns of the p-chart, row by row, on positive volumes. *)
Lemma p_chart_rows (df : dataframe) :
  df <> [] ->
  Forall (fun r => (0 < Production_Volume r)%Z) df ->
  SPC.p_bar (SPC.p_chart df) = Some (p_centre df) /\
  SPC.p (SPC.p_chart df) = map (fun r => Some (proportion r)) df /\
  SPC.UCL (SPC.p_chart df)
    = map (fun r => fadd (Some (p_centre df))
                      (p_half_width (p_centre df) (Production_Volume r))) df /\
  SPC.LCL (SPC.p_chart df)
    = map (fun r => fsub (Some (p_centre df))
                      (p_half_width (p_centre df) (Production_Volume r))) df.
Proof.
  intros Hne Hpos.
  assert (Hbar : Np.fdiv (Some (IZR (Pd.isum (map Defects_Total df))))
                         (Some (IZR (Pd.isum (map Production_Volume df))))
                 = Some (p_centre df)).
  { apply fdiv_nonzero.
    assert (0 < Pd.isum (map Production_Volume df))%Z.
    { apply isum_positive.
      - destruct df; [contradiction | discriminate].
      - rewrite Forall_map. exact Hpos. }
    apply not_0_IZR. lia. }
  unfold SPC.p_chart. cbn [SPC.p_bar SPC.p SPC.UCL SPC.LCL].
  rewrite Hbar. unfold Pd.of_ints. rewrite !map_map.
  rewrite (zip_with_columns Np.fdiv).
  split; [reflexivity |]. split; [| split].
  - apply map_ext_Forall. revert Hpos. apply Forall_impl. intros r Hr.
    rewrite fdiv_by_positive by exact Hr. reflexivity.
  - apply map_ext_Forall. revert Hpos. apply Forall_impl. intros r Hr.
    cbn [fsub fmul lift2]. rewrite fdiv_by_positive by exact Hr. reflexivity.
  - apply map_ext_Forall. revert Hpos. apply Forall_impl. intros r Hr.
    cbn [fsub fmul lift2]. rewrite fdiv_by_positive by exact Hr. reflexivity.
Qed.

Lemma proportion_rows_positive (df : dataframe) :
  Forall proportion_row df ->
  Forall (fun r => (0 < Production_Volume r)%Z) df.
Proof. apply Forall_impl. intros r [H _]. exact H. Qed.

Lemma proportion_rows_sums (df : dataframe) :
  Forall proportion_row df ->
  (0 <= Pd.isum (map Defects_Total df)
     <= Pd.isum (map Production_Volume df))%Z.
Proof.
  induction 1 as [| r df (Hv & Hd0 & Hd1) _ IH]; cbn; [lia |].
  unfold Pd.isum in IH. lia.
Qed.

Lemma p_centre_unit (df : dataframe) :
  df <> [] -> Forall proportion_row df -> 0 <= p_centre df <= 1.
Proof.
  intros Hne Hrows.
  pose proof (proportion_rows_sums df Hrows) as [Hd0 Hd1].
  assert (Hv : (0 < Pd.isum (map Production_Volume df))%Z).
  { apply isum_positive.
    - destruct df; [contradiction | discriminate].
    - rewrite Forall_map. apply proportion_rows_positive. exact Hrows. }
  apply IZR_le in Hd0, Hd1. apply IZR_lt in Hv.
  unfold p_centre.
  set (d := IZR (Pd.isum (map Defects_Total df))) in *.
  set (v := IZR (Pd.isum (map Production_Volume df))) in *.
  assert (Hx : d = d / v * v) by (field; lra).
  set (x := d / v) in *. split; nra.
Qed.

Lemma p_half_width_value (pc : R) (n : Z) :
  0 <= pc <= 1 -> (0 < n)%Z ->
  p_half_width pc n = Some (3 * sqrt (pc * (1 - pc) / IZR n)) /\
  0 <= 3 * sqrt (pc * (1 - pc) / IZR n).
Proof.
  intros Hpc Hn. apply IZR_lt in Hn.
  assert (Hrad : 0 <= pc * (1 - pc) / IZR n).
  { apply Rmult_le_pos; [nra | left; apply Rinv_0_lt_compat; exact Hn]. }
  unfold p_half_width, Np.fsqrt.
  destruct (Rlt_dec _ 0); [lra |]. cbn [fmul lift2].
  split; [reflexivity |].
  pose proof (sqrt_pos (pc * (1 - pc) / IZR n)). lra.
Qed.

(** X15.  On a non-empty table whose rows all have a positive volume
    and defects between 0 and that volume, the centre line of the
    p-chart lies between 0 and 1 and both limits are numbers on every
    row, the lower one at most and the upper one at least the centre
    line. *)
Theorem p_chart_limits_ordered (df : dataframe) (i : nat) (r : row) :
  Forall proportion_row df ->
  nth_error df i = Some r ->
  0 <= p_centre df <= 1 /\
  exists u l,
    nth_error (SPC.UCL (SPC.p_chart df)) i = Some (Some u) /\
    nth_error (SPC.LCL (SPC.p_chart df)) i = Some (Some l) /\
    l <= p_centre df <= u.
Proof.
  intros Hrows Hr.
  assert (Hne : df <> []) by (intros ->; destruct i; discriminate).
  pose proof (p_centre_unit df Hne Hrows) as Hpc.
  destruct (p_chart_rows df Hne (proportion_rows_positive df Hrows))
    as (_ & _ & -> & ->).
  rewrite !nth_error_map, Hr. cbn [option_map].
  assert (Hv : (0 < Production_Volume r)%Z).
  { rewrite Forall_forall in Hrows.
    apply (Hrows r). eapply nth_error_In; exact Hr. }
  destruct (p_half_width_value (p_centre df) (Production_Volume r) Hpc Hv)
    as [-> Hh].
  cbn [fadd fsub lift2]. split; [exact Hpc |].
  eexists; eexists. split; [reflexivity |]. split; [reflexivity |]. lra.
Qed.

Lemma p_chart_limits_ordered_witness :
  Forall proportion_row initial_table /\
  exists u l,
    nth_error (SPC.UCL (SPC.p_chart initial_table)) 0 = Some (Some u) /\
    nth_error (SPC.LCL (SPC.p_chart initial_table)) 0 = Some (Some l) /\
    l <= p_centre initial_table <= u.
Proof.
  assert (Hrows : Forall proportion_row initial_table).
  { unfold initial_table, proportion_row. repeat constructor; cbn; lia. }
  split; [exact Hrows |].
  exact (proj2 (p_chart_limits_ordered initial_table 0 _ Hrows eq_refl)).
Defined.

(** X16.  The centre line of the p-chart lies between the smallest and
    the largest proportion defective of the rows: bounds that hold of
    every row's Defects_Total / Production_Volume hold of p-bar. *)
Theorem p_centre_between (df : dataframe) (a b : R) :
  df <> [] ->
  Forall (fun r => (0 < Production_Volume r)%Z) df ->
  Forall (fun r => a <= proportion r <= b) df ->
  SPC.p_bar (SPC.p_chart df) = Some (p_centre df) /\
  a <= p_centre df <= b.
Proof.
  intros Hne Hpos Hab.
  split; [apply (p_chart_rows df Hne Hpos) |].
  assert (Hv : (0 < Pd.isum (map Production_Volume df))%Z).
  { apply isum_positive.
    - destruct df; [contradiction | discriminate].
    - rewrite Forall_map. exact Hpos. }
  apply IZR_lt in Hv.
  assert (Hsum : a * IZR (Pd.isum (map Production_Volume df))
                 <= IZR (Pd.isum (map Defects_Total df))
                 <= b * IZR (Pd.isum (map Production_Volume df))).
  { clear Hne Hv. induction df as [| r df IH]; [cbn; lra |].
    inversion Hpos as [| ? ? Hr Hpos']; subst.
    inversion Hab as [| ? ? Hrab Hab']; subst.
    specialize (IH Hpos' Hab').
    cbn [map Pd.isum fold_right] in *. rewrite !plus_IZR.
    fold (Pd.isum (map Production_Volume df)).
    fold (Pd.isum (map Defects_Total df)).
    apply IZR_lt in Hr. unfold proportion in Hrab.
    assert (Hx : IZR (Defects_Total r)
                 = IZR (Defects_Total r) / IZR (Production_Volume r)
                   * IZR (Production_Volume r)) by (field; lra).
    set (x := IZR (Defects_Total r) / IZR (Production_Volume r)) in *.
    split; nra. }
  unfold p_centre.
  set (d := IZR (Pd.isum (map Defects_Total df))) in *.
  set (v := IZR (Pd.isum (map Production_Volume df))) in *.
  assert (Hx : d = d / v * v) by (field; lra).
  set (x := d / v) in *. split; nra.
Qed.

Lemma p_centre_between_witness :
  initial_table <> [] /\
  Forall (fun r => (0 < Production_Volume r)%Z) initial_table /\
  Forall (fun r => 0.05 <= proportion r <= 0.05) initial_table /\
  0.05 <= p_centre initial_table <= 0.05.
Proof.
  assert (Hne : initial_table <> []) by discriminate.
  assert (Hpos : Forall (fun r => (0 < Production_Volume r)%Z) initial_table).
  { unfold initial_table. repeat constructor; cbn; lia. }
  assert (Hab : Forall (fun r => 0.05 <= proportion r <= 0.05) initial_table).
  { unfold initial_table, proportion.
    repeat (apply Forall_cons; [cbn; lra |]). apply Forall_nil. }
  split; [exact Hne |]. split; [exact Hpos |]. split; [exact Hab |].
  exact (proj2 (p_centre_between initial_table 0.05 0.05 Hne Hpos Hab)).
Defined.

End PChartMore.

Section PChartBand.



Lemma zip_with_length {A B C} (f : A -> B -> C) (s : list A) (t : list B) :
  List.length (Pd.zip_with f s t) = Nat.min (List.length s) (List.length t).
Proof.
  revert t. induction s as [| x s IH]; intros [| y t]; cbn; try reflexivity.
  now rewrite IH.
Qed.

(** X18.  When the volumes of a table add up to 0, as on an empty
    table, the p-chart has no centre line: p-bar and both limits of
    every row are NaN, and no row is marked out of control. *)
Theorem p_chart_without_volume (df : dataframe) :
  Pd.isum (map Production_Volume df) = 0%Z ->
  SPC.p_bar (SPC.p_chart df) = None /\
  SPC.UCL (SPC.p_chart df) = map (fun _ => None) df /\
  SPC.LCL (SPC.p_chart df) = map (fun _ => None) df /\
  SPC.p_chart_ooc df = map (fun _ => false) df.
Proof.
  intros Hsum.
  assert (Hbar : Np.fdiv (Some (IZR (Pd.isum (map Defects_Total df))))
                         (Some (IZR (Pd.isum (map Production_Volume df))))
                 = None).
  { rewrite Hsum. unfold Np.fdiv.
    destruct (Req_dec_T (IZR 0) 0); [reflexivity | contradiction]. }
  assert (Hu : SPC.UCL (SPC.p_chart df) = map (fun _ => None) df).
  { unfold SPC.p_chart. cbn [SPC.UCL]. rewrite Hbar.
    unfold Pd.of_ints. rewrite !map_map. reflexivity. }
  assert (Hl : SPC.LCL (SPC.p_chart df) = map (fun _ => None) df).
  { unfold SPC.p_chart. cbn [SPC.LCL]. rewrite Hbar.
    unfold Pd.of_ints. rewrite !map_map. reflexivity. }
  split; [unfold SPC.p_chart; cbn [SPC.p_bar]; exact Hbar |].
  split; [exact Hu |]. split; [exact Hl |].
  unfold SPC.p_chart_ooc, SPC.ooc_mask. rewrite Hu, Hl.
  unfold SPC.p_chart. cbn [SPC.p]. unfold Pd.of_ints.
  rewrite !map_map, (zip_with_columns Np.fdiv).
  rewrite !zip_with_columns. apply map_ext. intros r.
  destruct (Np.fdiv (Some (IZR (Defects_Total r))) _); reflexivity.
Qed.

Lemma p_chart_without_volume_witness :
  Pd.isum (map Production_Volume []) = 0%Z /\
  SPC.p_bar (SPC.p_chart []) = None.
Proof.
  split; [reflexivity |].
  exact (proj1 (p_chart_without_volume [] eq_refl)).
Defined.

Lemma flt_true (a b : float) :
  flt a b = true <-> exists x y, a = Some x /\ b = Some y /\ x < y.
Proof.
  unfold flt. destruct a as [x |], b as [y |];
    try (split; [discriminate | intros (? & ? & ? & ? & _); discriminate]).
  destruct (Rlt_dec x y) as [H | H]; split.
  - intros _. exists x, y. auto.
  - reflexivity.
  - discriminate.
  - intros (x' & y' & [= <-] & [= <-] & Hlt). contradiction.
Qed.

Lemma ooc_mask_nth (x upper lower : Pd.series) (i : nat) (b : bool) :
  nth_error (SPC.ooc_mask x upper lower) i = Some b ->
  exists xi ui li,
    nth_error x i = Some xi /\ nth_error upper i = Some ui /\
    nth_error lower i = Some li /\ b = orb (flt ui xi) (flt xi li).
Proof.
  unfold SPC.ooc_mask. revert x upper lower.
  induction i as [| i IH]; intros [| xi x] [| ui upper] [| li lower];
    cbn; try discriminate.
  - intros [= <-]. exists xi, ui, li. auto.
  - intros H. apply IH in H. exact H.
Qed.

Lemma p_chart_limits_pair (df : dataframe) (i : nat) (ui li : float) :
  nth_error (SPC.UCL (SPC.p_chart df)) i = Some ui ->
  nth_error (SPC.LCL (SPC.p_chart df)) i = Some li ->
  exists c h, ui = fadd c h /\ li = fsub c h.
Proof.
  unfold SPC.p_chart. cbn [SPC.UCL SPC.LCL].
  set (c := Np.fdiv _ _). set (hw := map (fmul (Some 3)) _).
  rewrite !nth_error_map.
  destruct (nth_error hw i) as [h |]; [| discriminate].
  cbn [option_map]. intros [= <-] [= <-]. exists c, h. auto.
Qed.

(** X19.  A row the p-chart marks out of control has a proportion
    defective and two limits that are numbers, and the proportion is
    above the upper or below the lower limit. *)
Theorem p_chart_ooc_outside (df : dataframe) (i : nat) :
  nth_error (SPC.p_chart_ooc df) i = Some true ->
  exists x u l,
    nth_error (SPC.p (SPC.p_chart df)) i = Some (Some x) /\
    nth_error (SPC.UCL (SPC.p_chart df)) i = Some (Some u) /\
    nth_error (SPC.LCL (SPC.p_chart df)) i = Some (Some l) /\
    (u < x \/ x < l).
Proof.
  unfold SPC.p_chart_ooc. cbv zeta. intros H.
  apply ooc_mask_nth in H as (xi & ui & li & Hx & Hu & Hl & Hb).
  destruct (p_chart_limits_pair df i ui li Hu Hl) as (c & h & Eu & El).
  rewrite Eu in *. rewrite El in *. clear Eu El ui li.
  symmetry in Hb. apply orb_true_iff in Hb as [Hb | Hb];
    apply flt_true in Hb as (a & b & Ea & Eb & Hlt).
  - destruct c as [c |], h as [h |]; try discriminate.
    cbn [fadd fsub lift2] in *. injection Ea as <-. rewrite Eb in Hx.
    exists b, (c + h), (c - h). auto.
  - destruct c as [c |], h as [h |]; try discriminate.
    cbn [fadd fsub lift2] in *. injection Eb as <-. rewrite Ea in Hx.
    exists a, (c + h), (c - h). auto.
Qed.

Lemma p_chart_ooc_outside_witness :
  exists df,
    nth_error (SPC.p_chart_ooc df) 0 = Some true /\
    exists x u l,
      nth_error (SPC.p (SPC.p_chart df)) 0 = Some (Some x) /\
      nth_error (SPC.UCL (SPC.p_chart df)) 0 = Some (Some u) /\
      nth_error (SPC.LCL (SPC.p_chart df)) 0 = Some (Some l) /\
      (u < x \/ x < l).
Proof.
  (* all the defects of the table on its smallest row *)
  set (df := [ {| Date := 0; Line := "A"; Production_Volume := 1;
                  Defects_Total := 1; Downtime_Total := 0;
                  Average_Cycle_Time := 2 |};
               {| Date := 1; Line := "A"; Production_Volume := 99;
                  Defects_Total := 0; Downtime_Total := 0;
                  Average_Cycle_Time := 2 |} ]).
  assert (Hflag : nth_error (SPC.p_chart_ooc df) 0 = Some true).
  { assert (Hrows : Forall proportion_row df).
    { unfold df, proportion_row. repeat constructor; cbn; lia. }
    assert (Hne : df <> []) by discriminate.
    destruct (p_chart_rows df Hne (proportion_rows_positive df Hrows))
      as (_ & Hp & Hu & Hl).
    unfold SPC.p_chart_ooc, SPC.ooc_mask. cbv zeta. rewrite Hp, Hu, Hl.
    assert (Hpc : p_centre df = 1 / 100) by (unfold p_centre; cbn; lra).
    rewrite Hpc.
    destruct (p_half_width_value (1 / 100) 1 ltac:(lra) ltac:(lia))
      as [Hh1 _].
    destruct (p_half_width_value (1 / 100) 99 ltac:(lra) ltac:(lia))
      as [Hh2 _].
    cbn [df map Production_Volume Defects_Total]. rewrite Hh1, Hh2.
    cbn [fadd fsub lift2 Pd.zip_with nth_error]. f_equal.
    apply orb_true_iff. left. apply flt_true.
    do 2 eexists. split; [reflexivity |]. split; [reflexivity |].
    unfold proportion. cbn [Production_Volume Defects_Total].
    (* 3 sqrt(0.0099) < 0.99 *)
    assert (Hs : sqrt (1 / 100 * (1 - 1 / 100) / IZR 1) < 33 / 100).
    { replace (33 / 100) with (sqrt ((33 / 100) * (33 / 100)))
        by (apply sqrt_square; lra).
      apply sqrt_lt_1; lra. }
    lra. }
  exists df. split; [exact Hflag |].
  exact (p_chart_ooc_outside df 0 Hflag).
Defined.

End PChartBand.

Section DrawnLimits.

Lemma ooc_mask_ext (x upper lower lower' : Pd.series) :
  Forall2 (fun xi '(l, l') => flt xi l = flt xi l') x (combine lower lower') ->
  List.length lower = List.length lower' ->
  SPC.ooc_mask x upper lower = SPC.ooc_mask x upper lower'.
Proof.
  unfold SPC.ooc_mask. revert upper lower lower'.
  induction x as [| xi x IH]; intros upper lower lower' H Hlen.
  - destruct upper; reflexivity.
  - destruct lower as [| l lower], lower' as [| l' lower'];
      try discriminate; try (inversion H; fail).
    inversion H as [| ? ? ? ? Hhd Htl]; subst.
    destruct upper as [| u upper]; [reflexivity |].
    cbn [Pd.zip_with]. rewrite Hhd. f_equal.
    apply (IH upper lower lower' Htl). cbn in Hlen. lia.
Qed.

(** X20.  On rows with a positive volume and no negative defect count
    the p-chart marks the same rows whether a proportion is compared
    with the lower limit it computes or with the lower limit it draws,
    which is clipped at 0. *)
Theorem p_chart_ooc_drawn (df : dataframe) :
  Forall (fun r => (0 < Production_Volume r)%Z /\ (0 <= Defects_Total r)%Z)
         df ->
  SPC.p_chart_ooc df
  = SPC.ooc_mask (SPC.p (SPC.p_chart df)) (SPC.UCL (SPC.p_chart df))
                 (SPC.p_chart_lcl_drawn df).
Proof.
  intros Hrows. unfold SPC.p_chart_ooc, SPC.p_chart_lcl_drawn. cbv zeta.
  apply ooc_mask_ext; [| unfold Pd.clip_lower; now rewrite length_map].
  unfold SPC.p_chart at 1. cbn [SPC.p]. unfold Pd.of_ints, Pd.clip_lower.
  rewrite !map_map, (zip_with_columns Np.fdiv).
  set (lcl := SPC.LCL (SPC.p_chart df)).
  assert (Hlen : List.length lcl = List.length df).
  { unfold lcl, SPC.p_chart. cbn [SPC.LCL]. unfold Pd.of_ints.
    now rewrite !length_map. }
  clearbody lcl. revert lcl Hlen.
  induction Hrows as [| r df [Hv Hd] _ IH]; intros [| l lcl] Hlen;
    try discriminate; cbn [map combine]; constructor.
  - rewrite fdiv_by_positive by exact Hv. cbn [option_map].
    destruct l as [l |]; [| reflexivity]. cbn [option_map flt].
    assert (0 <= IZR (Defects_Total r) / IZR (Production_Volume r)).
    { apply Rmult_le_pos; [apply IZR_le; exact Hd |].
      left; apply Rinv_0_lt_compat, IZR_lt; exact Hv. }
    destruct (Rlt_dec l 0);
      repeat match goal with
             | |- context [Rlt_dec ?a ?b] => destruct (Rlt_dec a b)
             end; try reflexivity; exfalso; lra.
  - apply IH. cbn in Hlen. lia.
Qed.

Lemma p_chart_ooc_drawn_witness :
  Forall (fun r => (0 < Production_Volume r)%Z /\ (0 <= Defects_Total r)%Z)
         initial_table /\
  SPC.p_chart_ooc initial_table
  = SPC.ooc_mask (SPC.p (SPC.p_chart initial_table))
                 (SPC.UCL (SPC.p_chart initial_table))
                 (SPC.p_chart_lcl_drawn initial_table).
Proof.
  assert (H : Forall (fun r => (0 < Production_Volume r)%Z /\
                               (0 <= Defects_Total r)%Z) initial_table).
  { unfold initial_table. repeat constructor; cbn; lia. }
  split; [exact H | exact (p_chart_ooc_drawn initial_table H)].
Defined.

End DrawnLimits.

Section IMRMore.

Lemma total_nonneg (xs : list R) : Forall (fun x => 0 <= x) xs -> 0 <= Pd.total xs.
Proof.
  induction 1 as [| x xs Hx _ IH]; cbn [Pd.total fold_right]; [lra |].
  fold (Pd.total xs). lra.
Qed.

Lemma moving_ranges_nonneg (xs : list R) :
  Forall (fun x => 0 <= x) (moving_ranges xs).
Proof.
  induction xs as [| x [| y t] IH]; try constructor.
  - apply Rabs_pos.
  - exact IH.
Qed.

Lemma average_nonneg (xs : list R) :
  Forall (fun x => 0 <= x) xs -> 0 <= average xs.
Proof.
  intros H. unfold average. destruct xs as [| x xs].
  - cbn [Pd.total fold_right]. unfold Rdiv. rewrite Rmult_0_l. lra.
  - apply Rmult_le_pos; [apply total_nonneg; exact H |].
    left. apply Rinv_0_lt_compat, lt_0_INR. cbn; lia.
Qed.

Lemma imr_band (xs : list R) :
  imr_lcl xs <= average xs <= imr_ucl xs /\
  imr_ucl xs - average xs = average xs - imr_lcl xs.
Proof.
  pose proof (average_nonneg _ (moving_ranges_nonneg xs)).
  unfold imr_lcl, imr_ucl. lra.
Qed.

(** X21.  On a table of at least two rows, the limits of both I-MR
    charts are numbers on every row and enclose the centre line, which
    lies midway between them. *)
Theorem imr_limits_ordered (df : dataframe) (i : nat) :
  (2 <= List.length df)%nat -> (i < List.length df)%nat ->
  (exists m u l,
      nth_error (SPC.Mean (SPC.imr_chart_cycle_time df)) i = Some (Some m) /\
      nth_error (SPC.UCL_I (SPC.imr_chart_cycle_time df)) i = Some (Some u) /\
      nth_error (SPC.LCL_I (SPC.imr_chart_cycle_time df)) i = Some (Some l) /\
      l <= m <= u /\ u - m = m - l) /\
  (exists m u l,
      nth_error (SPC.Mean (SPC.imr_chart_downtime df)) i = Some (Some m) /\
      nth_error (SPC.UCL_I (SPC.imr_chart_downtime df)) i = Some (Some u) /\
      nth_error (SPC.LCL_I (SPC.imr_chart_downtime df)) i = Some (Some l) /\
      l <= m <= u /\ u - m = m - l).
Proof.
  intros Hlen Hi.
  assert (Hc : (2 <= List.length (map Average_Cycle_Time df))%nat)
    by (rewrite length_map; exact Hlen).
  assert (Hd : (2 <= List.length (map Downtime_Total df))%nat)
    by (rewrite length_map; exact Hlen).
  destruct (imr_limits_of_series _ Hc) as (Hm1 & _ & Hu1 & Hl1).
  destruct (imr_limits_of_series _ Hd) as (Hm2 & _ & Hu2 & Hl2).
  destruct (nth_error df i) as [r |] eqn:Hr;
    [| apply nth_error_None in Hr; lia].
  unfold SPC.imr_chart_cycle_time, SPC.imr_chart_downtime.
  cbn [SPC.Mean SPC.UCL_I SPC.LCL_I].
  rewrite !map_map, !nth_error_map, Hr. cbn [option_map].
  rewrite Hu1, Hl1, Hu2, Hl2, Hm1, Hm2.
  split; do 3 eexists; repeat (split; [reflexivity |]); apply imr_band.
Qed.

Lemma imr_limits_ordered_witness :
  (2 <= List.length initial_table)%nat /\ (0 < List.length initial_table)%nat /\
  exists m u l,
    nth_error (SPC.Mean (SPC.imr_chart_cycle_time initial_table)) 0
      = Some (Some m) /\
    nth_error (SPC.UCL_I (SPC.imr_chart_cycle_time initial_table)) 0
      = Some (Some u) /\
    nth_error (SPC.LCL_I (SPC.imr_chart_cycle_time initial_table)) 0
      = Some (Some l) /\
    l <= m <= u /\ u - m = m - l.
Proof.
  assert (H2 : (2 <= List.length initial_table)%nat) by (cbn; lia).
  assert (H0 : (0 < List.length initial_table)%nat) by (cbn; lia).
  split; [exact H2 |]. split; [exact H0 |].
  exact (proj1 (imr_limits_ordered initial_table 0 H2 H0)).
Defined.



End IMRMore.

(* ================================================================== *)
(** * Part VI: dates, shifts and the rest of the generator *)
(* ================================================================== *)

Section Dates.

Import GenerateData.
Open Scope list_scope.
Open Scope Z_scope.

Lemma day_positive : 0 < Datetime.day.
Proof. reflexivity. Qed.

Lemma add_day (d : Datetime.datetime) :
  0 <= d ->
  Datetime.add d Datetime.day
  = if d + Datetime.day <=? Datetime.max then Some (d + Datetime.day) else None.
Proof.
  intros Hd. unfold Datetime.add. cbv zeta.
  pose proof day_positive.
  destruct (Z.leb_spec 0 (d + Datetime.day)); [| lia]. reflexivity.
Qed.

(** The loop, [n] days before the first date past [end_date]. *)
Lemma generate_dates_loop_spec (end_date : Datetime.datetime) (n : nat) :
  forall (fuel : nat) (current_date : Datetime.datetime)
         (date_list : list Datetime.datetime),
    (n < fuel)%nat -> 0 <= current_date ->
    end_date < current_date + Z.of_nat n * Datetime.day ->
    ((0 < n)%nat ->
     current_date + (Z.of_nat n - 1) * Datetime.day <= end_date) ->
    generate_dates_loop fuel end_date current_date date_list
    = Some (if (Nat.eqb n 0
                || (current_date + Z.of_nat n * Datetime.day <=? Datetime.max))%bool
            then Returned (date_list ++ filter is_workday (days_from n current_date))
            else Overflow).
Proof.
  pose proof day_positive as Hday.
  induction n as [| n IH]; intros fuel cur acc Hfuel Hcur Hpast Hin.
  - destruct fuel as [| fuel]; [lia |]. cbn [generate_dates_loop].
    destruct (Z.leb_spec cur end_date); [lia |].
    cbn. now rewrite app_nil_r.
  - destruct fuel as [| fuel]; [lia |]. cbn [generate_dates_loop].
    assert (Hle : cur <= end_date).
    { specialize (Hin ltac:(lia)). nia. }
    destruct (Z.leb_spec cur end_date); [| lia].
    rewrite add_day by exact Hcur.
    cbn [Nat.eqb orb days_from filter]. fold (is_workday cur).
    destruct (Z.leb_spec (cur + Datetime.day) Datetime.max) as [Hfit | Hover].
    + assert (Hnext : (0 < n)%nat ->
                      cur + Datetime.day + (Z.of_nat n - 1) * Datetime.day
                      <= end_date).
      { intros Hn. specialize (Hin ltac:(lia)). lia. }
      rewrite (IH fuel (cur + Datetime.day)
                 (if is_workday cur then acc ++ [cur] else acc)
                 ltac:(lia) ltac:(lia) ltac:(lia) Hnext).
      replace (cur + Datetime.day + Z.of_nat n * Datetime.day)
        with (cur + Z.of_nat (S n) * Datetime.day) by lia.
      destruct n as [| n].
      * cbn [Nat.eqb orb].
        destruct (Z.leb_spec (cur + Z.of_nat 1 * Datetime.day) Datetime.max);
          [| lia].
        destruct (is_workday cur); cbn; rewrite ?app_nil_r; reflexivity.
      * cbn [Nat.eqb orb].
        destruct (_ <=? Datetime.max); [| reflexivity].
        destruct (is_workday cur); [| reflexivity].
        now rewrite <- app_assoc.
    + destruct (Z.leb_spec (cur + Z.of_nat (S n) * Datetime.day) Datetime.max);
        [nia | reflexivity].
Qed.

(** X23.  For datetimes of the years 1 to 9999, [generate_dates] always
    comes to an end.  When the start is after the end it returns the
    empty list.  Otherwise it walks from the start in steps of one day
    up to the end and returns, in order, the days of that walk that are
    Monday to Friday; but when the day after the last day of the walk
    is past [datetime.max] it raises OverflowError instead. *)
Theorem generate_dates_spec (start_date end_date : Datetime.datetime) :
  0 <= start_date -> end_date <= Datetime.max ->
  let steps := (end_date - start_date) / Datetime.day in
  generate_dates start_date end_date
  = Some (if end_date <? start_date then Returned []
          else if start_date + (steps + 1) * Datetime.day <=? Datetime.max
               then Returned (filter is_workday
                                (days_from (Z.to_nat (steps + 1)) start_date))
               else Overflow).
Proof.
  intros Hstart Hend steps. pose proof day_positive as Hday.
  unfold generate_dates. fold steps.
  destruct (Z.ltb_spec end_date start_date) as [Hlt | Hle].
  - rewrite (generate_dates_loop_spec end_date 0); try lia.
    reflexivity.
  - assert (Hsteps : 0 <= steps) by (apply Z.div_pos; lia).
    assert (Hdiv : steps * Datetime.day <= end_date - start_date
                   < (steps + 1) * Datetime.day).
    { unfold steps.
      pose proof (Z.div_mod (end_date - start_date) Datetime.day ltac:(lia)).
      pose proof (Z.mod_pos_bound (end_date - start_date) Datetime.day Hday).
      nia. }
    rewrite (generate_dates_loop_spec end_date (Z.to_nat (steps + 1)));
      try lia.
    + replace (Nat.eqb (Z.to_nat (steps + 1)) 0) with false
        by (symmetry; apply Nat.eqb_neq; lia).
      rewrite Z2Nat.id by lia. reflexivity.
Qed.

Lemma generate_dates_spec_witness :
  0 <= Datetime.of_ordinal 738521 /\
  Datetime.of_ordinal 738701 <= Datetime.max /\
  exists l,
    generate_dates (Datetime.of_ordinal 738521) (Datetime.of_ordinal 738701)
    = Some (Returned l) /\ List.length l = 130%nat.
Proof.
  assert (H0 : 0 <= Datetime.of_ordinal 738521) by (vm_compute; discriminate).
  assert (H1 : Datetime.of_ordinal 738701 <= Datetime.max)
    by (vm_compute; discriminate).
  split; [exact H0 |]. split; [exact H1 |].
  eexists. split.
  - rewrite (generate_dates_spec _ _ H0 H1). vm_compute. reflexivity.
  - vm_compute. reflexivity.
Defined.

End Dates.

Section Shifts.

Import GenerateData.
Open Scope list_scope.

Lemma generate_shifts_fold (date_list : list Datetime.datetime)
    (shifts : list (Datetime.datetime * string)) :
  fold_left
    (fun shifts date =>
       fold_left (fun shifts shift => shifts ++ [(date, shift)])
                 ["Morning"; "Afternoon"; "Night"]%string shifts)
    date_list shifts
  = shifts ++ flat_map shifts_of date_list.
Proof.
  revert shifts. induction date_list as [| d l IH]; intros shifts.
  - cbn. now rewrite app_nil_r.
  - cbn [fold_left flat_map]. rewrite IH. unfold shifts_of.
    rewrite <- !app_assoc. reflexivity.
Qed.

(** X24.  [generate_shifts] gives every date its three shifts, Morning,
    Afternoon and Night, dates in the order given: three entries per
    date, the entries of the date at position [i] at positions 3i,
    3i + 1 and 3i + 2. *)
Theorem generate_shifts_spec (date_list : list Datetime.datetime) :
  generate_shifts date_list = flat_map shifts_of date_list /\
  List.length (generate_shifts date_list) = (3 * List.length date_list)%nat /\
  (forall i d,
      nth_error date_list i = Some d ->
      nth_error (generate_shifts date_list) (3 * i) = Some (d, "Morning"%string) /\
      nth_error (generate_shifts date_list) (3 * i + 1)
        = Some (d, "Afternoon"%string) /\
      nth_error (generate_shifts date_list) (3 * i + 2)
        = Some (d, "Night"%string)).
Proof.
  assert (Heq : generate_shifts date_list = flat_map shifts_of date_list).
  { unfold generate_shifts. now rewrite generate_shifts_fold. }
  rewrite Heq. split; [reflexivity |]. split.
  - clear Heq. induction date_list as [| d l IH]; cbn [flat_map List.length];
      [reflexivity |].
    rewrite length_app. cbn [shifts_of List.length]. lia.
  - clear Heq. induction date_list as [| d0 l IH]; intros i d Hi.
    + destruct i; discriminate.
    + destruct i as [| i].
      * injection Hi as ->. cbn. auto.
      * cbn [nth_error] in Hi. specialize (IH i d Hi).
        replace (3 * S i)%nat with (S (S (S (3 * i)))) by lia.
        replace (S (S (S (3 * i))) + 1)%nat with (S (S (S (3 * i + 1)))) by lia.
        replace (S (S (S (3 * i))) + 2)%nat with (S (S (S (3 * i + 2)))) by lia.
        exact IH.
Qed.

End Shifts.

Section CycleTimes.

Import GenerateData.
Open Scope list_scope.

Lemma imul_spec {A} (mul : A -> A) (a : list A) (i : nat) :
  (i < List.length a)%nat ->
  exists a',
    Np.imul mul a i = Ok a' /\
    List.length a' = List.length a /\
    (forall j, j <> i -> nth_error a' j = nth_error a j) /\
    nth_error a' i = option_map mul (nth_error a i).
Proof.
  revert i. induction a as [| x a IH]; intros i Hi; [cbn in Hi; lia |].
  destruct i as [| i].
  - exists (mul x :: a). cbn. repeat split.
    intros [| j] Hj; [contradiction | reflexivity].
  - destruct (IH i ltac:(cbn in Hi; lia)) as (a' & Hrun & Hlen & Hnth & Hi').
    exists (x :: a'). cbn [Np.imul]. rewrite Hrun.
    cbn [List.length nth_error]. repeat split; [lia | | exact Hi'].
    intros [| j] Hj; [reflexivity |]. cbn. apply Hnth. lia.
Qed.

Lemma spike_loop_spec (uniform : nat -> R) (spikes : list (nat * nat)) :
  forall cycle_times : list R,
    Forall (fun s => (snd s < List.length cycle_times)%nat) spikes ->
    exists cycle_times',
      spike_loop spikes uniform cycle_times = Ok cycle_times' /\
      List.length cycle_times' = List.length cycle_times /\
      (forall j, ~ In j (map snd spikes) ->
                 nth_error cycle_times' j = nth_error cycle_times j).
Proof.
  induction spikes as [| [k idx] rest IH]; intros a Hall.
  - exists a. cbn. auto.
  - inversion Hall as [| ? ? Hidx Hrest]; subst. cbn [snd] in Hidx.
    destruct (imul_spec (fun x => (x * uniform k)%R) a idx Hidx)
      as (a1 & Hrun & Hlen & Hnth & _).
    destruct (IH a1) as (a2 & Hrun2 & Hlen2 & Hnth2).
    { rewrite Hlen. exact Hrest. }
    exists a2. cbn [spike_loop]. rewrite Hrun. cbn [bind].
    split; [exact Hrun2 |]. split; [lia |].
    intros j Hj. cbn [map snd In] in Hj.
    rewrite Hnth2 by tauto. apply Hnth. intros ->. tauto.
Qed.

Lemma enumerate_from_snd {A} (k : nat) (l : list A) :
  map snd (enumerate_from k l) = l.
Proof.
  revert k. induction l as [| x l IH]; intros k; cbn; [reflexivity |].
  now rewrite IH.
Qed.

Lemma maximum_floor (a : list R) (c : R) :
  Forall (fun x => (c <= x)%R) (Np.maximum a c).
Proof.
  unfold Np.maximum. apply Forall_map, Forall_forall. intros x _.
  destruct (Rlt_dec x c); lra.
Qed.

Lemma spike_fraction (n : Z) :
  (0 <= n)%Z -> (0 <= int (IZR n * 0.05) <= n)%Z.
Proof.
  intros Hn. assert (0 <= IZR n)%R by (apply IZR_le; exact Hn).
  rewrite int_nonneg by lra. split.
  - apply Zfloor_lub. simpl. lra.
  - assert (IZR (Zfloor (IZR n * 0.05)) <= IZR n)%R.
    { pose proof (Zfloor_bound (IZR n * 0.05)). lra. }
    apply le_IZR. assumption.
Qed.

(** X25.  With a non-zero efficiency, a non-negative standard
    deviation and number of records, and draws NumPy can make,
    [generate_cycle_times] returns one cycle time per record, none
    below half the mean cycle time; a record that is not among the
    spikes gets its normal draw, raised to that floor if it is
    below. *)
Theorem generate_cycle_times_spec
    (mean_cycle_time std_dev : R) (num_records : Z) (line_efficiency : R)
    (normal : list R) (choice : list nat) (uniform : nat -> R) :
  line_efficiency <> 0%R -> (0 <= std_dev)%R -> (0 <= num_records)%Z ->
  Np.normal_array_draw num_records normal ->
  Np.choice_draw num_records (int (IZR num_records * 0.05)) choice ->
  exists cycle_times,
    generate_cycle_times mean_cycle_time std_dev num_records line_efficiency
      normal choice uniform = Ok cycle_times /\
    List.length cycle_times = Z.to_nat num_records /\
    Forall (fun x => (mean_cycle_time * 0.5 <= x)%R) cycle_times /\
    (forall i, ~ In i choice ->
       nth_error cycle_times i
       = option_map (fun x => Rmax x (mean_cycle_time * 0.5))
                    (nth_error normal i)).
Proof.
  intros Heff Hstd Hn Hnormal (Hclen & Hcidx & _).
  unfold generate_cycle_times, truediv.
  destruct (Req_dec_T line_efficiency 0); [contradiction |]. cbn [bind].
  unfold Np.random_normal_array.
  destruct (Rlt_dec std_dev 0); [lra |].
  destruct (Z.ltb_spec num_records 0); [lia |]. cbn [bind].
  pose proof (spike_fraction num_records Hn) as [Hk0 Hk1].
  unfold Np.random_choice.
  destruct (Z.ltb_spec (int (IZR num_records * 0.05)) 0); [lia |].
  destruct (Z.ltb_spec (Z.max 0 num_records) (int (IZR num_records * 0.05)));
    [lia |].
  cbn [bind].
  destruct (spike_loop_spec uniform (enumerate choice) normal)
    as (a & Hrun & Hlen & Hnth).
  { unfold enumerate. apply Forall_forall. intros [k idx] Hin.
    apply (in_map snd) in Hin. rewrite enumerate_from_snd in Hin.
    rewrite Forall_forall in Hcidx. specialize (Hcidx idx Hin).
    cbn [snd]. rewrite Hnormal. lia. }
  rewrite Hrun. cbn [bind]. eexists. split; [reflexivity |].
  split; [unfold Np.maximum; rewrite length_map; congruence |].
  split; [apply maximum_floor |].
  intros i Hi. unfold Np.maximum. rewrite nth_error_map, Hnth.
  - destruct (nth_error normal i) as [x |]; [| reflexivity].
    cbn [option_map]. f_equal. unfold Rmax.
    destruct (Rlt_dec x (mean_cycle_time * 0.5)),
      (Rle_dec x (mean_cycle_time * 0.5)); lra.
  - unfold enumerate. rewrite enumerate_from_snd. exact Hi.
Qed.

Lemma generate_cycle_times_spec_witness :
  0.9 <> 0%R /\ (0 <= 5)%R /\ (0 <= 2)%Z /\
  Np.normal_array_draw 2 [50; 10]%R /\
  Np.choice_draw 2 (int (IZR 2 * 0.05)) [] /\
  exists cycle_times,
    generate_cycle_times 45 5 2 0.9 [50; 10]%R [] (fun _ => 2%R)
      = Ok cycle_times /\
    Forall (fun x => (45 * 0.5 <= x)%R) cycle_times.
Proof.
  assert (H1 : 0.9 <> 0%R) by lra.
  assert (H2 : (0 <= 5)%R) by lra.
  assert (H3 : (0 <= 2)%Z) by lia.
  assert (H4 : Np.normal_array_draw 2 [50; 10]%R) by reflexivity.
  assert (Hk : int (IZR 2 * 0.05) = 0%Z).
  { rewrite int_nonneg by lra. apply Zfloor_eq. lra. }
  assert (H5 : Np.choice_draw 2 (int (IZR 2 * 0.05)) []).
  { rewrite Hk. repeat split; constructor. }
  repeat (split; [assumption |]).
  destruct (generate_cycle_times_spec 45 5 2 0.9 [50; 10]%R [] (fun _ => 2%R)
              H1 H2 H3 H4 H5) as (l & Hrun & _ & Hfloor & _).
  exists l. split; assumption.
Defined.

End CycleTimes.

Section GeneratorErrors.

Import GenerateData.
Open Scope list_scope.

Lemma generate_shifts_spec_witness :
  nth_error [Datetime.of_ordinal 738522] 0 = Some (Datetime.of_ordinal 738522) /\
  nth_error (generate_shifts [Datetime.of_ordinal 738522]) (3 * 0 + 2)
  = Some (Datetime.of_ordinal 738522, "Night"%string).
Proof.
  split; [reflexivity |].
  exact (proj2 (proj2 (proj2 (proj2 (generate_shifts_spec
           [Datetime.of_ordinal 738522])) 0%nat _ eq_refl))).
Defined.

(** X26.  With draws NumPy can make, [generate_cycle_times] raises in
    two cases only: ZeroDivisionError when the efficiency is 0, and
    otherwise ValueError when the standard deviation or the number of
    records is negative. *)
Theorem generate_cycle_times_raises
    (mean_cycle_time std_dev : R) (num_records : Z) (line_efficiency : R)
    (normal : list R) (choice : list nat) (uniform : nat -> R) (e : exn) :
  Np.normal_array_draw num_records normal ->
  Np.choice_draw num_records (int (IZR num_records * 0.05)) choice ->
  (generate_cycle_times mean_cycle_time std_dev num_records line_efficiency
     normal choice uniform = Raise e <->
   (line_efficiency = 0%R /\ e = ZeroDivisionError) \/
   (line_efficiency <> 0%R /\ ((std_dev < 0)%R \/ (num_records < 0)%Z) /\
    e = ValueError)).
Proof.
  intros Hnormal (Hclen & Hcidx & _).
  unfold generate_cycle_times, truediv.
  destruct (Req_dec_T line_efficiency 0) as [E0 | N0]; cbn [bind].
  { split.
    - intros [= <-]. left. auto.
    - intros [[_ ->] | [N _]]; [reflexivity | contradiction]. }
  unfold Np.random_normal_array.
  destruct (Rlt_dec std_dev 0) as [Hs | Hs]; cbn [bind].
  { split.
    - intros [= <-]. right. auto.
    - intros [[E _] | (_ & _ & ->)]; [contradiction | reflexivity]. }
  destruct (Z.ltb_spec num_records 0) as [Hn | Hn]; cbn [bind].
  { split.
    - intros [= <-]. right. auto.
    - intros [[E _] | (_ & _ & ->)]; [contradiction | reflexivity]. }
  pose proof (spike_fraction num_records Hn) as [Hk0 Hk1].
  unfold Np.random_choice.
  destruct (Z.ltb_spec (int (IZR num_records * 0.05)) 0); [lia |].
  destruct (Z.ltb_spec (Z.max 0 num_records) (int (IZR num_records * 0.05)));
    [lia |].
  cbn [bind].
  destruct (spike_loop_spec uniform (enumerate choice) normal)
    as (a & Hrun & _).
  { unfold enumerate. apply Forall_forall. intros [k idx] Hin.
    apply (in_map snd) in Hin. rewrite enumerate_from_snd in Hin.
    rewrite Forall_forall in Hcidx. specialize (Hcidx idx Hin).
    cbn [snd]. rewrite Hnormal. lia. }
  rewrite Hrun. cbn [bind]. split; [discriminate |].
  intros [[E _] | (_ & [Hneg | Hneg] & _)]; [contradiction | lra | lia].
Qed.

Lemma generate_cycle_times_raises_witness :
  Np.normal_array_draw 0 [] /\
  Np.choice_draw 0 (int (IZR 0 * 0.05)) [] /\
  generate_cycle_times 45 5 0 0 [] [] (fun _ => 2%R) = Raise ZeroDivisionError.
Proof.
  assert (H4 : Np.normal_array_draw 0 []) by reflexivity.
  assert (Hk : int (IZR 0 * 0.05) = 0%Z).
  { rewrite int_nonneg by lra. apply Zfloor_eq. lra. }
  assert (H5 : Np.choice_draw 0 (int (IZR 0 * 0.05)) []).
  { rewrite Hk. repeat split; constructor. }
  split; [exact H4 |]. split; [exact H5 |].
  apply (proj2 (generate_cycle_times_raises 45 5 0 0 [] [] (fun _ => 2%R)
                  ZeroDivisionError H4 H5)).
  left. split; reflexivity.
Defined.

Lemma round_between_decimals (x : R) (n : nat) (lo hi : Z) :
  (IZR lo / 10 ^ n <= x <= IZR hi / 10 ^ n)%R ->
  (IZR lo / 10 ^ n <= round x n <= IZR hi / 10 ^ n)%R.
Proof.
  intros [Hlo Hhi]. pose proof (pow10_pos n) as Hp.
  assert (Hx : (IZR lo <= x * 10 ^ n <= IZR hi)%R).
  { split.
    - apply Rmult_le_reg_r with (/ 10 ^ n)%R;
        [apply Rinv_0_lt_compat; exact Hp |].
      replace (x * 10 ^ n * / 10 ^ n)%R with x by (field; lra). exact Hlo.
    - apply Rmult_le_reg_r with (/ 10 ^ n)%R;
        [apply Rinv_0_lt_compat; exact Hp |].
      replace (x * 10 ^ n * / 10 ^ n)%R with x by (field; lra). exact Hhi. }
  unfold round. split.
  - apply Rmult_le_compat_r; [left; apply Rinv_0_lt_compat; exact Hp |].
    apply IZR_le, round_half_even_ge, Hx.
  - apply Rmult_le_compat_r; [left; apply Rinv_0_lt_compat; exact Hp |].
    apply IZR_le, round_half_even_le, Hx.
Qed.

Lemma utilization_clamped (u : R) : (0.3 <= rmax 0.3 (rmin 0.95 u) <= 0.95)%R.
Proof.
  unfold rmax, rmin.
  destruct (Rlt_dec u 0.95); destruct (Rlt_dec 0.3 _); lra.
Qed.

(** X27.  [generate_time_motion_metrics] raises ValueError when the
    cycle time is negative, and returns otherwise.  The operator
    utilization it returns lies between 0.3 and 0.95, and the movement
    and machine times it returns add up to the cycle time to within a
    tenth of a second. *)
Theorem generate_time_motion_metrics_spec
    (cycle_time efficiency_factor : R) (setup movement operator wip : R) :
  ((cycle_time < 0)%R ->
   generate_time_motion_metrics cycle_time efficiency_factor
     setup movement operator wip = Raise ValueError) /\
  ((0 <= cycle_time)%R ->
   exists m,
     generate_time_motion_metrics cycle_time efficiency_factor
       setup movement operator wip = Ok m /\
     (0.3 <= Operator_Utilization m <= 0.95)%R /\
     (Rabs (Movement_Time_Seconds m + Machine_Time_Seconds m - cycle_time)
      <= 0.1)%R).
Proof.
  unfold generate_time_motion_metrics, Np.random_normal.
  destruct (Rlt_dec 5 0); [lra |].
  destruct (Rlt_dec 0.1 0); [lra |]. cbn [bind].
  split; intros Hc.
  - destruct (Rlt_dec (cycle_time * 0.05) 0); [reflexivity | lra].
  - destruct (Rlt_dec (cycle_time * 0.05) 0); [lra |]. cbn [bind].
    eexists. split; [reflexivity |].
    cbn [Operator_Utilization Movement_Time_Seconds Machine_Time_Seconds].
    split.
    + pose proof (utilization_clamped (operator * efficiency_factor)) as Hu.
      pose proof (round_between_decimals
                    (rmax 0.3 (rmin 0.95 (operator * efficiency_factor)))
                    2 30 95) as Hr.
      simpl pow in Hr. lra.
    + pose proof (round_1_error movement).
      pose proof (round_1_error (cycle_time - movement)).
      apply Rabs_le. lra.
Qed.

Lemma generate_time_motion_metrics_spec_witness :
  (0 <= 50)%R /\
  exists m,
    generate_time_motion_metrics 50 0.9 15 10 0.7 15 = Ok m /\
    (0.3 <= Operator_Utilization m <= 0.95)%R.
Proof.
  split; [lra |].
  destruct (proj2 (generate_time_motion_metrics_spec 50 0.9 15 10 0.7 15)
              ltac:(lra)) as (m & Hm & Hu & _).
  exists m. split; assumption.
Defined.

End GeneratorErrors.

Section Records.

Import GenerateData.
Open Scope list_scope.
Open Scope R_scope.

Lemma list_getitem_covered {A} (l : list A) (month : Z) :
  (1 <= month <= Z.of_nat (List.length l))%Z ->
  exists x, list_getitem l (month - 1) = Ok x /\ In x l.
Proof.
  intros [H1 H2]. unfold list_getitem. cbv zeta.
  destruct (Z.ltb_spec (month - 1) 0); [lia |].
  destruct (Z.ltb_spec (month - 1) 0); [lia |].
  destruct (Z.leb_spec (Z.of_nat (List.length l)) (month - 1)); [lia |].
  cbn [orb].
  destruct (nth_error l (Z.to_nat (month - 1))) as [x |] eqn:E.
  - exists x. split; [reflexivity |]. eapply nth_error_In; exact E.
  - apply nth_error_None in E. lia.
Qed.

Lemma list_getitem_past {A} (l : list A) (month : Z) :
  (Z.of_nat (List.length l) < month)%Z ->
  list_getitem l (month - 1) = Raise IndexError.
Proof.
  intros H. unfold list_getitem. cbv zeta.
  destruct (Z.ltb_spec (month - 1) 0); [lia |].
  destruct (Z.ltb_spec (month - 1) 0); [lia |].
  destruct (Z.leb_spec (Z.of_nat (List.length l)) (month - 1)); [| lia].
  reflexivity.
Qed.

Lemma factor_clamped (x : R) : 0.5 <= rmax 0.5 (rmin 0.99 x) <= 0.99.
Proof.
  unfold rmax, rmin.
  destruct (Rlt_dec x 0.99); destruct (Rlt_dec 0.5 _); lra.
Qed.

Lemma factor_rounded (x : R) :
  0.5 <= x <= 0.99 -> 0.5 <= round x 3 <= 0.99.
Proof.
  intros Hx. pose proof (round_between_decimals x 3 500 990) as Hr.
  simpl pow in Hr. lra.
Qed.

Lemma generate_downtime_ok (mean reliability uniform gamma : R)
    (multinomial : list Z) :
  0 <= mean -> reliability <= 1 -> 0 <= gamma ->
  Np.multinomial_draw 100 cause_weights multinomial ->
  exists causes total,
    generate_downtime mean reliability uniform gamma multinomial
      = Ok (causes, total) /\
    0 <= total <= 5 * mean.
Proof.
  intros Hm Hr Hg Hdraw.
  destruct (multinomial_draw_five 100 cause_weights multinomial eq_refl Hdraw)
    as (a & b & c & d & e & -> & _).
  unfold generate_downtime.
  destruct (Rlt_dec uniform 0.8).
  - unfold Np.random_gamma.
    destruct (Rlt_dec 2 0); [lra |].
    destruct (Rlt_dec _ 0); [nra |].
    cbn -[round]. do 2 eexists. split; [reflexivity |].
    pose proof (clamp_total_range gamma mean Hg Hm). lra.
  - do 2 eexists. split; [reflexivity | lra].
Qed.

Lemma generate_production_volume_ok (base : Z) (efficiency downtime normal : R) :
  (0 <= base)%Z -> 0 <= efficiency -> downtime <= 480 ->
  exists v,
    generate_production_volume base efficiency downtime normal = Ok v /\
    (0 <= v <= Zfloor (1.2 * IZR base))%Z.
Proof.
  intros Hb He Hd. apply IZR_le in Hb as Hb'.
  unfold generate_production_volume, Np.random_normal.
  destruct (Rlt_dec _ 0) as [Hs | _].
  { assert (0 <= IZR base * ((480 - downtime) / 480) * efficiency).
    { apply Rmult_le_pos; [| exact He].
      apply Rmult_le_pos; [exact Hb' | lra]. }
    lra. }
  cbn [bind]. eexists; split; [reflexivity |].
  rewrite (int_nonneg (IZR base * 1.2)) by nra.
  rewrite (Rmult_comm (IZR base) 1.2).
  assert (0 <= Zfloor (1.2 * IZR base))%Z by (apply Zfloor_lub; simpl; nra).
  unfold zmax, zmin.
  repeat match goal with
         | |- context [(?a <? ?b)%Z] => destruct (Z.ltb_spec a b)
         end; lia.
Qed.

Lemma generate_defects_ok (volume : Z) (rate quality : R)
    (binomial : Z) (multinomial : list Z) :
  (0 <= volume)%Z -> 0 <= rate * (1 - quality) <= 1 ->
  Np.binomial_draw volume binomial ->
  ((0 < binomial)%Z -> Np.multinomial_draw binomial defect_weights multinomial) ->
  exists types,
    generate_defects volume rate quality binomial multinomial
      = Ok (types, binomial).
Proof.
  intros Hv Hr [Hb0 Hb1] Hdraw.
  unfold generate_defects, Np.random_binomial.
  destruct (Z.ltb_spec volume 0); [lia |].
  destruct (Rlt_dec _ 0); [lra |].
  destruct (Rlt_dec 1 _); [lra |].
  cbn [bind].
  destruct (Z.ltb_spec 0 binomial) as [Hpos | Hnp]; [| eexists; reflexivity].
  destruct (multinomial_draw_five binomial defect_weights multinomial eq_refl
              (Hdraw Hpos)) as (a & b & c & d & e & -> & _).
  unfold Np.random_multinomial.
  destruct (Z.ltb_spec binomial 0); [lia |].
  cbn. eexists; reflexivity.
Qed.

Lemma defect_rate_unit (d v : Z) :
  (0 <= d <= v)%Z -> 0 <= defect_rate_of d v <= 1.
Proof.
  intros [Hd0 Hd1]. unfold defect_rate_of.
  destruct (Z.ltb_spec 0 v) as [Hv | Hv]; [| lra].
  apply IZR_lt in Hv. apply IZR_le in Hd0, Hd1.
  assert (Hx : IZR d = IZR d / IZR v * IZR v) by (field; lra).
  set (x := IZR d / IZR v) in *. split; nra.
Qed.

Lemma calculate_quality_metrics_ok (d v : Z) :
  (0 <= d <= v)%Z -> exists m, calculate_quality_metrics d v = Ok m.
Proof.
  intros Hd. pose proof (defect_rate_unit d v Hd) as Hr.
  unfold calculate_quality_metrics. rewrite defect_rate_guarded. cbn [bind].
  destruct (pow_1_5_cases (1 - defect_rate_of d v))
    as [[_ [r ->]] | [Hneg _]]; [| lra].
  cbn [bind round_number]. eexists; reflexivity.
Qed.

Lemma mean_nonneg (a : list R) : Forall (fun x => 0 <= x) a -> 0 <= Np.mean a.
Proof.
  intros H. unfold Np.mean. destruct a as [| x a].
  - cbn [fold_right]. unfold Rdiv. rewrite Rmult_0_l. lra.
  - apply Rmult_le_pos.
    + clear - H. induction H as [| y l Hy _ IH]; cbn [fold_right]; lra.
    + left. apply Rinv_0_lt_compat, lt_0_INR. cbn; lia.
Qed.

Lemma generate_cycle_times_ok
    (mean_ct std : R) (n : Z) (efficiency : R)
    (normal : list R) (choice : list nat) (uniform : nat -> R) :
  0 <= mean_ct -> efficiency <> 0 -> 0 <= std -> (0 <= n)%Z ->
  Np.normal_array_draw n normal ->
  Np.choice_draw n (int (IZR n * 0.05)) choice ->
  exists cycle_times,
    generate_cycle_times mean_ct std n efficiency normal choice uniform
      = Ok cycle_times /\
    Forall (fun x => 0 <= x) cycle_times.
Proof.
  intros Hm Heff Hstd Hn Hnormal (Hclen & Hcidx & _).
  unfold generate_cycle_times, truediv.
  destruct (Req_dec_T efficiency 0); [contradiction |]. cbn [bind].
  unfold Np.random_normal_array.
  destruct (Rlt_dec std 0); [lra |].
  destruct (Z.ltb_spec n 0); [lia |]. cbn [bind].
  pose proof (spike_fraction n Hn) as [Hk0 Hk1].
  unfold Np.random_choice.
  destruct (Z.ltb_spec (int (IZR n * 0.05)) 0); [lia |].
  destruct (Z.ltb_spec (Z.max 0 n) (int (IZR n * 0.05))); [lia |].
  cbn [bind].
  destruct (spike_loop_spec uniform (enumerate choice) normal)
    as (a & Hrun & _).
  { unfold enumerate. apply Forall_forall. intros [k idx] Hin.
    apply (in_map snd) in Hin. rewrite enumerate_from_snd in Hin.
    rewrite Forall_forall in Hcidx. specialize (Hcidx idx Hin).
    cbn [snd]. rewrite Hnormal. lia. }
  rewrite Hrun. cbn [bind]. eexists. split; [reflexivity |].
  pose proof (maximum_floor a (mean_ct * 0.5)) as Hfloor.
  revert Hfloor. apply Forall_impl. intros x Hx. lra.
Qed.

(** The loop body of [generate_manufacturing_data], for any line with
    sound parameters and a month its trends reach. *)
Lemma generate_record_returns
    (line_name : string) (lp : line_params) (date : Datetime.datetime)
    (shift : string) (o : oracle) :
  line_ok lp -> trends_cover lp (Datetime.month date) -> oracle_valid o ->
  exists record,
    generate_record line_name lp date shift o = Ok record /\
    Rec.Line record = line_name /\ Rec.Shift record = shift /\
    Rec.Date record = Datetime.toordinal date /\
    record_ok lp record.
Proof.
  intros (Hct & Hstd & Hbase & Hrate & Hdown) (Hm1 & Hme & Hmq & Hmr)
         (Hgamma & Hdmult & Hbin & Hmult & Hnorm & Hchoice).
  unfold generate_record. cbv zeta.
  destruct (list_getitem_covered (efficiency_trend lp) _ (conj Hm1 Hme))
    as (e0 & -> & _).
  destruct (list_getitem_covered (quality_trend lp) _ (conj Hm1 Hmq))
    as (q0 & -> & _).
  destruct (list_getitem_covered (reliability_trend lp) _ (conj Hm1 Hmr))
    as (r0 & -> & _).
  cbn [bind].
  pose proof (factor_clamped (e0 * efficiency_variation o)) as He.
  pose proof (factor_clamped (q0 * quality_variation o)) as Hq.
  pose proof (factor_clamped (r0 * reliability_variation o)) as Hr.
  set (e := rmax 0.5 (rmin 0.99 (e0 * efficiency_variation o))) in *.
  set (q := rmax 0.5 (rmin 0.99 (q0 * quality_variation o))) in *.
  set (r := rmax 0.5 (rmin 0.99 (r0 * reliability_variation o))) in *.
  destruct (generate_downtime_ok (mean_downtime lp) r (downtime_uniform o)
              (downtime_gamma o) (downtime_multinomial o))
    as (causes & total & -> & Htotal); try lra; try assumption.
  cbn [bind fst snd].
  destruct (generate_production_volume_ok (base_capacity lp) e total
              (volume_normal o)) as (v & -> & Hv); try lra; try assumption.
  cbn [bind].
  destruct (generate_defects_ok v (base_defect_rate lp) q
              (defects_binomial o v)
              (defects_multinomial o (defects_binomial o v)))
    as (types & ->).
  { lia. } { split; nra. } { apply Hbin; lia. } { apply Hmult. }
  cbn [bind fst snd].
  pose proof (Hbin v ltac:(lia)) as [Hd0 Hd1].
  destruct (calculate_quality_metrics_ok (defects_binomial o v) v)
    as (qm & ->); [lia |].
  cbn [bind].
  set (sample := if (0 <? v)%Z then zmin 20 v else 0%Z).
  assert (Hsample : (0 <= sample)%Z).
  { unfold sample, zmin. destruct (Z.ltb_spec 0 v); [| lia].
    destruct (Z.ltb_spec v 20); lia. }
  destruct (generate_cycle_times_ok (mean_cycle_time lp)
              (cycle_time_std_dev lp) sample e (cycle_normal o sample)
              (cycle_choice o sample) (cycle_uniform o))
    as (cts & -> & Hcts); try assumption; try lra.
  { apply Hnorm; exact Hsample. } { apply Hchoice; exact Hsample. }
  cbn [bind].
  set (avg := if (0 <? List.length cts)%nat then Np.mean cts else 0).
  assert (Havg : 0 <= avg).
  { unfold avg. destruct (0 <? List.length cts)%nat; [| lra].
    apply mean_nonneg; exact Hcts. }
  unfold generate_time_motion_metrics, Np.random_normal.
  destruct (Rlt_dec 5 0); [lra |].
  destruct (Rlt_dec 0.1 0); [lra |].
  destruct (Rlt_dec (avg * 0.05) 0); [lra |].
  cbn [bind]. rewrite defect_rate_guarded. cbn [bind].
  eexists. split; [reflexivity |].
  unfold record_ok.
  cbn [Rec.Line Rec.Shift Rec.Date Rec.Defects_Total Rec.Production_Volume
         Rec.Downtime_Total Rec.Defect_Rate Rec.Average_Cycle_Time
         Rec.Efficiency_Factor Rec.Quality_Factor Rec.Reliability_Factor].
  split; [reflexivity |]. split; [reflexivity |]. split; [reflexivity |].
  split; [lia |]. split; [lia |]. split; [lra |].
  split; [apply (round_between _ 4 0 1), defect_rate_unit; lia |].
  split; [apply round_nonneg; exact Havg |].
  split; [apply factor_rounded; exact He |].
  split; apply factor_rounded; assumption.
Qed.

End Records.

Section DataSet.

Import GenerateData.
Open Scope list_scope.
Open Scope R_scope.

Lemma sample_oracle_valid : oracle_valid sample_oracle.
Proof.
  unfold oracle_valid, sample_oracle; cbn.
  split; [lra |]. split; [repeat split; repeat constructor; lia |].
  split; [intros n Hn; unfold Np.binomial_draw; lia |].
  split.
  { intros n Hn. repeat split; [repeat constructor; lia | cbn; lia]. }
  split; [intros n Hn; unfold Np.normal_array_draw; apply repeat_length |].
  intros n Hn. pose proof (spike_fraction n Hn) as [Hk0 Hk1].
  repeat split.
  - apply length_seq.
  - apply Forall_forall. intros i Hi. apply in_seq in Hi. lia.
  - apply seq_NoDup.
Qed.

Lemma production_lines_ok :
  Forall (fun l => line_ok (snd l) /\
                   List.length (efficiency_trend (snd l)) = 6%nat /\
                   List.length (quality_trend (snd l)) = 6%nat /\
                   List.length (reliability_trend (snd l)) = 6%nat)
         production_lines.
Proof.
  unfold production_lines, line_ok.
  repeat (apply Forall_cons;
          [cbn; repeat split; try reflexivity; try lia; lra |]).
  apply Forall_nil.
Qed.

End DataSet.

Section Calendar.

Open Scope Z_scope.

(** The month of a date is a number from 1 to 12. *)
Lemma month_range (d : Datetime.datetime) : 1 <= Datetime.month d <= 12.
Proof.
  unfold Datetime.month, Datetime.ord2ymd. cbv zeta.
  set (n0 := Datetime.toordinal d - 1).
  set (n1 := ((n0 mod 146097) mod 36524) mod 1461).
  destruct ((n1 / 365 =? 4) || (n0 mod 146097 / 36524 =? 4))%bool;
    [cbn; lia |].
  set (leap := ((n1 / 365 =? 3)
                && (negb ((n0 mod 146097) mod 36524 / 1461 =? 24)
                    || (n0 mod 146097 / 36524 =? 3)))%bool).
  pose proof (Z.mod_pos_bound n1 365 ltac:(lia)) as Hn.
  set (n := n1 mod 365) in *.
  rewrite Z.shiftr_div_pow2 by lia.
  change (2 ^ 5) with 32.
  assert (Hm : 1 <= (n + 50) / 32 <= 12).
  { split; [apply Z.div_le_lower_bound; lia |].
    assert ((n + 50) / 32 < 13) by (apply Z.div_lt_upper_bound; lia). lia. }
  set (m := (n + 50) / 32) in *.
  destruct (Z.eq_dec m 1) as [E | N].
  - rewrite E.
    change (nth (Z.to_nat 1) Datetime.DAYS_BEFORE_MONTH 0) with 0.
    change (2 <? 1) with false. cbn [andb].
    destruct (Z.ltb_spec n (0 + 0)); [lia |]. cbn [fst snd]; lia.
  - match goal with
    | |- context [if ?c then _ else _] => destruct c
    end; cbn [fst snd]; lia.
Qed.

End Calendar.

Section JanuaryToJune.

Import GenerateData.
Open Scope list_scope.
Open Scope R_scope.

(** X29.  With draws NumPy can make, the loop body of
    [generate_manufacturing_data] fails for one of the three lines of
    the generator exactly on the dates of July to December, for which
    the monthly trends have no entry; the exception is IndexError. *)
Theorem generate_record_raises
    (line_name : string) (lp : line_params) (date : Datetime.datetime)
    (shift : string) (o : oracle) (e : exn) :
  In (line_name, lp) production_lines -> oracle_valid o ->
  (generate_record line_name lp date shift o = Raise e <->
   e = IndexError /\ (6 < Datetime.month date)%Z).
Proof.
  intros Hin Hvalid.
  destruct (proj1 (Forall_forall _ _) production_lines_ok _ Hin)
    as (Hok & He & Hq & Hr). cbn [snd] in Hok, He, Hq, Hr.
  pose proof (month_range date) as [Hm1 _].
  destruct (Z_lt_le_dec 6 (Datetime.month date)) as [Hpast | Hcover].
  - assert (Hrun : generate_record line_name lp date shift o
                   = Raise IndexError).
    { unfold generate_record. cbv zeta.
      rewrite (list_getitem_past (efficiency_trend lp)); [reflexivity |].
      rewrite He. exact Hpast. }
    rewrite Hrun. split.
    + intros [= <-]. split; [reflexivity | exact Hpast].
    + intros [-> _]. reflexivity.
  - destruct (generate_record_returns line_name lp date shift o Hok)
      as (record & Hrun & _); [| exact Hvalid |].
    + unfold trends_cover. rewrite He, Hq, Hr. cbn. lia.
    + rewrite Hrun. split; [discriminate |]. intros [_ H]. lia.
Qed.

End JanuaryToJune.

Section WholeDataSet.

Import GenerateData.
Open Scope list_scope.
Open Scope R_scope.

(** X28.  For each of the three lines of the generator, a date of
    January to June and draws NumPy can make, the loop body of
    [generate_manufacturing_data] produces a record of that line, date
    and shift in which the defects lie between 0 and the volume, the
    volume is at most floor(1.2 x base capacity), the downtime lies
    between 0 and five times the mean downtime of the line, the defect
    rate between 0 and 1 and the three factors between 0.5 and 0.99. *)
Theorem generate_record_invariants
    (line_name : string) (lp : line_params) (date : Datetime.datetime)
    (shift : string) (o : oracle) :
  In (line_name, lp) production_lines ->
  (Datetime.month date <= 6)%Z -> oracle_valid o ->
  exists record,
    generate_record line_name lp date shift o = Ok record /\
    Rec.Line record = line_name /\ Rec.Shift record = shift /\
    Rec.Date record = Datetime.toordinal date /\
    record_ok lp record.
Proof.
  intros Hin Hmonth Hvalid.
  destruct (proj1 (Forall_forall _ _) production_lines_ok _ Hin)
    as (Hok & He & Hq & Hr). cbn [snd] in Hok, He, Hq, Hr.
  pose proof (month_range date) as [Hm1 _].
  apply generate_record_returns; [exact Hok | | exact Hvalid].
  unfold trends_cover. rewrite He, Hq, Hr. cbn. lia.
Qed.

Lemma generate_record_invariants_witness :
  exists lp,
    In ("Line A"%string, lp) production_lines /\
    (Datetime.month (Datetime.of_ordinal 738522) <= 6)%Z /\
    oracle_valid sample_oracle /\
    exists record,
      generate_record "Line A" lp (Datetime.of_ordinal 738522) "Morning"
        sample_oracle = Ok record /\
      record_ok lp record.
Proof.
  eexists. split; [left; reflexivity |].
  assert (Hm : (Datetime.month (Datetime.of_ordinal 738522) <= 6)%Z)
    by (vm_compute; discriminate).
  split; [exact Hm |]. split; [exact sample_oracle_valid |].
  destruct (generate_record_invariants "Line A" _
              (Datetime.of_ordinal 738522) "Morning" sample_oracle
              (or_introl eq_refl) Hm sample_oracle_valid)
    as (record & Hrun & _ & _ & _ & Hrec).
  exists record. split; assumption.
Defined.

Lemma generate_record_raises_witness :
  exists lp,
    In ("Line A"%string, lp) production_lines /\
    oracle_valid sample_oracle /\
    generate_record "Line A" lp (Datetime.of_ordinal 738702) "Morning"
      sample_oracle = Raise IndexError.
Proof.
  eexists. split; [left; reflexivity |].
  split; [exact sample_oracle_valid |].
  apply (proj2 (generate_record_raises "Line A" _
                  (Datetime.of_ordinal 738702) "Morning" sample_oracle
                  IndexError (or_introl eq_refl) sample_oracle_valid)).
  split; [reflexivity | vm_compute; reflexivity].
Defined.

Lemma generate_record_cases
    (line_name : string) (lp : line_params) (date : Datetime.datetime)
    (shift : string) (o : oracle) :
  In (line_name, lp) production_lines -> oracle_valid o ->
  ((Datetime.month date <= 6)%Z /\
   exists record,
     generate_record line_name lp date shift o = Ok record /\
     Rec.Line record = line_name /\ record_ok lp record) \/
  ((6 < Datetime.month date)%Z /\
   generate_record line_name lp date shift o = Raise IndexError).
Proof.
  intros Hin Hvalid.
  destruct (proj1 (Forall_forall _ _) production_lines_ok _ Hin)
    as (Hok & He & Hq & Hr). cbn [snd] in Hok, He, Hq, Hr.
  pose proof (month_range date) as [Hm1 _].
  destruct (Z_lt_le_dec 6 (Datetime.month date)) as [Hpast | Hcover].
  - right. split; [exact Hpast |].
    unfold generate_record. cbv zeta.
    rewrite (list_getitem_past (efficiency_trend lp)); [reflexivity |].
    rewrite He. exact Hpast.
  - left. split; [exact Hcover |].
    destruct (generate_record_returns line_name lp date shift o Hok)
      as (record & Hrun & Hline & _ & _ & Hrec); [| exact Hvalid |].
    + unfold trends_cover. rewrite He, Hq, Hr. cbn. lia.
    + exists record. auto.
Qed.

Lemma shifts_loop_spec (line_name : string) (lp : line_params)
    (draws : string -> nat -> oracle) :
  In (line_name, lp) production_lines ->
  (forall idx, oracle_valid (draws line_name idx)) ->
  forall (items : list (nat * (Datetime.datetime * string)))
         (all_data : list Rec.t),
    (Forall in_first_half items ->
     exists records,
       shifts_loop line_name lp items draws all_data
         = Ok (all_data ++ records) /\
       List.length records = List.length items /\
       Forall record_of_line records) /\
    (~ Forall in_first_half items ->
     shifts_loop line_name lp items draws all_data = Raise IndexError).
Proof.
  intros Hin Hvalid.
  induction items as [| [idx [date shift]] items IH]; intros acc.
  - split.
    + intros _. exists []. cbn. rewrite app_nil_r. auto.
    + intros H. exfalso. apply H. constructor.
  - cbn [shifts_loop].
    destruct (generate_record_cases line_name lp date shift
                (draws line_name idx) Hin (Hvalid idx))
      as [(Hm & record & -> & Hline & Hrec) | (Hm & ->)]; cbn [bind].
    + destruct (IH (acc ++ [record])) as [IHok IHerr]. split.
      * intros Hall. apply Forall_inv_tail in Hall as Hrest.
        destruct (IHok Hrest) as (records & Hrun & Hlen & Hrecs).
        exists (record :: records). rewrite Hrun, <- app_assoc.
        split; [reflexivity |]. split; [cbn; lia |].
        constructor; [| exact Hrecs].
        exists lp. rewrite Hline. auto.
      * intros Hnot. apply IHerr. intros Hrest. apply Hnot.
        constructor; [exact Hm | exact Hrest].
    + split; [| reflexivity].
      intros Hall. apply Forall_inv in Hall as Hhd.
      unfold in_first_half in Hhd. cbn [fst snd] in Hhd. lia.
Qed.

End WholeDataSet.

Section Frame.

Import GenerateData.
Open Scope list_scope.
Open Scope R_scope.

Lemma enumerate_from_length {A} (k : nat) (l : list A) :
  List.length (enumerate_from k l) = List.length l.
Proof.
  revert k. induction l as [| x l IH]; intros k; cbn; [reflexivity |].
  now rewrite IH.
Qed.

Lemma enumerate_from_nth {A} (k : nat) (l : list A) (i : nat) :
  nth_error (enumerate_from k l) i
  = option_map (fun x => ((k + i)%nat, x)) (nth_error l i).
Proof.
  revert k i. induction l as [| x l IH]; intros k [| i]; cbn;
    try reflexivity.
  - now rewrite Nat.add_0_r.
  - rewrite IH. now rewrite Nat.add_succ_r.
Qed.

Lemma lines_loop_spec (draws : string -> nat -> oracle)
    (shifts : list (Datetime.datetime * string)) :
  (forall line_name idx, oracle_valid (draws line_name idx)) ->
  forall (lines : list (string * line_params)) (all_data : list Rec.t),
    Forall (fun l => In l production_lines) lines ->
    (Forall in_first_half (enumerate shifts) ->
     exists records,
       lines_loop lines shifts draws all_data = Ok (all_data ++ records) /\
       List.length records = (List.length lines * List.length shifts)%nat /\
       Forall record_of_line records) /\
    (~ Forall in_first_half (enumerate shifts) -> lines <> [] ->
     lines_loop lines shifts draws all_data = Raise IndexError).
Proof.
  intros Hvalid.
  induction lines as [| [line_name lp] lines IH]; intros acc Hin.
  - split.
    + intros _. exists []. cbn. rewrite app_nil_r. auto.
    + intros _ H. contradiction.
  - apply Forall_inv in Hin as Hhd. apply Forall_inv_tail in Hin as Htl.
    cbn [lines_loop].
    destruct (shifts_loop_spec line_name lp draws Hhd (Hvalid line_name)
                (enumerate shifts) acc) as [Hok Herr].
    split.
    + intros Hall. destruct (Hok Hall) as (recs1 & -> & Hlen1 & Hrecs1).
      cbn [bind].
      destruct (IH (acc ++ recs1) Htl) as [IHok _].
      destruct (IHok Hall) as (recs2 & -> & Hlen2 & Hrecs2).
      exists (recs1 ++ recs2). rewrite <- app_assoc.
      split; [reflexivity |]. split.
      * rewrite length_app, Hlen1, Hlen2.
        unfold enumerate. rewrite enumerate_from_length. cbn. lia.
      * apply Forall_app. auto.
    + intros Hnot _. rewrite (Herr Hnot). reflexivity.
Qed.

Lemma shifts_in_first_half (dates : list Datetime.datetime) :
  Forall in_first_half (enumerate (generate_shifts dates)) <->
  Forall (fun d => (Datetime.month d <= 6)%Z) dates.
Proof.
  assert (Hsnd : forall l : list (Datetime.datetime * string),
             Forall in_first_half (enumerate l) <->
             Forall (fun ds => (Datetime.month (fst ds) <= 6)%Z) l).
  { intros l. unfold enumerate, in_first_half.
    rewrite <- (enumerate_from_snd 0 l) at 2. rewrite Forall_map.
    reflexivity. }
  rewrite Hsnd. unfold generate_shifts. rewrite generate_shifts_fold.
  cbn [app]. induction dates as [| d dates IH]; cbn [flat_map].
  - split; constructor.
  - rewrite Forall_app, IH. unfold shifts_of. split.
    + intros [Hd Hrest]. constructor; [| exact Hrest].
      apply Forall_inv in Hd. exact Hd.
    + intros H. apply Forall_inv in H as Hd. apply Forall_inv_tail in H.
      split; [| exact H]. repeat constructor; exact Hd.
Qed.

(** X30.  With draws NumPy can make, [generate_manufacturing_data]
    fails with IndexError as soon as one of its working days is of July
    to December.  Otherwise it returns a frame of 9 records for every
    working day (3 lines, 3 shifts), numbered from 1 in Record_ID, and
    every record is a record of one of the three lines, with defects
    between 0 and the volume and the other bounds of its line. *)
Theorem generate_manufacturing_data_spec
    (start_date end_date : Datetime.datetime)
    (draws : string -> nat -> oracle) (dates : list Datetime.datetime) :
  generate_dates start_date end_date = Some (Returned dates) ->
  (forall line_name idx, oracle_valid (draws line_name idx)) ->
  (Forall (fun d => (Datetime.month d <= 6)%Z) dates ->
   exists df,
     generate_manufacturing_data start_date end_date draws
       = Some (Returned (Ok df)) /\
     List.length df = (9 * List.length dates)%nat /\
     (forall i ir, nth_error df i = Some ir -> fst ir = (Z.of_nat i + 1)%Z) /\
     Forall (fun ir => record_of_line (snd ir)) df) /\
  (~ Forall (fun d => (Datetime.month d <= 6)%Z) dates ->
   generate_manufacturing_data start_date end_date draws
     = Some (Returned (Raise IndexError))).
Proof.
  intros Hdates Hvalid.
  unfold generate_manufacturing_data. rewrite Hdates. cbv zeta.
  destruct (lines_loop_spec draws (generate_shifts dates) Hvalid
              production_lines [])
    as [Hok Herr].
  { apply Forall_forall. auto. }
  split.
  - intros Hall. apply shifts_in_first_half in Hall.
    destruct (Hok Hall) as (records & -> & Hlen & Hrecs).
    cbn [app bind]. eexists. split; [reflexivity |].
    split; [| split].
    + rewrite length_map. unfold enumerate.
      rewrite enumerate_from_length, Hlen.
      assert (Hs : List.length (generate_shifts dates)
                   = (3 * List.length dates)%nat).
      { unfold generate_shifts. rewrite generate_shifts_fold. cbn [app].
        clear. induction dates as [| d l IH]; cbn [flat_map List.length];
          [reflexivity |].
        rewrite length_app. cbn [shifts_of List.length]. lia. }
      rewrite Hs. cbn. lia.
    + intros i ir. rewrite nth_error_map. unfold enumerate.
      rewrite enumerate_from_nth.
      destruct (nth_error records i); [| discriminate].
      cbn. intros [= <-]. reflexivity.
    + apply Forall_map. unfold enumerate.
      rewrite <- (enumerate_from_snd 0 records) in Hrecs.
      rewrite Forall_map in Hrecs. exact Hrecs.
  - intros Hnot. rewrite Herr; [reflexivity | | discriminate].
    intros H. apply Hnot, shifts_in_first_half, H.
Qed.

Lemma forallb_months (l : list Datetime.datetime) :
  forallb (fun d => (Datetime.month d <=? 6)%Z) l = true ->
  Forall (fun d => (Datetime.month d <= 6)%Z) l.
Proof.
  intros H. apply Forall_forall. intros d Hd.
  rewrite forallb_forall in H. apply Z.leb_le, H, Hd.
Qed.

Lemma generate_manufacturing_data_spec_witness :
  exists dates,
    generate_dates (Datetime.of_ordinal 738521) (Datetime.of_ordinal 738701)
      = Some (Returned dates) /\
    (forall (line_name : string) (idx : nat), oracle_valid sample_oracle) /\
    Forall (fun d => (Datetime.month d <= 6)%Z) dates /\
    exists df,
      generate_manufacturing_data (Datetime.of_ordinal 738521)
        (Datetime.of_ordinal 738701) (fun _ _ => sample_oracle)
        = Some (Returned (Ok df)) /\
      List.length df = 1170%nat.
Proof.
  assert (Hdates : exists dates,
             generate_dates (Datetime.of_ordinal 738521)
               (Datetime.of_ordinal 738701) = Some (Returned dates) /\
             List.length dates = 130%nat /\
             forallb (fun d => (Datetime.month d <=? 6)%Z) dates = true).
  { eexists. split; [vm_compute; reflexivity |].
    split; vm_compute; reflexivity. }
  destruct Hdates as (dates & Hrun & Hlen & Hmonths).
  apply forallb_months in Hmonths.
  exists dates. split; [exact Hrun |].
  split; [intros _ _; exact sample_oracle_valid |].
  split; [exact Hmonths |].
  destruct (proj1 (generate_manufacturing_data_spec _ _
                     (fun _ _ => sample_oracle) dates Hrun
                     (fun _ _ => sample_oracle_valid)) Hmonths)
    as (df & Hdf & Hdflen & _).
  exists df. split; [exact Hdf |]. rewrite Hdflen, Hlen. reflexivity.
Defined.

End Frame.
